(** * instructor.dsl.partial: streaming materializer and schema optionalizer

    A shallow embedding of [src/instructor/dsl/partial.py] and
    [src/instructor/mode.py].

    - Python generators are modelled by what a consumer that drains them
      observes: the list of yielded items and the way the generator ends
      (exhausted, or an exception that propagates).
    - Attribute access on response fragments is modelled with an error
      monad in which [AttributeError] can be caught, as the source does.
    - An instance's [__dict__] is a finite map from names to values.
    - Type annotations are a closed inductive type of type shapes, and
      [Partial[...]] is a computation in the error monad: subscripting
      the origin of an annotation can raise. *)

From stdpp Require Import gmap strings list fin_maps.
From Stdlib Require Import ZArith Ascii String List Bool Lia.
Import ListNotations.

#[local] Set Warnings "-register-all".

Local Open Scope string_scope.
Local Open Scope list_scope.

(** ** Exceptions and results *)

Inductive Mode : Type :=
| FUNCTIONS
| PARALLEL_TOOLS
| TOOLS
| MISTRAL_TOOLS
| UNGUIDED_JSON
| PARSED_UNGUIDED_JSON
| JSON
| MD_JSON
| JSON_SCHEMA.

(** The [_value_] of each member, as [mode.py] gives it. *)
Definition Mode_value (m : Mode) : string :=
  match m with
  | FUNCTIONS => "function_call"
  | PARALLEL_TOOLS => "parallel_tool_call"
  | TOOLS => "tool_call"
  | MISTRAL_TOOLS => "mistral_tools"
  | UNGUIDED_JSON => "unguided_json_mode"
  | PARSED_UNGUIDED_JSON => "parsed_unguided_json_mode"
  | JSON => "json_mode"
  | MD_JSON => "markdown_json_mode"
  | JSON_SCHEMA => "json_schema_mode"
  end.

Definition Mode_eqb (a b : Mode) : bool :=
  match a, b with
  | FUNCTIONS, FUNCTIONS | PARALLEL_TOOLS, PARALLEL_TOOLS | TOOLS, TOOLS
  | MISTRAL_TOOLS, MISTRAL_TOOLS | UNGUIDED_JSON, UNGUIDED_JSON
  | PARSED_UNGUIDED_JSON, PARSED_UNGUIDED_JSON | JSON, JSON
  | MD_JSON, MD_JSON | JSON_SCHEMA, JSON_SCHEMA => true
  | _, _ => false
  end.

(** The exceptions the modelled code raises, catches or lets through.
    [OtherError] stands for any exception of a collaborator (the parser,
    the validator, the transport). *)
Inductive exn : Type :=
| AttributeError
| NotImplementedError (msg : string)
| TypeError (msg : string)
| OtherError (name : string).

Inductive res (A : Type) : Type :=
| Ok (a : A)
| Raise (e : exn).
Arguments Ok {A} a.
Arguments Raise {A} e.

Global Instance res_ret : MRet res := fun A a => Ok a.

Global Instance res_bind : MBind res := fun A B k r =>
  match r with
  | Ok a => k a
  | Raise e => Raise e
  end.

(** [try: body except AttributeError: pass] around a body that may produce
    a value: the handler swallows [AttributeError] only. *)
Definition except_AttributeError_pass {A} (body : res (option A)) : res (option A) :=
  match body with
  | Raise AttributeError => Ok None
  | other => other
  end.

(** A drained generator: the items it yielded, in order, and how it ended
    ([None]: exhausted; [Some e]: [e] propagated out of it). *)
Definition gen (A : Type) : Type := (list A * option exn)%type.

Definition yields {A} (g : gen A) : list A := fst g.
Definition outcome {A} (g : gen A) : option exn := snd g.

(** Put one more item in front of what the rest of the run yields. *)
Definition gen_cons {A} (o : option A) (g : gen A) : gen A :=
  match o with
  | Some a => (a :: fst g, snd g)
  | None => g
  end.

(** ** Python values *)

(** Decoded JSON and field values.  Floating-point numbers are left out. *)
Inductive pyobj : Type :=
| PNone
| PBool (b : bool)
| PInt (n : Z)
| PStr (s : string)
| PList (xs : list pyobj)
| PDict (kvs : list (string * pyobj)).

(** Python truthiness ([bool(v)]). *)
Definition truthy (v : pyobj) : bool :=
  match v with
  | PNone => false
  | PBool b => b
  | PInt n => negb (Z.eqb n 0)
  | PStr s => negb (String.eqb s "")
  | PList xs => match xs with [] => false | _ => true end
  | PDict kvs => match kvs with [] => false | _ => true end
  end.

Fixpoint assoc {V} (k : string) (kvs : list (string * V)) : option V :=
  match kvs with
  | [] => None
  | (k', v) :: r => if String.eqb k k' then Some v else assoc k r
  end.

(** Python [==] on values: [True == 1], lists compare element by element,
    dicts compare as maps whatever the order of their keys. *)
Fixpoint py_eqb (a b : pyobj) {struct a} : bool :=
  match a, b with
  | PNone, PNone => true
  | PBool x, PBool y => Bool.eqb x y
  | PBool x, PInt n => Z.eqb (Z.b2z x) n
  | PInt n, PBool x => Z.eqb n (Z.b2z x)
  | PInt m, PInt n => Z.eqb m n
  | PStr s, PStr t => String.eqb s t
  | PList xs, PList ys =>
      (fix go (xs ys : list pyobj) {struct xs} : bool :=
         match xs, ys with
         | [], [] => true
         | x :: xs', y :: ys' => py_eqb x y && go xs' ys'
         | _, _ => false
         end) xs ys
  | PDict kvs, PDict kws =>
      Nat.eqb (length kvs) (length kws) &&
      (fix go (kvs : list (string * pyobj)) {struct kvs} : bool :=
         match kvs with
         | [] => true
         | (k, v) :: r =>
             match assoc k kws with
             | Some w => py_eqb v w
             | None => false
             end && go r
         end) kvs
  | _, _ => false
  end.

(** [None == None], and a value against [None]. *)
Definition opt_py_eqb (a b : option pyobj) : bool :=
  match a, b with
  | None, None => true
  | Some x, Some y => py_eqb x y
  | _, _ => false
  end.

(** ** Strings: [str.strip] *)

(** A text is a sequence of code points below 256, one character each;
    a text with a higher code point is outside the model.  These are the
    code points below 256 for which [str.isspace] holds, the ones
    [str.strip] removes: 9 to 13, 28 to 32, 133 and 160. *)
Definition is_space (c : ascii) : bool :=
  let n := nat_of_ascii c in
  (Nat.leb 9 n && Nat.leb n 13) || (Nat.leb 28 n && Nat.leb n 32)
  || Nat.eqb n 133 || Nat.eqb n 160.

Fixpoint lstrip (s : string) : string :=
  match s with
  | EmptyString => EmptyString
  | String c r => if is_space c then lstrip r else s
  end.

Fixpoint rstrip (s : string) : string :=
  match s with
  | EmptyString => EmptyString
  | String c r =>
      match rstrip r with
      | EmptyString => if is_space c then EmptyString else String c EmptyString
      | r' => String c r'
      end
  end.

Definition strip (s : string) : string := rstrip (lstrip s).

Definition str_truthy (s : string) : bool := negb (String.eqb s "").

(** ** Response fragments *)

(** What reading an attribute of an object can find: no such attribute
    (Python raises [AttributeError]), the value [None], or a value. *)
Inductive attr (A : Type) : Type :=
| Absent
| IsNone
| Has (a : A).
Arguments Absent {A}.
Arguments IsNone {A}.
Arguments Has {A} a.

(** [delta.function_call] and [tool_call.function]: both carry [arguments]. *)
Record FunctionCall : Type := { arguments : attr string }.

Record ToolCall : Type := { function : attr FunctionCall }.

Record Delta : Type := {
  function_call : attr FunctionCall;
  content : attr string;
  tool_calls : attr (list ToolCall)
}.

Record Choice : Type := { delta : attr Delta }.

Record Chunk : Type := { choices : attr (list Choice) }.

(** [o.name]: [o] is a value that may be [None]; reading an attribute of
    [None], or one the object does not have, raises [AttributeError]. *)
Definition getattr {A B} (o : option A) (name : A -> attr B) : res (option B) :=
  match o with
  | None => Raise AttributeError
  | Some a =>
      match name a with
      | Absent => Raise AttributeError
      | IsNone => Ok None
      | Has b => Ok (Some b)
      end
  end.

(** A Python value that is a [str] or [None]. *)
Definition pystr : Type := option string.

Definition pystr_truthy (v : pystr) : bool :=
  match v with
  | Some s => str_truthy s
  | None => false
  end.

Definition NotImplementedError_msg (mode : Mode) : string :=
  "Mode Mode." +:+ match mode with
                   | FUNCTIONS => "FUNCTIONS"
                   | PARALLEL_TOOLS => "PARALLEL_TOOLS"
                   | TOOLS => "TOOLS"
                   | MISTRAL_TOOLS => "MISTRAL_TOOLS"
                   | UNGUIDED_JSON => "UNGUIDED_JSON"
                   | PARSED_UNGUIDED_JSON => "PARSED_UNGUIDED_JSON"
                   | JSON => "JSON"
                   | MD_JSON => "MD_JSON"
                   | JSON_SCHEMA => "JSON_SCHEMA"
                   end +:+ " is not supported for MultiTask streaming".

(** ** [PartialBase.extract_json] *)

(** The body of the [try] of one loop iteration: [Ok (Some v)] yields [v],
    [Ok None] yields nothing. *)
Definition extract_json_try (chunk : Chunk) (mode : Mode) : res (option pystr) :=
  chunk_choices ← getattr (Some chunk) choices;
  match chunk_choices with
  | Some (choices_0 :: _) =>
      if Mode_eqb mode FUNCTIONS then
        d ← getattr (Some choices_0) delta;
        fc ← getattr d function_call;
        json_chunk ← getattr fc arguments;
        if pystr_truthy json_chunk then Ok (Some json_chunk) else Ok None
      else if existsb (Mode_eqb mode) [JSON; MD_JSON; JSON_SCHEMA; PARSED_UNGUIDED_JSON] then
        d ← getattr (Some choices_0) delta;
        json_chunk ← getattr d content;
        if pystr_truthy json_chunk then Ok (Some json_chunk) else Ok None
      else if Mode_eqb mode TOOLS then
        d ← getattr (Some choices_0) delta;
        json_chunk ← getattr d tool_calls;
        match json_chunk with
        | Some (json_chunk_0 :: _) =>
            f ← getattr (Some json_chunk_0) function;
            a ← getattr f arguments;
            Ok (Some a)
        | _ => Ok None
        end
      else
        Raise (NotImplementedError (NotImplementedError_msg mode))
  | _ => Ok None
  end.

Fixpoint extract_json_loop (mode : Mode) (src_end : option exn)
    (completion : list Chunk) : gen pystr :=
  match completion with
  | [] => ([], src_end)
  | chunk :: rest =>
      match except_AttributeError_pass (extract_json_try chunk mode) with
      | Ok y => gen_cons y (extract_json_loop mode src_end rest)
      | Raise e => ([], Some e)
      end
  end.

Definition extract_json (completion : gen Chunk) (mode : Mode) : gen pystr :=
  extract_json_loop mode (outcome completion) (yields completion).

(** ** [PartialBase.extract_json_async] *)

Definition extract_json_async_try (chunk : Chunk) (mode : Mode) : res (option pystr) :=
  chunk_choices ← getattr (Some chunk) choices;
  match chunk_choices with
  | Some (choices_0 :: _) =>
      if Mode_eqb mode FUNCTIONS then
        d ← getattr (Some choices_0) delta;
        fc ← getattr d function_call;
        json_chunk ← getattr fc arguments;
        if pystr_truthy json_chunk then Ok (Some json_chunk) else Ok None
      else if existsb (Mode_eqb mode) [JSON; MD_JSON; JSON_SCHEMA; PARSED_UNGUIDED_JSON] then
        d ← getattr (Some choices_0) delta;
        json_chunk ← getattr d content;
        if pystr_truthy json_chunk then Ok (Some json_chunk) else Ok None
      else if Mode_eqb mode TOOLS then
        d ← getattr (Some choices_0) delta;
        json_chunk ← getattr d tool_calls;
        match json_chunk with
        | Some (json_chunk_0 :: _) =>
            f ← getattr (Some json_chunk_0) function;
            a ← getattr f arguments;
            Ok (Some a)
        | _ => Ok None
        end
      else
        Raise (NotImplementedError (NotImplementedError_msg mode))
  | _ => Ok None
  end.

Fixpoint extract_json_async_loop (mode : Mode) (src_end : option exn)
    (completion : list Chunk) : gen pystr :=
  match completion with
  | [] => ([], src_end)
  | chunk :: rest =>
      match except_AttributeError_pass (extract_json_async_try chunk mode) with
      | Ok y => gen_cons y (extract_json_async_loop mode src_end rest)
      | Raise e => ([], Some e)
      end
  end.

Definition extract_json_async (completion : gen Chunk) (mode : Mode) : gen pystr :=
  extract_json_async_loop mode (outcome completion) (yields completion).

(** ** Schema instances *)

(** A validated instance: its [__dict__], which holds the field values and
    whatever else is stored on the object. *)
Record instance : Type := { obj_dict : gmap string pyobj }.

(** [obj.__dict__[key] = v] *)
Definition dict_setitem (obj : instance) (key : string) (v : pyobj) : instance :=
  {| obj_dict := <[key := v]> (obj_dict obj) |}.

(** Modelled from the spec: the equality of schema instances
    ([BaseModel.__eq__], which is not part of the sources) is the
    field-by-field comparison of the values of the schema's declared
    fields; anything else that sits in [__dict__] takes no part in it. *)
Definition model_eq (model_fields : list string) (a b : instance) : bool :=
  forallb (fun f => opt_py_eqb (obj_dict a !! f) (obj_dict b !! f)) model_fields.

(** [obj != prev_obj], where [prev_obj] starts as [None]. *)
Definition obj_ne (model_fields : list string) (obj : instance)
    (prev_obj : option instance) : bool :=
  match prev_obj with
  | None => true
  | Some p => negb (model_eq model_fields obj p)
  end.

(** The class [cls] the classmethods of [PartialBase] run on: its declared
    field names and its [model_validate] (called with [strict=None] and the
    caller's keyword arguments, which are fixed for one stream). *)
Record ModelClass : Type := {
  model_fields : list string;
  model_validate : pyobj -> res instance
}.

(** The local variables of [model_from_chunks] that live across iterations. *)
Record locals : Type := {
  prev_obj : option instance;
  potential_object : string
}.

(** What one iteration of the loop did: the argument of [parser.parse] if
    the parser was called, and the instance it yielded if it yielded one. *)
Record iteration : Type := {
  after : locals;
  parse_arg : option string;
  emitted : option instance
}.

(** The double quote character. *)
Definition dq : string := String (ascii_of_nat 34) EmptyString.

(** The message of the [TypeError] that [str + None] raises; the type name
    stands between double quotes. *)
Definition concatenate_None_message : string :=
  "can only concatenate str (not " +:+ dq +:+ "NoneType" +:+ dq +:+ ") to str".

(** [potential_object += chunk]: concatenating [None] to a [str] raises. *)
Definition str_iadd (s : string) (chunk : pystr) : res string :=
  match chunk with
  | Some c => Ok (s +:+ c)
  | None => Raise (TypeError concatenate_None_message)
  end.

Definition chunk_value (chunk : pystr) : pyobj :=
  match chunk with
  | Some c => PStr c
  | None => PNone
  end.

Definition opt_truthy (v : option pyobj) : bool :=
  match v with
  | Some x => truthy x
  | None => false
  end.

Section Materializer.

(** The module-level [parser = JSONParser()]: its [parse] method.
    [instructor.dsl.partialjson] is not part of the sources. *)
Variable parser_parse : string -> res pyobj.

Variable cls : ModelClass.

(** ** [PartialBase.model_from_chunks] *)

(** One iteration of the [for] loop.  The instance is changed in place
    before it is yielded and kept: [prev_obj] and the yielded object are
    one object, so both carry the key ["chunk"]. *)
Definition model_from_chunks_body (st : locals) (chunk : pystr) : res iteration :=
  potential_object' ← str_iadd (potential_object st) chunk;
  let nonblank := str_truthy (strip potential_object') in
  task_json ← (if nonblank
               then (v ← parser_parse potential_object'; Ok (Some v))
               else Ok None);
  let parsed := if nonblank then Some potential_object' else None in
  match task_json with
  | Some v =>
      if truthy v then
        obj ← model_validate cls v;
        if obj_ne (model_fields cls) obj (prev_obj st) then
          let obj' := dict_setitem obj "chunk" (chunk_value chunk) in
          Ok {| after := {| prev_obj := Some obj';
                            potential_object := potential_object' |};
                parse_arg := parsed;
                emitted := Some obj' |}
        else
          Ok {| after := {| prev_obj := prev_obj st;
                            potential_object := potential_object' |};
                parse_arg := parsed;
                emitted := None |}
      else
        Ok {| after := {| prev_obj := prev_obj st;
                          potential_object := potential_object' |};
              parse_arg := parsed;
              emitted := None |}
  | None =>
      Ok {| after := {| prev_obj := prev_obj st;
                        potential_object := potential_object' |};
            parse_arg := parsed;
            emitted := None |}
  end.

(** The loop, recording every completed iteration. *)
Fixpoint model_from_chunks_steps (st : locals) (src_end : option exn)
    (json_chunks : list pystr) : gen iteration :=
  match json_chunks with
  | [] => ([], src_end)
  | chunk :: rest =>
      match model_from_chunks_body st chunk with
      | Ok it => gen_cons (Some it) (model_from_chunks_steps (after it) src_end rest)
      | Raise e => ([], Some e)
      end
  end.

Definition locals_init : locals :=
  {| prev_obj := None; potential_object := "" |}.

(** The loop as the caller sees it: the instances it yields. *)
Fixpoint model_from_chunks_loop (st : locals) (src_end : option exn)
    (json_chunks : list pystr) : gen instance :=
  match json_chunks with
  | [] => ([], src_end)
  | chunk :: rest =>
      match model_from_chunks_body st chunk with
      | Ok it => gen_cons (emitted it) (model_from_chunks_loop (after it) src_end rest)
      | Raise e => ([], Some e)
      end
  end.

Definition model_from_chunks (json_chunks : gen pystr) : gen instance :=
  model_from_chunks_loop locals_init (outcome json_chunks) (yields json_chunks).

(** ** [PartialBase.model_from_chunks_async] *)

Fixpoint model_from_chunks_async_loop (potential_object : string)
    (prev_obj : option instance) (src_end : option exn)
    (json_chunks : list pystr) : gen instance :=
  match json_chunks with
  | [] => ([], src_end)
  | chunk :: rest =>
      match str_iadd potential_object chunk with
      | Raise e => ([], Some e)
      | Ok potential_object =>
          match (if str_truthy (strip potential_object)
                 then (v ← parser_parse potential_object; Ok (Some v))
                 else Ok None) with
          | Raise e => ([], Some e)
          | Ok task_json =>
              if opt_truthy task_json then
                match task_json with
                | Some v =>
                    match model_validate cls v with
                    | Raise e => ([], Some e)
                    | Ok obj =>
                        if obj_ne (model_fields cls) obj prev_obj then
                          let obj := dict_setitem obj "chunk" (chunk_value chunk) in
                          gen_cons (Some obj)
                            (model_from_chunks_async_loop potential_object (Some obj)
                               src_end rest)
                        else
                          model_from_chunks_async_loop potential_object prev_obj
                            src_end rest
                    end
                | None =>
                    model_from_chunks_async_loop potential_object prev_obj src_end rest
                end
              else
                model_from_chunks_async_loop potential_object prev_obj src_end rest
          end
      end
  end.

Definition model_from_chunks_async (json_chunks : gen pystr) : gen instance :=
  model_from_chunks_async_loop "" None (outcome json_chunks) (yields json_chunks).

(** ** [from_streaming_response] and [from_streaming_response_async] *)

(** [instructor.utils.extract_json_from_stream] and its asynchronous
    twin, which are not part of the sources: transformers of the stream
    of extracted texts. *)
Variable extract_json_from_stream : gen pystr -> gen pystr.
Variable extract_json_from_stream_async : gen pystr -> gen pystr.

Definition from_streaming_response (completion : gen Chunk) (mode : Mode)
    : gen instance :=
  let json_chunks := extract_json completion mode in
  let json_chunks :=
    if Mode_eqb mode MD_JSON then extract_json_from_stream json_chunks
    else json_chunks in
  model_from_chunks json_chunks.

Definition from_streaming_response_async (completion : gen Chunk) (mode : Mode)
    : gen instance :=
  let json_chunks := extract_json_async completion mode in
  let json_chunks :=
    if Mode_eqb mode MD_JSON then extract_json_from_stream_async json_chunks
    else json_chunks in
  model_from_chunks_async json_chunks.

End Materializer.

(** ** Classes, annotations and fields *)

Inductive default_value : Type :=
| PydanticUndefined
| Default (v : pyobj).

(** The origin of a parameterized generic ([typing.get_origin]):
    [typing.Union], the origin of [Union[...]] and [Optional[...]];
    [types.UnionType], the origin of a union written [X | Y]; or a generic
    class such as [list], [dict] or [tuple], which takes its arguments
    back when it is subscripted with them. *)
Inductive origin : Type :=
| Union
| UnionType
| Origin (name : string).

(** Annotations, classes and the fields of model classes.  An annotation
    is a special form without origin ([Any], a type variable), a class, or
    a parameterized generic.  A class is one of the classes the source
    names, another class that declares no fields ([int], [NoneType], an
    enumeration), or a class with bases and [__fields__].  A class is
    identified with its structure.  A [FieldInfo] has its annotation, its
    [default], its [default_factory] (given by the value the factory
    returns, [None] when the field has no factory) and its description. *)
Inductive ty : Type :=
| TSpecial (name : string)
| TClass (c : pyclass)
| TGeneric (generic_base : origin) (generic_args : list ty)
with pyclass : Type :=
| object_cls
| Generic_cls
| BaseModel_cls
| PartialBase_cls
| Partial_cls
| Builtin (name : string)
| Class (name : string) (bases : list pyclass) (fields : list (string * FieldInfo))
with FieldInfo : Type :=
| mkFieldInfo (annotation : ty) (default : default_value)
    (default_factory : option pyobj) (description : option string).

Definition annotation (f : FieldInfo) : ty :=
  match f with mkFieldInfo a _ _ _ => a end.

Definition default (f : FieldInfo) : default_value :=
  match f with mkFieldInfo _ d _ _ => d end.

Definition default_factory (f : FieldInfo) : option pyobj :=
  match f with mkFieldInfo _ _ factory _ => factory end.

(** Stands for every attribute of a [FieldInfo] that [deepcopy] carries
    over and [_make_field_optional] leaves alone. *)
Definition description (f : FieldInfo) : option string :=
  match f with mkFieldInfo _ _ _ d => d end.

Definition NoneType : ty := TClass (Builtin "NoneType").

Definition __name__ (c : pyclass) : string :=
  match c with
  | object_cls => "object"
  | Generic_cls => "Generic"
  | BaseModel_cls => "BaseModel"
  | PartialBase_cls => "PartialBase"
  | Partial_cls => "Partial"
  | Builtin n => n
  | Class n _ _ => n
  end.

Definition __bases__ (c : pyclass) : list pyclass :=
  match c with
  | object_cls => []
  | Generic_cls | BaseModel_cls | Builtin _ => [object_cls]
  | PartialBase_cls | Partial_cls => [Generic_cls]
  | Class _ bs _ => bs
  end.

Definition __fields__ (c : pyclass) : list (string * FieldInfo) :=
  match c with
  | Class _ _ fs => fs
  | _ => []
  end.

(** The class and everything it inherits from, depth first.  It has the
    same members as the method resolution order. *)
Fixpoint ancestors (c : pyclass) : list pyclass :=
  c :: match c with
       | object_cls => []
       | Generic_cls | BaseModel_cls | Builtin _ => [object_cls]
       | PartialBase_cls | Partial_cls => [Generic_cls; object_cls]
       | Class _ bs _ => flat_map ancestors bs
       end.

Definition is_BaseModel (c : pyclass) : bool :=
  match c with BaseModel_cls => true | _ => false end.

Definition is_Partial (c : pyclass) : bool :=
  match c with Partial_cls => true | _ => false end.

(** [issubclass(c, BaseModel)] *)
Definition issubclass_BaseModel (c : pyclass) : bool :=
  existsb is_BaseModel (ancestors c).

(** [isinstance(arg, type) and issubclass(arg, BaseModel)] *)
Definition is_BaseModel_subclass (arg : ty) : bool :=
  match arg with
  | TClass c => issubclass_BaseModel c
  | _ => false
  end.

(** Structural equality of values, annotations and classes. *)
Fixpoint pyobj_eqb (a b : pyobj) {struct a} : bool :=
  match a, b with
  | PNone, PNone => true
  | PBool x, PBool y => Bool.eqb x y
  | PInt m, PInt n => Z.eqb m n
  | PStr s, PStr t => String.eqb s t
  | PList xs, PList ys =>
      (fix go (xs ys : list pyobj) {struct xs} : bool :=
         match xs, ys with
         | [], [] => true
         | x :: xs', y :: ys' => pyobj_eqb x y && go xs' ys'
         | _, _ => false
         end) xs ys
  | PDict kvs, PDict kws =>
      (fix go (kvs kws : list (string * pyobj)) {struct kvs} : bool :=
         match kvs, kws with
         | [], [] => true
         | (k, v) :: r, (k', w) :: r' => String.eqb k k' && pyobj_eqb v w && go r r'
         | _, _ => false
         end) kvs kws
  | _, _ => false
  end.

Definition default_value_eqb (a b : default_value) : bool :=
  match a, b with
  | PydanticUndefined, PydanticUndefined => true
  | Default v, Default w => pyobj_eqb v w
  | _, _ => false
  end.

Definition option_pyobj_eqb (a b : option pyobj) : bool :=
  match a, b with
  | None, None => true
  | Some v, Some w => pyobj_eqb v w
  | _, _ => false
  end.

Definition origin_eqb (a b : origin) : bool :=
  match a, b with
  | Union, Union => true
  | UnionType, UnionType => true
  | Origin x, Origin y => String.eqb x y
  | _, _ => false
  end.

Definition option_string_eqb (a b : option string) : bool :=
  match a, b with
  | None, None => true
  | Some x, Some y => String.eqb x y
  | _, _ => false
  end.

Fixpoint ty_eqb (a b : ty) {struct a} : bool :=
  match a, b with
  | TSpecial x, TSpecial y => String.eqb x y
  | TClass c, TClass d => pyclass_eqb c d
  | TGeneric o xs, TGeneric p ys =>
      origin_eqb o p &&
      (fix go (xs ys : list ty) {struct xs} : bool :=
         match xs, ys with
         | [], [] => true
         | x :: xs', y :: ys' => ty_eqb x y && go xs' ys'
         | _, _ => false
         end) xs ys
  | _, _ => false
  end
with pyclass_eqb (c d : pyclass) {struct c} : bool :=
  match c, d with
  | object_cls, object_cls
  | Generic_cls, Generic_cls
  | BaseModel_cls, BaseModel_cls
  | PartialBase_cls, PartialBase_cls
  | Partial_cls, Partial_cls => true
  | Builtin x, Builtin y => String.eqb x y
  | Class n bs fs, Class n' bs' fs' =>
      String.eqb n n' &&
      (fix go (bs bs' : list pyclass) {struct bs} : bool :=
         match bs, bs' with
         | [], [] => true
         | x :: r, y :: r' => pyclass_eqb x y && go r r'
         | _, _ => false
         end) bs bs' &&
      (fix go (fs fs' : list (string * FieldInfo)) {struct fs} : bool :=
         match fs, fs' with
         | [], [] => true
         | (k, f) :: r, (k', f') :: r' =>
             String.eqb k k' && FieldInfo_eqb f f' && go r r'
         | _, _ => false
         end) fs fs'
  | _, _ => false
  end
with FieldInfo_eqb (f g : FieldInfo) {struct f} : bool :=
  match f, g with
  | mkFieldInfo a d factory s, mkFieldInfo a' d' factory' s' =>
      ty_eqb a a' && default_value_eqb d d' && option_pyobj_eqb factory factory'
      && option_string_eqb s s'
  end.

(** ** [typing.Union] and [typing.Optional] *)

(** Subscripting [Union] flattens nested unions of either kind, drops
    repeated parameters (the first occurrence stays) and gives back the
    parameter itself when a single one is left. *)
Definition flatten_union (params : list ty) : list ty :=
  flat_map (fun p => match p with
                     | TGeneric Union ps => ps
                     | TGeneric UnionType ps => ps
                     | _ => [p]
                     end) params.

Fixpoint remove_dups_from (seen params : list ty) : list ty :=
  match params with
  | [] => []
  | p :: r =>
      if existsb (ty_eqb p) seen then remove_dups_from seen r
      else p :: remove_dups_from (seen ++ [p]) r
  end.

Definition Union_getitem (params : list ty) : ty :=
  match remove_dups_from [] (flatten_union params) with
  | [p] => p
  | ps => TGeneric Union ps
  end.

(** [Optional[t]] is [Union[t, None]]. *)
Definition Optional_ (t : ty) : ty := Union_getitem [t; NoneType].

Definition UnionType_not_subscriptable : string :=
  "type 'types.UnionType' is not subscriptable".

(** [generic_base[modified_args]]: [typing.Union] builds the union of the
    arguments, a generic class builds its alias, and [types.UnionType]
    cannot be subscripted. *)
Definition subscript (generic_base : origin) (args : list ty) : res ty :=
  match generic_base with
  | Union => Ok (Union_getitem args)
  | UnionType => Raise (TypeError UnionType_not_subscriptable)
  | Origin _ => Ok (TGeneric generic_base args)
  end.

(** [typing.get_origin] and [typing.get_args] *)
Definition get_origin (t : ty) : option origin :=
  match t with
  | TGeneric generic_base _ => Some generic_base
  | _ => None
  end.

Definition get_args (t : ty) : list ty :=
  match t with
  | TGeneric _ generic_args => generic_args
  | _ => []
  end.

(** ** [Partial.__class_getitem__] *)

(** A comprehension whose element expression can raise: the elements are
    evaluated from left to right, and the first exception ends it. *)
Definition mapM {A B : Type} (f : A -> res B) : list A -> res (list B) :=
  fix go (l : list A) : res (list B) :=
    match l with
    | [] => Ok []
    | x :: r => y ← f x; ys ← go r; Ok (y :: ys)
    end.

Section MakeFieldOptional.

(** [Partial[arg]], the recursive use of [__class_getitem__]. *)
Variable Partial_getitem : pyclass -> res pyclass.

(** [Partial[arg] if isinstance(arg, type) and issubclass(arg, BaseModel)
    else arg] *)
Definition modified_arg (arg : ty) : res ty :=
  match arg with
  | TClass c =>
      if issubclass_BaseModel c
      then derived ← Partial_getitem c; Ok (TClass derived)
      else Ok arg
  | _ => Ok arg
  end.

(** The three branches of the source are the three shapes of the
    annotation: [get_origin(annotation) is not None] is the parameterized
    generic; [isinstance(annotation, type) and issubclass(annotation,
    BaseModel)] is a class below [BaseModel]; the [else] branch is every
    other class and the special forms.  An origin is a class or a special
    form, so [generic_base] is true and the conditional expression takes
    [Optional[generic_base[modified_args]]].  [tmp_field] is the copy of
    [field] with its annotation and default reassigned; [default_factory]
    and the description are those of [field]. *)
Definition _make_field_optional (field : FieldInfo) : res (ty * FieldInfo) :=
  match annotation field with
  | TGeneric generic_base generic_args =>
      modified_args ← mapM modified_arg generic_args;
      generic ← subscript generic_base modified_args;
      let tmp_annotation := Optional_ generic in
      Ok (tmp_annotation,
          mkFieldInfo tmp_annotation (Default PNone) (default_factory field)
            (description field))
  | TClass c =>
      if issubclass_BaseModel c then
        derived ← Partial_getitem c;
        let tmp_annotation := Optional_ (TClass derived) in
        Ok (tmp_annotation,
            mkFieldInfo tmp_annotation (Default (PDict [])) (default_factory field)
              (description field))
      else
        let tmp_annotation := Optional_ (annotation field) in
        Ok (tmp_annotation,
            mkFieldInfo tmp_annotation (Default PNone) (default_factory field)
              (description field))
  | TSpecial _ =>
      let tmp_annotation := Optional_ (annotation field) in
      Ok (tmp_annotation,
          mkFieldInfo tmp_annotation (Default PNone) (default_factory field)
            (description field))
  end.

(** One item of the dictionary given to [create_model]. *)
Definition optional_item (field_name_info : string * FieldInfo)
    : res (string * FieldInfo) :=
  optional ← _make_field_optional (snd field_name_info);
  Ok (fst field_name_info, snd optional).

End MakeFieldOptional.

(** The class object [create_model] builds for [Partial[wrapped_class]]:
    name [Partial<name>], bases [(wrapped_class, PartialBase)], and the
    fields of [wrapped_class], each through [_make_field_optional].  The
    fields are transformed in their order, before the class is built; an
    exception raised for one of them ends the derivation. *)
Fixpoint Partial_getitem (wrapped_class : pyclass) {struct wrapped_class}
    : res pyclass :=
  fields ← match wrapped_class with
           | Class _ _ fs => mapM (optional_item Partial_getitem) fs
           | _ => Ok []
           end;
  Ok (Class ("Partial" +:+ __name__ wrapped_class) [wrapped_class; PartialBase_cls]
        fields).

(** ** Creating and calling classes *)

(** [__new__] and [__init_subclass__] are defined by [Partial] and, as the
    fallback that ends every method resolution order, by [object]
    ([Generic.__init_subclass__] passes the call on).  The lookup from a
    class therefore finds [Partial]'s definition exactly when [Partial] is
    among the ancestors. *)
Definition resolves_to_Partial (c : pyclass) : bool :=
  existsb is_Partial (ancestors c).

(** The class statement and [create_model]: [type.__new__] builds the class
    and calls [__init_subclass__] of its parents. *)
Definition type_new (module_ name : string) (bases : list pyclass)
    (fields : list (string * FieldInfo)) : res pyclass :=
  if existsb resolves_to_Partial bases
  then Raise (TypeError ("Cannot subclass " +:+ module_ +:+ ".Partial"))
  else Ok (Class name bases fields).

(** [Partial[wrapped_class]] as the caller sees it: reading [__fields__]
    of a class that is not a model raises, then the fields are
    transformed, and the creation of the class raises if a parent rejects
    it.  [module_] is [wrapped_class.__module__]. *)
Definition Partial_class_getitem (module_ : string) (wrapped_class : pyclass)
    : res pyclass :=
  if issubclass_BaseModel wrapped_class then
    derived ← Partial_getitem wrapped_class;
    type_new module_ ("Partial" +:+ __name__ wrapped_class)
      [wrapped_class; PartialBase_cls] (__fields__ derived)
  else Raise AttributeError.

(** The value a field takes when no data is given for it: what its
    [default_factory] returns if it has one, else its [default]; a field
    with neither is required. *)
Definition field_get_default (field : FieldInfo) : option pyobj :=
  match default_factory field with
  | Some made => Some made
  | None =>
      match default field with
      | Default v => Some v
      | PydanticUndefined => None
      end
  end.

(** The field values of an instance built from no data; a required field
    fails validation. *)
Fixpoint defaults_dict (fields : list (string * FieldInfo))
    : res (gmap string pyobj) :=
  match fields with
  | [] => Ok ∅
  | (field_name, field) :: rest =>
      d ← defaults_dict rest;
      match field_get_default field with
      | Some v => Ok (<[field_name := v]> d)
      | None => Raise (OtherError "ValidationError")
      end
  end.

(** [cls()]: calling a class without arguments. *)
Definition type_call (c : pyclass) : res instance :=
  if resolves_to_Partial c
  then Raise (TypeError "Cannot instantiate abstract Partial class.")
  else
    d ← defaults_dict (__fields__ c);
    Ok {| obj_dict := d |}.

(** ** Collaborators of the example runs *)

(** A decoder given by the values it returns on the buffers of one run;
    on any other text, the blank ones included, it raises. *)
Definition decoder_from_table (table : list (string * pyobj)) (text : string)
    : res pyobj :=
  match assoc text table with
  | Some v => Ok v
  | None => Raise (OtherError "JSONDecodeError")
  end.

Definition get_default (key : string) (kvs : list (string * pyobj)) : pyobj :=
  match assoc key kvs with
  | Some v => v
  | None => PNone
  end.

(** Validation against a flat schema whose fields are all optional with
    default [None]: a field takes the value the object gives it, or its
    default; anything but an object is rejected. *)
Definition validate_flat_optional (field_names : list string) (v : pyobj)
    : res instance :=
  match v with
  | PDict kvs =>
      Ok {| obj_dict :=
              list_to_map (map (fun f => (f, get_default f kvs)) field_names) |}
  | _ => Raise (OtherError "ValidationError")
  end.

Definition flat_optional_cls (field_names : list string) : ModelClass :=
  {| model_fields := field_names;
     model_validate := validate_flat_optional field_names |}.

(** The values of the declared fields of an instance, in declaration order. *)
Definition field_values (field_names : list string) (obj : instance)
    : list (option pyobj) :=
  map (fun f => obj_dict obj !! f) field_names.

(** A schema that declares a field named [chunk], and a run on it: the
    text of an object that sets the field, then two fragments of one space. *)
Definition chunk_field_cls : ModelClass := flat_optional_cls ["chunk"].

Definition chunk_object_text : string := "{" +:+ dq +:+ "chunk" +:+ dq +:+ ": 1}".

Definition chunk_object : pyobj := PDict [("chunk", PInt 1)].

Definition chunk_field_fragments : gen pystr :=
  ([Some chunk_object_text; Some " "; Some " "], None).

Definition chunk_field_decoder : string -> res pyobj :=
  decoder_from_table
    [(chunk_object_text, chunk_object);
     (chunk_object_text +:+ " ", chunk_object);
     (chunk_object_text +:+ "  ", chunk_object)].

(** The run of an object that arrives in two fragments. *)
Definition a_then_b_fragments : gen pystr :=
  ([Some ("{" +:+ dq +:+ "a" +:+ dq +:+ ": 1");
    Some (", " +:+ dq +:+ "b" +:+ dq +:+ ": 2}")], None).

Definition a_then_b_decoder : string -> res pyobj :=
  decoder_from_table
    [("{" +:+ dq +:+ "a" +:+ dq +:+ ": 1", PDict [("a", PInt 1)]);
     ("{" +:+ dq +:+ "a" +:+ dq +:+ ": 1, " +:+ dq +:+ "b" +:+ dq +:+ ": 2}",
      PDict [("a", PInt 1); ("b", PInt 2)])].

(** The run of blank fragments followed by an empty object. *)
Definition blank_then_empty_fragments : list pystr :=
  [Some ""; Some "   "; Some "{}"].

Definition empty_object_decoder : string -> res pyobj :=
  decoder_from_table [("   {}", PDict [])].

(** A fragment of the content-delta shape. *)
Definition content_chunk (text : string) : Chunk :=
  {| choices := Has [ {| delta := Has {| function_call := IsNone;
                                         content := Has text;
                                         tool_calls := IsNone |} |} ] |}.

(** ** Example schemas *)

Definition int_ : ty := TClass (Builtin "int").
Definition str_ : ty := TClass (Builtin "str").
Definition list_ (t : ty) : ty := TGeneric (Origin "list") [t].
Definition dict_ (k v : ty) : ty := TGeneric (Origin "dict") [k; v].

(** [class Inner(BaseModel): x: int] *)
Definition Inner : pyclass :=
  Class "Inner" [BaseModel_cls] [("x", mkFieldInfo int_ PydanticUndefined None None)].

(** [class Outer(BaseModel): inner: Inner] *)
Definition Outer : pyclass :=
  Class "Outer" [BaseModel_cls]
    [("inner", mkFieldInfo (TClass Inner) PydanticUndefined None None)].

(** [class Flat(BaseModel): a: int; tags: list[str]; note: Optional[str];
    items: list[Inner]] *)
Definition Flat : pyclass :=
  Class "Flat" [BaseModel_cls]
    [("a", mkFieldInfo int_ PydanticUndefined None None);
     ("tags", mkFieldInfo (list_ str_) PydanticUndefined None None);
     ("note", mkFieldInfo (TGeneric Union [str_; NoneType]) (Default PNone) None None);
     ("items", mkFieldInfo (list_ (TClass Inner)) PydanticUndefined None None)].

(** [class Pep604(BaseModel): x: int | None] *)
Definition Pep604 : pyclass :=
  Class "Pep604" [BaseModel_cls]
    [("x", mkFieldInfo (TGeneric UnionType [int_; NoneType]) PydanticUndefined None None)].

(** [class Tagged(BaseModel): tags: list[str] = Field(default_factory=list)],
    the factory given by the empty list it returns. *)
Definition Tagged : pyclass :=
  Class "Tagged" [BaseModel_cls]
    [("tags", mkFieldInfo (list_ str_) PydanticUndefined (Some (PList [])) None)].

(** ** Vocabulary of the properties *)

(** The Modes for which [extract_json] has a branch. *)
Definition streaming_supported (mode : Mode) : bool :=
  existsb (Mode_eqb mode) [FUNCTIONS; JSON; MD_JSON; JSON_SCHEMA; PARSED_UNGUIDED_JSON; TOOLS].

(** A fragment whose [choices] is absent, [None] or empty. *)
Definition without_choices (chunk : Chunk) : Prop :=
  choices chunk = Absent \/ choices chunk = IsNone \/ choices chunk = Has [].

(** Every instance of the list differs, under the equality of the schema,
    from the one before it; [prev] is the one before the first. *)
Fixpoint adjacent_ne (field_names : list string) (prev : option instance)
    (l : list instance) : bool :=
  match l with
  | [] => true
  | obj :: r => obj_ne field_names obj prev && adjacent_ne field_names (Some obj) r
  end.

(** The buffer of every iteration extends the buffer before it by the
    chunk of the iteration; [buffer] is the buffer before the first. *)
Fixpoint grows_by (buffer : string) (json_chunks : list pystr)
    (its : list iteration) : Prop :=
  match its, json_chunks with
  | [], _ => True
  | it :: r, Some chunk :: chunks =>
      potential_object (after it) = buffer +:+ chunk
      /\ grows_by (potential_object (after it)) chunks r
  | _ :: _, _ => False
  end.

(** [s] starts with [p]. *)
Definition starts_with (s p : string) : Prop := exists suffix, s = p +:+ suffix.

(** The buffer of every iteration starts with the buffer before it. *)
Fixpoint each_extends (buffer : string) (its : list iteration) : Prop :=
  match its with
  | [] => True
  | it :: r =>
      starts_with (potential_object (after it)) buffer
      /\ each_extends (potential_object (after it)) r
  end.

(** The parser, when an iteration calls it, gets the whole buffer. *)
Definition parses_whole_buffer (it : iteration) : Prop :=
  parse_arg it = None \/ parse_arg it = Some (potential_object (after it)).

(** The name and the default of every field, in declaration order. *)
Definition field_defaults (c : pyclass) : list (string * default_value) :=
  map (fun nf => (fst nf, default (snd nf))) (__fields__ c).

(** A union of either kind, which [Union[...]] flattens. *)
Definition is_Union (t : ty) : bool :=
  match t with
  | TGeneric Union _ | TGeneric UnionType _ => true
  | _ => false
  end.

(** No parameter is equal to one before it or to one of [seen]. *)
Fixpoint nodup_from (seen params : list ty) : bool :=
  match params with
  | [] => true
  | p :: r => negb (existsb (ty_eqb p) seen) && nodup_from (seen ++ [p]) r
  end.

(** The parameters of a [Union] as [typing] keeps them: at least two, none
    of them a union, no two equal. *)
Definition Union_params_ok (params : list ty) : bool :=
  Nat.leb 2 (length params)
  && forallb (fun p => negb (is_Union p)) params
  && nodup_from [] params.

(** The declared types on which optionalizing a second time changes
    nothing: every type but a model class, a [Union] that has a model
    class among its parameters, and a union written [X | Y], on which
    optionalizing raises. *)
Definition settles_after_once (declared : ty) : bool :=
  match declared with
  | TSpecial _ => true
  | TClass c => negb (issubclass_BaseModel c)
  | TGeneric Union params =>
      Union_params_ok params && forallb (fun p => negb (is_BaseModel_subclass p)) params
  | TGeneric UnionType _ => false
  | TGeneric (Origin _) _ => true
  end.

Definition is_UnionType (generic_base : origin) : bool :=
  match generic_base with UnionType => true | _ => false end.

(** No annotation reached from the fields of the class, through type
    arguments and the fields of the classes met, is a union written
    [X | Y]. *)
Fixpoint pep604_free (t : ty) : bool :=
  match t with
  | TSpecial _ => true
  | TClass c => pep604_free_class c
  | TGeneric generic_base generic_args =>
      negb (is_UnionType generic_base) && forallb pep604_free generic_args
  end
with pep604_free_class (c : pyclass) : bool :=
  match c with
  | Class _ _ fields =>
      forallb (fun field_name_info => pep604_free_field (snd field_name_info)) fields
  | _ => true
  end
with pep604_free_field (f : FieldInfo) : bool :=
  match f with mkFieldInfo a _ _ _ => pep604_free a end.

(** [arg] is the annotation [a] itself or one of its type arguments: the
    places where [_make_field_optional] looks for a model class. *)
Definition top_or_argument (arg a : ty) : Prop :=
  a = arg \/ exists generic_base generic_args,
               a = TGeneric generic_base generic_args /\ In arg generic_args.

(** What [modified_args] holds for the argument [arg]: the derived class
    of a model class, the argument itself otherwise. *)
Definition is_modified_arg (arg modified : ty) : Prop :=
  match arg with
  | TClass c =>
      if issubclass_BaseModel c
      then exists derived, Partial_getitem c = Ok derived /\ modified = TClass derived
      else modified = arg
  | _ => modified = arg
  end.

(** ** Vocabulary of the further properties *)

(** What a fragment contributes to the extracted stream, read off its
    shape: the text of the first choice's delta that the mode selects.  In
    the two text branches the text counts when it is a non-empty string;
    in the [TOOLS] branch the arguments of the first tool call count
    whatever they are, [None] included. *)
Definition selected_arguments (fc : attr FunctionCall) : option string :=
  match fc with
  | Has f => match arguments f with Has s => Some s | _ => None end
  | _ => None
  end.

Definition nonempty (text : option string) : option pystr :=
  match text with
  | Some s => if str_truthy s then Some (Some s) else None
  | None => None
  end.

Definition selected_of_delta (mode : Mode) (d : Delta) : option pystr :=
  match mode with
  | FUNCTIONS => nonempty (selected_arguments (function_call d))
  | JSON | MD_JSON | JSON_SCHEMA | PARSED_UNGUIDED_JSON =>
      nonempty (match content d with Has s => Some s | _ => None end)
  | TOOLS =>
      match tool_calls d with
      | Has (tool_call_0 :: _) =>
          match function tool_call_0 with
          | Has f =>
              match arguments f with
              | Has s => Some (Some s)
              | IsNone => Some None
              | Absent => None
              end
          | _ => None
          end
      | _ => None
      end
  | _ => None
  end.

Definition selected (mode : Mode) (chunk : Chunk) : option pystr :=
  match choices chunk with
  | Has (choices_0 :: _) =>
      match delta choices_0 with
      | Has d => selected_of_delta mode d
      | _ => None
      end
  | _ => None
  end.

(** The modes whose branch tests the extracted text for truth. *)
Definition text_mode (mode : Mode) : bool :=
  existsb (Mode_eqb mode) [FUNCTIONS; JSON; MD_JSON; JSON_SCHEMA; PARSED_UNGUIDED_JSON].

Definition is_nonempty_str (y : pystr) : bool :=
  match y with
  | Some s => str_truthy s
  | None => false
  end.

(** Every character of the text is white space. *)
Definition is_blank (s : string) : bool :=
  forallb is_space (list_ascii_of_string s).

Definition blank_chunk (chunk : pystr) : bool :=
  match chunk with
  | Some s => is_blank s
  | None => false
  end.

Definition parser_called (it : iteration) : bool :=
  match parse_arg it with
  | Some _ => true
  | None => false
  end.

(** Once an iteration has called the parser, every later one calls it. *)
Fixpoint parses_from_first_call (its : list iteration) : bool :=
  match its with
  | [] => true
  | it :: r =>
      if parser_called it then forallb parser_called r
      else parses_from_first_call r
  end.

(** The parser is called exactly when the buffer is not blank, and then
    on the buffer. *)
Definition parse_arg_by_buffer (it : iteration) : Prop :=
  parse_arg it
  = if is_blank (potential_object (after it)) then None
    else Some (potential_object (after it)).

Section RunVocabulary.

Variable parser_parse : string -> res pyobj.
Variable cls : ModelClass.

(** The locals with which the loop leaves [json_chunks], or the exception
    that ended it. *)
Fixpoint model_from_chunks_locals (st : locals) (json_chunks : list pystr)
    : res locals :=
  match json_chunks with
  | [] => Ok st
  | chunk :: rest =>
      it ← model_from_chunks_body parser_parse cls st chunk;
      model_from_chunks_locals (after it) rest
  end.

(** What stands behind an emitted instance: the buffer up to and with the
    chunk of the iteration was decoded to a truthy value, the value was
    validated, and the instance is the validated one with the chunk stored
    under ["chunk"]. *)
Definition emission_justified (buffer : string) (chunk : string) (e : instance)
    : Prop :=
  exists v obj,
    parser_parse (buffer +:+ chunk) = Ok v
    /\ truthy v = true
    /\ model_validate cls v = Ok obj
    /\ e = dict_setitem obj "chunk" (PStr chunk).

Fixpoint emissions_justified (buffer : string) (json_chunks : list pystr)
    (its : list iteration) : Prop :=
  match its, json_chunks with
  | [], _ => True
  | it :: r, Some chunk :: chunks =>
      match emitted it with
      | Some e => emission_justified buffer chunk e
      | None => True
      end
      /\ emissions_justified (buffer +:+ chunk) chunks r
  | _ :: _, _ => False
  end.

End RunVocabulary.

(** A decoder for a run whose buffer becomes a JSON array. *)
Definition array_decoder : string -> res pyobj :=
  decoder_from_table [(" [1]", PList [PInt 1])].

(** The annotation admits [None]: it is [NoneType] or a union with
    [NoneType] among its parameters. *)
Definition accepts_None (a : ty) : bool :=
  match a with
  | TGeneric Union params | TGeneric UnionType params =>
      existsb (ty_eqb NoneType) params
  | _ => ty_eqb NoneType a
  end.

(** The [default] attribute is [None] or [{}]. *)
Definition default_None_or_empty (d : default_value) : bool :=
  match d with
  | Default PNone => true
  | Default (PDict []) => true
  | _ => false
  end.

Definition is_optional_field (field : FieldInfo) : bool :=
  accepts_None (annotation field) && default_None_or_empty (default field).

(** [Partial[...Partial[c]...]], [n] times. *)
Fixpoint Partial_iterated (module_ : string) (n : nat) (c : pyclass) : res pyclass :=
  match n with
  | 0 => Ok c
  | S n' =>
      derived ← Partial_iterated module_ n' c;
      Partial_class_getitem module_ derived
  end.

(** ** [Mode.__new__] and the members of [Mode] *)

Record Mode_member : Type := { _value_ : string }.

Definition FUNCTIONS_deprecated : string :=
  "FUNCTIONS is deprecated and will be removed in future versions".

(** [Mode.__new__(cls, value)]: the member, and the [DeprecationWarning]s
    issued while it is built. *)
Definition Mode___new__ (value : string) : Mode_member * list string :=
  let member := {| _value_ := value |} in
  if String.eqb value "function_call"
  then (member, [FUNCTIONS_deprecated])
  else (member, []).

(** The members in the order of the class body. *)
Definition Mode_members : list Mode :=
  [FUNCTIONS; PARALLEL_TOOLS; TOOLS; MISTRAL_TOOLS; UNGUIDED_JSON;
   PARSED_UNGUIDED_JSON; JSON; MD_JSON; JSON_SCHEMA].

(** The warnings issued while the class body of [Mode] is executed. *)
Definition Mode_class_warnings : list string :=
  flat_map (fun m => snd (Mode___new__ (Mode_value m))) Mode_members.

(** [Mode(value)]: the first member with that value. *)
Definition Mode_by_value (value : string) : option Mode :=
  find (fun m => String.eqb (_value_ (fst (Mode___new__ (Mode_value m)))) value)
       Mode_members.

(** * Properties *)

(** ** The fragment extractor *)

Lemma extract_json_async_try_eq (chunk : Chunk) (mode : Mode) :
  extract_json_async_try chunk mode = extract_json_try chunk mode.
Proof. reflexivity. Qed.

Lemma extract_json_async_loop_eq (mode : Mode) (src_end : option exn)
    (completion : list Chunk) :
  extract_json_async_loop mode src_end completion
  = extract_json_loop mode src_end completion.
Proof.
  induction completion as [|chunk rest IH]; simpl; [reflexivity|].
  rewrite extract_json_async_try_eq, IH. reflexivity.
Qed.

Lemma extract_json_async_eq (completion : gen Chunk) (mode : Mode) :
  extract_json_async completion mode = extract_json completion mode.
Proof. apply extract_json_async_loop_eq. Qed.

Lemma extract_json_try_without_choices (chunk : Chunk) (mode : Mode) :
  without_choices chunk ->
  except_AttributeError_pass (extract_json_try chunk mode) = Ok None.
Proof.
  intros [H | [H | H]]; unfold extract_json_try, getattr; rewrite H; reflexivity.
Qed.

Lemma extract_json_loop_skip (mode : Mode) (src_end : option exn)
    (pre rest : list Chunk) :
  Forall without_choices pre ->
  extract_json_loop mode src_end (pre ++ rest) = extract_json_loop mode src_end rest.
Proof.
  induction 1 as [|chunk pre Hc _ IH]; simpl; [reflexivity|].
  rewrite (extract_json_try_without_choices _ _ Hc). simpl. exact IH.
Qed.

Lemma extract_json_try_unsupported (chunk : Chunk) (mode : Mode)
    (choices_0 : Choice) (others : list Choice) :
  streaming_supported mode = false ->
  choices chunk = Has (choices_0 :: others) ->
  except_AttributeError_pass (extract_json_try chunk mode)
  = Raise (NotImplementedError (NotImplementedError_msg mode)).
Proof.
  intros Hm Hc. unfold extract_json_try, getattr. rewrite Hc.
  destruct mode; try discriminate Hm; reflexivity.
Qed.

(** C10. A fragment whose [choices] is absent, [None] or empty is passed
    over by [extract_json] and [extract_json_async] before the mode is
    looked at: the run goes on as if the fragment were not there, a stream
    made of that fragment alone yields nothing and ends without an error
    whatever the mode, supported or not.  When [choices] is not empty only
    its first element counts: replacing the other elements changes nothing. *)
Theorem extract_json_choices_gate
    (mode : Mode) (chunk : Chunk) (rest : list Chunk) (src_end : option exn)
    (choices_0 : Choice) (others others' : list Choice) :
  (without_choices chunk ->
     extract_json (chunk :: rest, src_end) mode = extract_json (rest, src_end) mode
     /\ extract_json_async (chunk :: rest, src_end) mode
        = extract_json_async (rest, src_end) mode
     /\ extract_json ([chunk], None) mode = ([], None)
     /\ extract_json_async ([chunk], None) mode = ([], None))
  /\ extract_json ({| choices := Has (choices_0 :: others) |} :: rest, src_end) mode
     = extract_json ({| choices := Has (choices_0 :: others') |} :: rest, src_end) mode
  /\ extract_json_async ({| choices := Has (choices_0 :: others) |} :: rest, src_end) mode
     = extract_json_async ({| choices := Has (choices_0 :: others') |} :: rest, src_end) mode.
Proof.
  split.
  - intros Hc.
    assert (Hskip : forall e l,
               extract_json (chunk :: l, e) mode = extract_json (l, e) mode).
    { intros e l. unfold extract_json, outcome, yields; simpl.
      rewrite (extract_json_try_without_choices _ _ Hc). reflexivity. }
    repeat split.
    + apply Hskip.
    + exact (Hskip src_end rest).
    + apply (Hskip None []).
    + exact (Hskip None []).
  - split; reflexivity.
Qed.

Lemma extract_json_choices_gate_witness :
  extract_json ([ {| choices := IsNone |} ], None) PARALLEL_TOOLS = ([], None).
Proof.
  apply (extract_json_choices_gate PARALLEL_TOOLS {| choices := IsNone |} [] None
           {| delta := Absent |} [] []).
  right; left; reflexivity.
Defined.

(** ** The streaming materializer *)

Section MaterializerFacts.

Variable parser_parse : string -> res pyobj.
Variable cls : ModelClass.

Lemma model_from_chunks_async_loop_eq (json_chunks : list pystr) :
  forall (st : locals) (src_end : option exn),
    model_from_chunks_async_loop parser_parse cls
      (potential_object st) (prev_obj st) src_end json_chunks
    = model_from_chunks_loop parser_parse cls st src_end json_chunks.
Proof.
  induction json_chunks as [|chunk rest IH]; intros st src_end; simpl; [reflexivity|].
  unfold model_from_chunks_body.
  destruct (str_iadd (potential_object st) chunk) as [buf|e]; simpl; [|reflexivity].
  destruct (str_truthy (strip buf)); simpl.
  - destruct (parser_parse buf) as [v|e]; simpl; [|reflexivity].
    destruct (truthy v); simpl.
    + destruct (model_validate cls v) as [obj|e]; simpl; [|reflexivity].
      destruct (obj_ne (model_fields cls) obj (prev_obj st)); simpl.
      * rewrite <- IH. reflexivity.
      * rewrite <- IH. reflexivity.
    + rewrite <- IH. reflexivity.
  - rewrite <- IH. reflexivity.
Qed.

Lemma model_from_chunks_async_eq (json_chunks : gen pystr) :
  model_from_chunks_async parser_parse cls json_chunks
  = model_from_chunks parser_parse cls json_chunks.
Proof.
  unfold model_from_chunks_async, model_from_chunks.
  apply (model_from_chunks_async_loop_eq _ locals_init).
Qed.

(** The recorded iterations are those of the loop the caller sees. *)
Lemma model_from_chunks_steps_loop (json_chunks : list pystr) :
  forall (st : locals) (src_end : option exn),
    model_from_chunks_loop parser_parse cls st src_end json_chunks
    = (omap emitted (yields (model_from_chunks_steps parser_parse cls st src_end json_chunks)),
       outcome (model_from_chunks_steps parser_parse cls st src_end json_chunks)).
Proof.
  induction json_chunks as [|chunk rest IH]; intros st src_end; simpl; [reflexivity|].
  destruct (model_from_chunks_body parser_parse cls st chunk) as [it|e]; simpl;
    [|reflexivity].
  rewrite IH. unfold yields, outcome; simpl.
  destruct (emitted it); reflexivity.
Qed.

Lemma model_from_chunks_body_buffer (st : locals) (chunk : pystr) (it : iteration) :
  model_from_chunks_body parser_parse cls st chunk = Ok it ->
  exists c, chunk = Some c
            /\ potential_object (after it) = potential_object st +:+ c
            /\ parses_whole_buffer it.
Proof.
  unfold model_from_chunks_body, parses_whole_buffer.
  destruct chunk as [c|]; simpl; [|discriminate].
  intros H. exists c. split; [reflexivity|].
  destruct (str_truthy (strip (potential_object st +:+ c))); simpl in H.
  - destruct (parser_parse _) as [v|e]; simpl in H; [|discriminate].
    destruct (truthy v); simpl in H.
    + destruct (model_validate cls v) as [obj|e]; simpl in H; [|discriminate].
      destruct (obj_ne _ _ _); inversion H; subst; simpl; auto.
    + inversion H; subst; simpl; auto.
  - inversion H; subst; simpl; auto.
Qed.

Lemma model_from_chunks_steps_grow (json_chunks : list pystr) :
  forall (st : locals) (src_end : option exn),
    let its := yields (model_from_chunks_steps parser_parse cls st src_end json_chunks) in
    grows_by (potential_object st) json_chunks its
    /\ Forall parses_whole_buffer its.
Proof.
  induction json_chunks as [|chunk rest IH]; intros st src_end; simpl.
  - split; [exact I | constructor].
  - destruct (model_from_chunks_body parser_parse cls st chunk) as [it|e] eqn:Hb;
      simpl; [|split; [exact I | constructor]].
    destruct (model_from_chunks_body_buffer _ _ _ Hb) as (c & -> & Hbuf & Hp).
    destruct (IH (after it) src_end) as [Hg Hf].
    unfold yields in *; simpl. split; [split; assumption | constructor; assumption].
Qed.

End MaterializerFacts.

Lemma grows_by_each_extends (its : list iteration) :
  forall (buffer : string) (json_chunks : list pystr),
    grows_by buffer json_chunks its -> each_extends buffer its.
Proof.
  induction its as [|it r IH]; intros buffer json_chunks H; simpl; [exact I|].
  destruct json_chunks as [|[c|] chunks]; simpl in H; try contradiction.
  destruct H as [Hb Hr]. split; [exists c; exact Hb | exact (IH _ _ Hr)].
Qed.

(** C8. The accumulated text only grows by appending: in every run of
    [model_from_chunks], and of [model_from_chunks_async], which makes the
    same run, the buffer after an iteration is the buffer before it
    followed by the chunk of the iteration, so it starts with the buffer
    before; and whenever an iteration calls the parser, the argument is the
    whole buffer accumulated so far. *)
Theorem accumulated_text_append_only
    (parser_parse : string -> res pyobj) (cls : ModelClass)
    (json_chunks : list pystr) (src_end : option exn) :
  let run := model_from_chunks_steps parser_parse cls locals_init src_end json_chunks in
  grows_by "" json_chunks (yields run)
  /\ each_extends "" (yields run)
  /\ Forall parses_whole_buffer (yields run)
  /\ model_from_chunks parser_parse cls (json_chunks, src_end)
     = (omap emitted (yields run), outcome run)
  /\ model_from_chunks_async parser_parse cls (json_chunks, src_end)
     = (omap emitted (yields run), outcome run).
Proof.
  intros run.
  destruct (model_from_chunks_steps_grow parser_parse cls json_chunks locals_init src_end)
    as [Hg Hf].
  split; [exact Hg|]. split; [exact (grows_by_each_extends _ _ _ Hg)|].
  split; [exact Hf|].
  rewrite model_from_chunks_async_eq. split;
    apply (model_from_chunks_steps_loop parser_parse cls json_chunks locals_init src_end).
Qed.

(** An object that arrives in two fragments is emitted twice, first with
    the field that is still missing at its default. *)
Example a_then_b_two_emissions :
  map (field_values ["a"; "b"])
    (yields (model_from_chunks a_then_b_decoder (flat_optional_cls ["a"; "b"])
               a_then_b_fragments))
  = [[Some (PInt 1); Some PNone]; [Some (PInt 1); Some (PInt 2)]].
Proof. vm_compute. reflexivity. Qed.

(** ** Blank fragments and the empty object *)

Lemma blank_then_empty_steps (parser_parse : string -> res pyobj) (cls : ModelClass) :
  parser_parse "   {}" = Ok (PDict []) ->
  model_from_chunks_steps parser_parse cls locals_init None blank_then_empty_fragments
  = ([ {| after := {| prev_obj := None; potential_object := "" |};
          parse_arg := None; emitted := None |};
       {| after := {| prev_obj := None; potential_object := "   " |};
          parse_arg := None; emitted := None |};
       {| after := {| prev_obj := None; potential_object := "   {}" |};
          parse_arg := Some "   {}"; emitted := None |} ], None).
Proof.
  intros Hp.
  unfold blank_then_empty_fragments, model_from_chunks_steps, model_from_chunks_body.
  simpl.
  change ((("" +:+ "") +:+ "   ") +:+ "{}") with "   {}".
  rewrite Hp. reflexivity.
Qed.

(** C2, as the code has it.  On the fragments [""], ["   "], ["{}"], with a
    parser that decodes the text ["   {}"] as the empty object, the first
    two iterations do not call the parser, the third calls it on the whole
    buffer, and nothing is emitted: the empty object is falsy, so the guard
    [if task_json] passes over it without validating it. *)
Theorem blank_then_empty_object_emits_nothing
    (parser_parse : string -> res pyobj) (cls : ModelClass) :
  parser_parse "   {}" = Ok (PDict []) ->
  map parse_arg
    (yields (model_from_chunks_steps parser_parse cls locals_init None
               blank_then_empty_fragments))
  = [None; None; Some "   {}"]
  /\ model_from_chunks parser_parse cls (blank_then_empty_fragments, None) = ([], None)
  /\ model_from_chunks_async parser_parse cls (blank_then_empty_fragments, None)
     = ([], None).
Proof.
  intros Hp. pose proof (blank_then_empty_steps _ cls Hp) as Hs.
  assert (Hsync : model_from_chunks parser_parse cls (blank_then_empty_fragments, None)
                  = ([], None)).
  { change (model_from_chunks parser_parse cls (blank_then_empty_fragments, None))
      with (model_from_chunks_loop parser_parse cls locals_init None
              blank_then_empty_fragments).
    rewrite model_from_chunks_steps_loop, Hs. reflexivity. }
  split; [rewrite Hs; reflexivity|].
  split; [exact Hsync|].
  rewrite model_from_chunks_async_eq. exact Hsync.
Qed.

Lemma blank_then_empty_object_emits_nothing_witness :
  empty_object_decoder "   {}" = Ok (PDict [])
  /\ model_from_chunks empty_object_decoder (flat_optional_cls ["a"; "b"])
       (blank_then_empty_fragments, None) = ([], None).
Proof.
  split; [reflexivity|].
  apply (blank_then_empty_object_emits_nothing empty_object_decoder
           (flat_optional_cls ["a"; "b"])).
  reflexivity.
Defined.

(** C2, as the claim states it, fails: the run emits no instance, not one. *)
Lemma blank_then_empty_object_not_one_emission :
  length (yields (model_from_chunks empty_object_decoder (flat_optional_cls ["a"; "b"])
                    (blank_then_empty_fragments, None))) <> 1%nat.
Proof. vm_compute. discriminate. Qed.

(** ** Suppression of repeated instances *)

(** The equality of the schema does not see a key of [__dict__] that is
    not a declared field. *)
Lemma model_eq_dict_setitem (field_names : list string) (obj p : instance)
    (key : string) (v : pyobj) :
  ~ In key field_names ->
  model_eq field_names (dict_setitem obj key v) p = model_eq field_names obj p.
Proof.
  intros Hk. unfold model_eq.
  induction field_names as [|f r IH]; cbn [forallb]; [reflexivity|].
  rewrite IH by (intros Hin; apply Hk; right; exact Hin).
  unfold dict_setitem; cbn [obj_dict].
  rewrite lookup_insert_ne by (intros ->; apply Hk; left; reflexivity).
  reflexivity.
Qed.

Lemma obj_ne_dict_setitem (field_names : list string) (obj : instance)
    (prev : option instance) (key : string) (v : pyobj) :
  ~ In key field_names ->
  obj_ne field_names (dict_setitem obj key v) prev = obj_ne field_names obj prev.
Proof.
  intros Hk. destruct prev as [p|]; simpl; [|reflexivity].
  rewrite model_eq_dict_setitem by exact Hk. reflexivity.
Qed.

(** When the schema declares no field named [chunk], every emitted
    instance differs from the one emitted before it. *)
Lemma model_from_chunks_loop_adjacent_ne
    (parser_parse : string -> res pyobj) (cls : ModelClass)
    (json_chunks : list pystr) :
  ~ In "chunk" (model_fields cls) ->
  forall (st : locals) (src_end : option exn),
    adjacent_ne (model_fields cls) (prev_obj st)
      (yields (model_from_chunks_loop parser_parse cls st src_end json_chunks))
    = true.
Proof.
  intros Hk.
  induction json_chunks as [|chunk rest IH]; intros st src_end; simpl; [reflexivity|].
  unfold model_from_chunks_body.
  destruct (str_iadd (potential_object st) chunk) as [buf|e]; simpl; [|reflexivity].
  destruct (str_truthy (strip buf)); simpl.
  - destruct (parser_parse buf) as [v|e]; simpl; [|reflexivity].
    destruct (truthy v); simpl.
    + destruct (model_validate cls v) as [obj|e]; simpl; [|reflexivity].
      destruct (obj_ne (model_fields cls) obj (prev_obj st)) eqn:Hne; simpl.
      * apply andb_true_intro. split.
        -- rewrite obj_ne_dict_setitem by exact Hk. exact Hne.
        -- apply (IH {| prev_obj := Some (dict_setitem obj "chunk" (chunk_value chunk));
                        potential_object := buf |}).
      * apply (IH {| prev_obj := prev_obj st; potential_object := buf |}).
    + apply (IH {| prev_obj := prev_obj st; potential_object := buf |}).
  - apply (IH {| prev_obj := prev_obj st; potential_object := buf |}).
Qed.

(** The same for the two entry points. *)
Lemma model_from_chunks_adjacent_ne
    (parser_parse : string -> res pyobj) (cls : ModelClass) (json_chunks : gen pystr) :
  ~ In "chunk" (model_fields cls) ->
  adjacent_ne (model_fields cls) None
    (yields (model_from_chunks parser_parse cls json_chunks)) = true
  /\ adjacent_ne (model_fields cls) None
       (yields (model_from_chunks_async parser_parse cls json_chunks)) = true.
Proof.
  intros Hk. rewrite model_from_chunks_async_eq.
  split; apply (model_from_chunks_loop_adjacent_ne _ _ _ Hk locals_init).
Qed.

(** C1 at a schema that declares a field named [chunk].  The three
    buffers decode to the same object, so the three validated candidates
    are equal; each is nevertheless emitted, because the raw fragment
    written under ["chunk"] has replaced the field value of the instance it
    is compared with, and the second and third emitted instances are equal
    field by field. *)
Theorem model_from_chunks_chunk_field_repeats :
  let run := model_from_chunks chunk_field_decoder chunk_field_cls chunk_field_fragments in
  map (field_values (model_fields chunk_field_cls)) (yields run)
  = [[Some (PStr chunk_object_text)]; [Some (PStr " ")]; [Some (PStr " ")]]
  /\ outcome run = None
  /\ (exists e1 e2 e3,
        yields run = [e1; e2; e3]
        /\ model_eq (model_fields chunk_field_cls) e3 e2 = true)
  /\ adjacent_ne (model_fields chunk_field_cls) None (yields run) = false
  /\ model_from_chunks_async chunk_field_decoder chunk_field_cls chunk_field_fragments
     = run.
Proof.
  intros run.
  split; [vm_compute; reflexivity|].
  split; [vm_compute; reflexivity|].
  split.
  - eexists _, _, _. split; [reflexivity|]. vm_compute. reflexivity.
  - split; [vm_compute; reflexivity|].
    apply model_from_chunks_async_eq.
Qed.

(** ** The two pipelines *)

(** C6. On the same fragments, mode, class and validation options the
    synchronous and the asynchronous pipeline give the same instances in
    the same order and end the same way, stage by stage and as a whole.
    The two unwrapping helpers of [instructor.utils], used for [MD_JSON]
    only, are taken to agree. *)
Theorem sync_async_same_emissions
    (parser_parse : string -> res pyobj) (cls : ModelClass)
    (extract_json_from_stream extract_json_from_stream_async : gen pystr -> gen pystr)
    (completion : gen Chunk) (mode : Mode) :
  (mode = MD_JSON ->
   forall g, extract_json_from_stream_async g = extract_json_from_stream g) ->
  extract_json_async completion mode = extract_json completion mode
  /\ (forall json_chunks,
        model_from_chunks_async parser_parse cls json_chunks
        = model_from_chunks parser_parse cls json_chunks)
  /\ from_streaming_response_async parser_parse cls extract_json_from_stream_async
       completion mode
     = from_streaming_response parser_parse cls extract_json_from_stream
         completion mode.
Proof.
  intros Hagree.
  split; [apply extract_json_async_eq|].
  split; [apply model_from_chunks_async_eq|].
  unfold from_streaming_response_async, from_streaming_response.
  rewrite model_from_chunks_async_eq.
  destruct (Mode_eqb mode MD_JSON) eqn:Hm.
  - assert (mode = MD_JSON) as -> by (destruct mode; try discriminate Hm; reflexivity).
    rewrite (Hagree eq_refl). reflexivity.
  - reflexivity.
Qed.

Lemma sync_async_same_emissions_witness :
  from_streaming_response_async empty_object_decoder (flat_optional_cls ["a"; "b"])
    (fun g => g) ([content_chunk "   "; content_chunk "{}"], None) MD_JSON
  = from_streaming_response empty_object_decoder (flat_optional_cls ["a"; "b"])
      (fun g => g) ([content_chunk "   "; content_chunk "{}"], None) MD_JSON.
Proof.
  apply (sync_async_same_emissions empty_object_decoder (flat_optional_cls ["a"; "b"])
           (fun g => g) (fun g => g)).
  intros _ g. reflexivity.
Defined.

(** ** Unsupported modes *)

(** C3. With a mode outside the supported set, the first fragment that
    has a non-empty [choices] makes [extract_json] and
    [extract_json_async] raise the error that names the mode, before any
    text is yielded; the handler for [AttributeError] does not catch it,
    and it comes out of [from_streaming_response] and
    [from_streaming_response_async] unchanged, the parser never called. *)
Theorem unsupported_mode_raises
    (parser_parse : string -> res pyobj) (cls : ModelClass)
    (extract_json_from_stream extract_json_from_stream_async : gen pystr -> gen pystr)
    (mode : Mode) (pre rest : list Chunk) (chunk : Chunk)
    (choices_0 : Choice) (others : list Choice) (src_end : option exn) :
  streaming_supported mode = false ->
  Forall without_choices pre ->
  choices chunk = Has (choices_0 :: others) ->
  let error := NotImplementedError (NotImplementedError_msg mode) in
  except_AttributeError_pass (extract_json_try chunk mode) = Raise error
  /\ extract_json (pre ++ chunk :: rest, src_end) mode = ([], Some error)
  /\ extract_json_async (pre ++ chunk :: rest, src_end) mode = ([], Some error)
  /\ from_streaming_response parser_parse cls extract_json_from_stream
       (pre ++ chunk :: rest, src_end) mode = ([], Some error)
  /\ from_streaming_response_async parser_parse cls extract_json_from_stream_async
       (pre ++ chunk :: rest, src_end) mode = ([], Some error).
Proof.
  intros Hm Hpre Hc error.
  pose proof (extract_json_try_unsupported chunk mode choices_0 others Hm Hc) as Htry.
  assert (Hx : extract_json (pre ++ chunk :: rest, src_end) mode = ([], Some error)).
  { unfold extract_json, outcome, yields; simpl.
    rewrite (extract_json_loop_skip mode src_end pre (chunk :: rest) Hpre).
    simpl. rewrite Htry. reflexivity. }
  assert (Hmd : Mode_eqb mode MD_JSON = false)
    by (destruct mode; try discriminate Hm; reflexivity).
  split; [exact Htry|]. split; [exact Hx|].
  split; [rewrite extract_json_async_eq; exact Hx|].
  split.
  - unfold from_streaming_response. rewrite Hmd, Hx. reflexivity.
  - unfold from_streaming_response_async.
    rewrite Hmd, extract_json_async_eq, Hx. reflexivity.
Qed.

Lemma unsupported_mode_raises_witness :
  extract_json ([ {| choices := Has [] |}; content_chunk "{}"; content_chunk "x" ], None)
    MISTRAL_TOOLS
  = ([], Some (NotImplementedError
                 "Mode Mode.MISTRAL_TOOLS is not supported for MultiTask streaming")).
Proof.
  apply (unsupported_mode_raises empty_object_decoder (flat_optional_cls ["a"])
           (fun g => g) (fun g => g) MISTRAL_TOOLS
           [ {| choices := Has [] |} ] [content_chunk "x"] (content_chunk "{}")
           {| delta := Has {| function_call := IsNone; content := Has "{}";
                              tool_calls := IsNone |} |} [] None).
  - reflexivity.
  - constructor; [right; right; reflexivity | constructor].
  - reflexivity.
Defined.

(** ** The schema optionalizer *)

Lemma Partial_getitem_unfold (wrapped_class : pyclass) :
  Partial_getitem wrapped_class
  = (fields ← mapM (optional_item Partial_getitem) (__fields__ wrapped_class);
     Ok (Class ("Partial" +:+ __name__ wrapped_class) [wrapped_class; PartialBase_cls]
           fields)).
Proof. destruct wrapped_class; reflexivity. Qed.

Lemma mapM_cons {A B : Type} (f : A -> res B) (x : A) (r : list A) :
  mapM f (x :: r) = (y ← f x; ys ← mapM f r; Ok (y :: ys)).
Proof. reflexivity. Qed.

Lemma mapM_Ok_inv {A B : Type} (f : A -> res B) (l : list A) :
  forall ys, mapM f l = Ok ys -> Forall2 (fun x y => f x = Ok y) l ys.
Proof.
  induction l as [|x r IH]; intros ys H; cbn [mapM] in H.
  - injection H as <-. constructor.
  - destruct (f x) as [y|e] eqn:Hx; cbn [mbind res_bind] in H; [|discriminate H].
    destruct (mapM f r) as [ys'|e]; cbn [mbind res_bind] in H; [|discriminate H].
    injection H as <-. constructor; [exact Hx | apply IH; reflexivity].
Qed.

Lemma mapM_Ok_intro {A B : Type} (f : A -> res B) (l : list A) (ys : list B) :
  Forall2 (fun x y => f x = Ok y) l ys -> mapM f l = Ok ys.
Proof.
  induction 1 as [|x y r ys Hx _ IH]; cbn [mapM]; [reflexivity|].
  rewrite Hx. cbn [mbind res_bind]. rewrite IH. reflexivity.
Qed.

Lemma mapM_Raise_inv {A B : Type} (f : A -> res B) (l : list A) (e : exn) :
  mapM f l = Raise e -> exists x, In x l /\ f x = Raise e.
Proof.
  induction l as [|x r IH]; cbn [mapM]; [discriminate|].
  destruct (f x) as [y|e'] eqn:Hx; cbn [mbind res_bind].
  - destruct (mapM f r) as [ys|e'']; cbn [mbind res_bind]; [discriminate|].
    intros [= ->]. destruct (IH eq_refl) as (x' & Hin & Hx').
    exists x'. split; [right; exact Hin | exact Hx'].
  - intros [= ->]. exists x. split; [left; reflexivity | exact Hx].
Qed.

Lemma mapM_In_Raise {A B : Type} (f : A -> res B) (l : list A) (x : A) (e : exn) :
  In x l -> f x = Raise e -> exists e', mapM f l = Raise e'.
Proof.
  intros Hin Hx. destruct (mapM f l) as [ys|e'] eqn:H; [|exists e'; reflexivity].
  apply mapM_Ok_inv in H. exfalso.
  induction H as [|x' y r ys Hx' _ IH]; [destruct Hin|].
  destruct Hin as [-> | Hin]; [congruence | exact (IH Hin)].
Qed.

Lemma mapM_same {A : Type} (f : A -> res A) (l : list A) :
  (forall x, In x l -> f x = Ok x) -> mapM f l = Ok l.
Proof.
  intros H. apply mapM_Ok_intro. induction l as [|x r IH]; constructor.
  - apply H. left. reflexivity.
  - apply IH. intros y Hy. apply H. right. exact Hy.
Qed.

(** Induction on a class through the classes its fields name, as the
    annotation or as one of its type arguments. *)
Lemma pyclass_fields_ind (Q : pyclass -> Prop) :
  (forall c,
      (forall field_name field c',
          In (field_name, field) (__fields__ c) ->
          top_or_argument (TClass c') (annotation field) -> Q c') ->
      Q c) ->
  forall c, Q c.
Proof.
  intros step. fix IH 1. intros c. apply step.
  destruct c as [| | | | | n | n bs fs]; cbn [__fields__];
    try (intros ? ? ? []).
  revert fs. fix go 1. intros [|[k f] r] field_name field c' Hin Hc'.
  - destruct Hin.
  - destruct Hin as [Heq | Hin]; [|exact (go r field_name field c' Hin Hc')].
    assert (Hf : field = f) by congruence. rewrite Hf in Hc'. clear Heq Hf.
    destruct f as [a d factory desc]. cbn [annotation] in Hc'.
    destruct a as [s | c0 | generic_base generic_args].
    + exfalso. destruct Hc' as [H | (o & args & H & _)]; discriminate H.
    + assert (Hc : c' = c0).
      { destruct Hc' as [H | (o & args & H & _)]; [congruence | discriminate H]. }
      rewrite Hc. apply IH.
    + assert (Hargs : In (TClass c') generic_args).
      { destruct Hc' as [H | (o & args & H & Hin')]; [discriminate H|].
        injection H as _ <-. exact Hin'. }
      clear Hc'. revert generic_args Hargs. fix go_args 1.
      intros [|arg args] Hargs; [destruct Hargs|].
      destruct arg as [s | c0 | o xs].
      * destruct Hargs as [H | H]; [discriminate H | exact (go_args args H)].
      * destruct Hargs as [H | H]; [|exact (go_args args H)].
        assert (Hc : c' = c0) by congruence. rewrite Hc. apply IH.
      * destruct Hargs as [H | H]; [discriminate H | exact (go_args args H)].
Qed.

Lemma Partial_getitem_Ok_inv (wrapped_class derived : pyclass) :
  Partial_getitem wrapped_class = Ok derived ->
  exists fields,
    mapM (optional_item Partial_getitem) (__fields__ wrapped_class) = Ok fields
    /\ derived = Class ("Partial" +:+ __name__ wrapped_class)
                   [wrapped_class; PartialBase_cls] fields.
Proof.
  rewrite Partial_getitem_unfold.
  destruct (mapM _ _) as [fields|e]; cbn [mbind res_bind]; [|discriminate].
  intros [= <-]. exists fields. split; reflexivity.
Qed.

Lemma optional_item_Ok_inv (item derived_item : string * FieldInfo) :
  optional_item Partial_getitem item = Ok derived_item ->
  exists optional,
    _make_field_optional Partial_getitem (snd item) = Ok optional
    /\ derived_item = (fst item, snd optional).
Proof.
  unfold optional_item.
  destruct (_make_field_optional _ _) as [optional|e]; cbn [mbind res_bind];
    [|discriminate].
  intros [= <-]. exists optional. split; reflexivity.
Qed.

Lemma NoneType_not_model : is_BaseModel_subclass NoneType = false.
Proof. reflexivity. Qed.

(** [_make_field_optional] read with [get_origin] and [get_args], branch
    by branch as the source tests them. *)
Lemma make_field_optional_by_origin (field : FieldInfo) :
  _make_field_optional Partial_getitem field
  = match get_origin (annotation field) with
    | Some generic_base =>
        let generic_args := get_args (annotation field) in
        modified_args ← mapM (modified_arg Partial_getitem) generic_args;
        generic ← subscript generic_base modified_args;
        let tmp_annotation := Optional_ generic in
        Ok (tmp_annotation,
            mkFieldInfo tmp_annotation (Default PNone) (default_factory field)
              (description field))
    | None =>
        if is_BaseModel_subclass (annotation field) then
          modified ← modified_arg Partial_getitem (annotation field);
          let tmp_annotation := Optional_ modified in
          Ok (tmp_annotation,
              mkFieldInfo tmp_annotation (Default (PDict [])) (default_factory field)
                (description field))
        else
          let tmp_annotation := Optional_ (annotation field) in
          Ok (tmp_annotation,
              mkFieldInfo tmp_annotation (Default PNone) (default_factory field)
                (description field))
    end.
Proof.
  unfold _make_field_optional.
  destruct (annotation field) as [s | c | generic_base generic_args]; simpl.
  - reflexivity.
  - destruct (issubclass_BaseModel c); [|reflexivity].
    destruct (Partial_getitem c); reflexivity.
  - reflexivity.
Qed.

(** [Optional[t]] of a container, of a special form and of a class. *)
Lemma Optional_TGeneric_Origin (name : string) (args : list ty) :
  Optional_ (TGeneric (Origin name) args)
  = TGeneric Union [TGeneric (Origin name) args; NoneType].
Proof. reflexivity. Qed.

Lemma Optional_TSpecial (name : string) :
  Optional_ (TSpecial name) = TGeneric Union [TSpecial name; NoneType].
Proof. reflexivity. Qed.

Lemma Optional_TClass (c : pyclass) :
  Optional_ (TClass c)
  = if ty_eqb NoneType (TClass c) then TClass c
    else TGeneric Union [TClass c; NoneType].
Proof.
  unfold Optional_, Union_getitem, NoneType. cbn [flatten_union flat_map app].
  cbn [remove_dups_from existsb app]. rewrite orb_false_r.
  destruct (ty_eqb (TClass (Builtin "NoneType")) (TClass c)); reflexivity.
Qed.

Lemma Optional_derived (wrapped_class derived : pyclass) :
  Partial_getitem wrapped_class = Ok derived ->
  Optional_ (TClass derived) = TGeneric Union [TClass derived; NoneType].
Proof.
  intros H. apply Partial_getitem_Ok_inv in H as (fields & _ & ->). reflexivity.
Qed.

(** ** Where the optionalizer raises *)

Lemma modified_arg_Raise (arg : ty) (e : exn) :
  modified_arg Partial_getitem arg = Raise e ->
  exists c, arg = TClass c /\ issubclass_BaseModel c = true
            /\ Partial_getitem c = Raise e.
Proof.
  destruct arg as [s | c | o args]; cbn [modified_arg]; try discriminate.
  destruct (issubclass_BaseModel c) eqn:Hm; [|discriminate].
  destruct (Partial_getitem c) as [d|e'] eqn:Hc; cbn [mbind res_bind]; [discriminate|].
  intros [= ->]. exists c. split; [reflexivity|]. split; [exact Hm | exact Hc].
Qed.

Lemma make_field_optional_Raise (field : FieldInfo) (e : exn) :
  _make_field_optional Partial_getitem field = Raise e ->
  e = TypeError UnionType_not_subscriptable
  \/ exists c, top_or_argument (TClass c) (annotation field)
               /\ issubclass_BaseModel c = true
               /\ Partial_getitem c = Raise e.
Proof.
  unfold _make_field_optional.
  destruct (annotation field) as [s | c | generic_base generic_args].
  - discriminate.
  - destruct (issubclass_BaseModel c) eqn:Hm; [|discriminate].
    destruct (Partial_getitem c) as [d|e'] eqn:Hc; cbn [mbind res_bind]; [discriminate|].
    intros [= ->]. right. exists c. split; [left; reflexivity|].
    split; [exact Hm | exact Hc].
  - destruct (mapM (modified_arg Partial_getitem) generic_args) as [modified_args|e']
      eqn:Hargs; cbn [mbind res_bind].
    + destruct generic_base as [| |name]; cbn [subscript mbind res_bind];
        try discriminate.
      intros [= <-]. left. reflexivity.
    + intros [= ->]. right.
      apply mapM_Raise_inv in Hargs as (arg & Hin & Harg).
      apply modified_arg_Raise in Harg as (c & -> & Hm & Hc).
      exists c. split; [|split; [exact Hm | exact Hc]].
      right. exists generic_base, generic_args. split; [reflexivity | exact Hin].
Qed.

(** The one exception the derivation raises is the [TypeError] of
    subscripting [types.UnionType]. *)
Lemma Partial_getitem_Raise (wrapped_class : pyclass) :
  forall e, Partial_getitem wrapped_class = Raise e ->
            e = TypeError UnionType_not_subscriptable.
Proof.
  induction wrapped_class as [c IH] using pyclass_fields_ind. intros e.
  rewrite Partial_getitem_unfold.
  destruct (mapM _ _) as [fields|e'] eqn:Hf; cbn [mbind res_bind]; [discriminate|].
  intros [= ->]. apply mapM_Raise_inv in Hf as ([field_name field] & Hin & Hitem).
  unfold optional_item in Hitem. cbn [fst snd] in Hitem.
  destruct (_make_field_optional Partial_getitem field) as [optional|e'] eqn:Hfield;
    cbn [mbind res_bind] in Hitem; [discriminate Hitem|].
  injection Hitem as ->.
  apply make_field_optional_Raise in Hfield as [-> | (c' & Hreach & _ & Hc')];
    [reflexivity|].
  exact (IH field_name field c' Hin Hreach e Hc').
Qed.

Lemma make_field_optional_UnionType (generic_args : list ty) (d : default_value)
    (factory : option pyobj) (desc : option string) :
  _make_field_optional Partial_getitem
    (mkFieldInfo (TGeneric UnionType generic_args) d factory desc)
  = Raise (TypeError UnionType_not_subscriptable).
Proof.
  unfold _make_field_optional. cbn [annotation].
  destruct (mapM (modified_arg Partial_getitem) generic_args) as [modified_args|e]
    eqn:Hargs; cbn [mbind res_bind subscript]; [reflexivity|].
  apply mapM_Raise_inv in Hargs as (arg & _ & Harg).
  apply modified_arg_Raise in Harg as (c & _ & _ & Hc).
  rewrite (Partial_getitem_Raise c e Hc). reflexivity.
Qed.

Lemma Partial_getitem_UnionType_field (name : string) (bases : list pyclass)
    (before after : list (string * FieldInfo)) (field_name : string)
    (generic_args : list ty) (d : default_value) (factory : option pyobj)
    (desc : option string) :
  Partial_getitem
    (Class name bases
       (before
        ++ (field_name, mkFieldInfo (TGeneric UnionType generic_args) d factory desc)
           :: after))
  = Raise (TypeError UnionType_not_subscriptable).
Proof.
  destruct (Partial_getitem _) as [derived|e] eqn:H.
  - exfalso. apply Partial_getitem_Ok_inv in H as (fields & Hf & _).
    cbn [__fields__] in Hf.
    destruct (mapM_In_Raise (optional_item Partial_getitem)
                (before
                 ++ (field_name,
                     mkFieldInfo (TGeneric UnionType generic_args) d factory desc)
                    :: after)
                (field_name, mkFieldInfo (TGeneric UnionType generic_args) d factory desc)
                (TypeError UnionType_not_subscriptable)) as [e He].
    + apply in_or_app. right. left. reflexivity.
    + unfold optional_item. cbn [snd]. rewrite make_field_optional_UnionType.
      reflexivity.
    + congruence.
  - rewrite (Partial_getitem_Raise _ e H). reflexivity.
Qed.

(** C4. A field declared as a union written [X | Y] has the origin
    [types.UnionType], so [_make_field_optional] takes the branch of the
    parameterized generics and subscripts the origin with the arguments,
    which raises [TypeError]: the field gets no derived type and no
    default, and [Partial[...]] of a class that declares such a field, in
    whatever position, raises instead of returning a class.
    [class Pep604(BaseModel): x: int | None] is such a class. *)
Theorem pep604_union_field_raises
    (module_ name field_name : string) (bases : list pyclass)
    (before after : list (string * FieldInfo))
    (generic_args : list ty) (d : default_value) (factory : option pyobj)
    (desc : option string) :
  let field := mkFieldInfo (TGeneric UnionType generic_args) d factory desc in
  let wrapped_class := Class name bases (before ++ (field_name, field) :: after) in
  get_origin (annotation field) = Some UnionType
  /\ _make_field_optional Partial_getitem field
     = Raise (TypeError UnionType_not_subscriptable)
  /\ Partial_class_getitem module_ wrapped_class
     = (if issubclass_BaseModel wrapped_class
        then Raise (TypeError UnionType_not_subscriptable)
        else Raise AttributeError)
  /\ issubclass_BaseModel Pep604 = true
  /\ Partial_class_getitem "app" Pep604 = Raise (TypeError UnionType_not_subscriptable).
Proof.
  intros field wrapped_class.
  split; [reflexivity|].
  split; [apply make_field_optional_UnionType|].
  split; [|split; reflexivity].
  unfold Partial_class_getitem.
  destruct (issubclass_BaseModel wrapped_class); [|reflexivity].
  unfold wrapped_class, field. rewrite Partial_getitem_UnionType_field. reflexivity.
Qed.

(** C9. Only a type argument that is itself a model class is replaced by
    its derived class: an argument that is a parameterized generic is kept
    as it is, whatever it contains, so the model class inside
    [list[list[Inner]]] or [dict[str, list[Inner]]] stays the strict one,
    while the one in [list[Inner]] is replaced. *)
Theorem generic_arguments_one_level_deep
    (inner : pyclass) (generic_base : origin) (generic_args : list ty)
    (d : default_value) (factory : option pyobj) (desc : option string) :
  modified_arg Partial_getitem (TGeneric generic_base generic_args)
  = Ok (TGeneric generic_base generic_args)
  /\ modified_arg Partial_getitem (TClass inner)
     = (if issubclass_BaseModel inner
        then derived ← Partial_getitem inner; Ok (TClass derived)
        else Ok (TClass inner))
  /\ (optional ← _make_field_optional Partial_getitem
                   (mkFieldInfo (list_ (list_ (TClass inner))) d factory desc);
      Ok (fst optional))
     = Ok (TGeneric Union [list_ (list_ (TClass inner)); NoneType])
  /\ (optional ← _make_field_optional Partial_getitem
                   (mkFieldInfo (dict_ str_ (list_ (TClass inner))) d factory desc);
      Ok (fst optional))
     = Ok (TGeneric Union [dict_ str_ (list_ (TClass inner)); NoneType])
  /\ (optional ← _make_field_optional Partial_getitem
                   (mkFieldInfo (list_ (TClass inner)) d factory desc);
      Ok (fst optional))
     = (modified ← (if issubclass_BaseModel inner
                    then derived ← Partial_getitem inner; Ok (TClass derived)
                    else Ok (TClass inner));
        Ok (TGeneric Union [list_ modified; NoneType]))
  /\ field_defaults Inner = [("x", PydanticUndefined)]
  /\ exists derived,
       Partial_getitem Inner = Ok derived
       /\ field_defaults derived = [("x", Default PNone)]
       /\ (optional ← _make_field_optional Partial_getitem
                        (mkFieldInfo (list_ (TClass Inner)) d factory desc);
           Ok (fst optional))
          = Ok (TGeneric Union [list_ (TClass derived); NoneType]).
Proof.
  split; [reflexivity|]. split; [reflexivity|]. split; [reflexivity|].
  split; [reflexivity|]. split.
  { unfold _make_field_optional. cbn [annotation list_ mapM modified_arg].
    destruct (issubclass_BaseModel inner); [|reflexivity].
    destruct (Partial_getitem inner); reflexivity. }
  split; [reflexivity|].
  eexists. split; [reflexivity|]. split; reflexivity.
Qed.

(** ** Optionalizing twice *)

Lemma flatten_union_no_Union (params : list ty) :
  forallb (fun p => negb (is_Union p)) params = true ->
  flatten_union params = params.
Proof.
  unfold flatten_union.
  induction params as [|p r IH]; simpl; [reflexivity|].
  intros H. apply andb_prop in H as [Hp Hr]. rewrite (IH Hr).
  destruct p as [s | c | [| |o] args]; try reflexivity; discriminate Hp.
Qed.

Lemma remove_dups_from_nodup (params : list ty) :
  forall seen, nodup_from seen params = true -> remove_dups_from seen params = params.
Proof.
  induction params as [|p r IH]; intros seen H; simpl in *; [reflexivity|].
  apply andb_prop in H as [Hp Hr].
  destruct (existsb (ty_eqb p) seen); [discriminate Hp|].
  rewrite (IH _ Hr). reflexivity.
Qed.

Lemma remove_dups_from_snoc (params : list ty) (x : ty) :
  forall seen,
    nodup_from seen params = true ->
    remove_dups_from seen (params ++ [x])
    = params ++ (if existsb (ty_eqb x) (seen ++ params) then [] else [x]).
Proof.
  induction params as [|p r IH]; intros seen H; simpl in *.
  - rewrite app_nil_r. destruct (existsb (ty_eqb x) seen); reflexivity.
  - apply andb_prop in H as [Hp Hr].
    destruct (existsb (ty_eqb p) seen); [discriminate Hp|].
    rewrite (IH _ Hr), <- app_assoc. reflexivity.
Qed.

Lemma nodup_from_snoc (params : list ty) (x : ty) :
  forall seen,
    nodup_from seen (params ++ [x])
    = nodup_from seen params && negb (existsb (ty_eqb x) (seen ++ params)).
Proof.
  induction params as [|p r IH]; intros seen; simpl.
  - rewrite app_nil_r, andb_true_r. reflexivity.
  - rewrite IH, <- app_assoc, andb_assoc. reflexivity.
Qed.

Lemma Union_getitem_ok (params : list ty) :
  Union_params_ok params = true -> Union_getitem params = TGeneric Union params.
Proof.
  unfold Union_params_ok, Union_getitem. intros H.
  apply andb_prop in H as [H Hd]. apply andb_prop in H as [Hl Hu].
  rewrite (flatten_union_no_Union _ Hu), (remove_dups_from_nodup _ _ Hd).
  destruct params as [|a [|b r]]; try discriminate Hl; reflexivity.
Qed.

(** [Optional] of a well-formed union adds [NoneType] at the end unless it
    is there already; the result is again a well-formed union. *)
Lemma Optional_Union (params : list ty) :
  Union_params_ok params = true ->
  Optional_ (TGeneric Union params)
  = TGeneric Union
      (params ++ (if existsb (ty_eqb NoneType) params then [] else [NoneType])).
Proof.
  intros H. unfold Optional_, Union_getitem, flatten_union. simpl flat_map.
  unfold Union_params_ok in H.
  apply andb_prop in H as [H Hd]. apply andb_prop in H as [Hl Hu].
  rewrite (remove_dups_from_snoc _ _ _ Hd). simpl app at 2.
  destruct params as [|a [|b r]]; try discriminate Hl.
  destruct (existsb (ty_eqb NoneType) (a :: b :: r)); reflexivity.
Qed.

Lemma Optional_Union_has_None (params : list ty) :
  Union_params_ok params = true ->
  existsb (ty_eqb NoneType) params = true ->
  Optional_ (TGeneric Union params) = TGeneric Union params.
Proof.
  intros H Hn. rewrite (Optional_Union _ H), Hn, app_nil_r. reflexivity.
Qed.

Lemma Union_params_ok_add_None (params : list ty) :
  Union_params_ok params = true ->
  existsb (ty_eqb NoneType) params = false ->
  Union_params_ok (params ++ [NoneType]) = true
  /\ existsb (ty_eqb NoneType) (params ++ [NoneType]) = true.
Proof.
  intros H Hn. unfold Union_params_ok in *.
  apply andb_prop in H as [H Hd]. apply andb_prop in H as [Hl Hu].
  assert (Hlen : Nat.leb 2 (length (params ++ [NoneType])) = true).
  { rewrite length_app. apply Nat.leb_le. apply Nat.leb_le in Hl. simpl. lia. }
  split.
  - rewrite Hlen, forallb_app, Hu, nodup_from_snoc, Hd.
    change ([] ++ params) with params. rewrite Hn. reflexivity.
  - rewrite existsb_app. apply orb_true_iff. right. reflexivity.
Qed.

Lemma modified_arg_not_model (arg : ty) :
  is_BaseModel_subclass arg = false -> modified_arg Partial_getitem arg = Ok arg.
Proof.
  destruct arg as [s | c | o args]; simpl; try reflexivity.
  intros ->. reflexivity.
Qed.

Lemma mapM_modified_arg_not_model (args : list ty) :
  forallb (fun p => negb (is_BaseModel_subclass p)) args = true ->
  mapM (modified_arg Partial_getitem) args = Ok args.
Proof.
  intros H. apply mapM_same. intros arg Hin. apply modified_arg_not_model.
  rewrite forallb_forall in H. apply negb_true_iff. exact (H arg Hin).
Qed.

Lemma TClass_NoneType_params_ok (c : pyclass) :
  ty_eqb NoneType (TClass c) = false ->
  Union_params_ok [TClass c; NoneType] = true
  /\ existsb (ty_eqb NoneType) [TClass c; NoneType] = true.
Proof.
  intros H. unfold Union_params_ok. cbn [nodup_from existsb app length forallb].
  rewrite H. split; reflexivity.
Qed.

(** The result for a well-formed union without a model class among its
    parameters, and for a class that is not a model. *)
Lemma make_field_optional_Union_settled (params : list ty)
    (d : default_value) (factory : option pyobj) (desc : option string) :
  Union_params_ok params = true ->
  forallb (fun p => negb (is_BaseModel_subclass p)) params = true ->
  _make_field_optional Partial_getitem (mkFieldInfo (TGeneric Union params) d factory desc)
  = Ok (Optional_ (TGeneric Union params),
        mkFieldInfo (Optional_ (TGeneric Union params)) (Default PNone) factory desc).
Proof.
  intros Hok Hm.
  unfold _make_field_optional. cbn [annotation description default_factory].
  rewrite (mapM_modified_arg_not_model _ Hm). cbn [mbind res_bind subscript].
  rewrite (Union_getitem_ok _ Hok). reflexivity.
Qed.

Lemma make_field_optional_TClass_plain (c : pyclass)
    (d : default_value) (factory : option pyobj) (desc : option string) :
  issubclass_BaseModel c = false ->
  _make_field_optional Partial_getitem (mkFieldInfo (TClass c) d factory desc)
  = Ok (Optional_ (TClass c),
        mkFieldInfo (Optional_ (TClass c)) (Default PNone) factory desc).
Proof.
  intros H. unfold _make_field_optional. cbn [annotation description default_factory].
  rewrite H. reflexivity.
Qed.

(** A field whose declared type settles is the same after the second
    optionalization as after the first, and the second one raises
    nothing. *)
Lemma make_field_optional_twice (field : FieldInfo) (once : ty * FieldInfo) :
  settles_after_once (annotation field) = true ->
  _make_field_optional Partial_getitem field = Ok once ->
  _make_field_optional Partial_getitem (snd once) = Ok once.
Proof.
  destruct field as [declared d factory desc]. cbn [annotation].
  destruct declared as [s | c | [| |o] params]; cbn [settles_after_once]; intros H.
  - intros [= <-]. reflexivity.
  - apply negb_true_iff in H.
    rewrite (make_field_optional_TClass_plain c d factory desc H), Optional_TClass.
    destruct (ty_eqb NoneType (TClass c)) eqn:E; intros [= <-]; cbn [snd].
    + rewrite (make_field_optional_TClass_plain c _ factory desc H), Optional_TClass, E.
      reflexivity.
    + destruct (TClass_NoneType_params_ok c E) as [Hok Hn].
      rewrite (make_field_optional_Union_settled _ _ factory desc Hok)
        by (cbn [forallb is_BaseModel_subclass NoneType]; rewrite H; reflexivity).
      rewrite (Optional_Union_has_None _ Hok Hn). reflexivity.
  - apply andb_prop in H as [Hok Hm].
    rewrite (make_field_optional_Union_settled _ d factory desc Hok Hm),
      (Optional_Union _ Hok).
    destruct (existsb (ty_eqb NoneType) params) eqn:Hn; intros [= <-]; cbn [snd].
    + rewrite app_nil_r.
      rewrite (make_field_optional_Union_settled _ _ factory desc Hok Hm),
        (Optional_Union_has_None _ Hok Hn).
      reflexivity.
    + destruct (Union_params_ok_add_None _ Hok Hn) as [Hok' Hn'].
      assert (Hm' : forallb (fun p => negb (is_BaseModel_subclass p))
                      (params ++ [NoneType]) = true)
        by (rewrite forallb_app, Hm; reflexivity).
      rewrite (make_field_optional_Union_settled _ _ factory desc Hok' Hm'),
        (Optional_Union_has_None _ Hok' Hn').
      reflexivity.
  - discriminate H.
  - unfold _make_field_optional at 1. cbn [annotation description default_factory].
    destruct (mapM (modified_arg Partial_getitem) params) as [modified_args|e];
      cbn [mbind res_bind subscript]; [|discriminate].
    intros [= <-]. reflexivity.
Qed.

Lemma issubclass_BaseModel_derived (c derived : pyclass) :
  Partial_getitem c = Ok derived ->
  issubclass_BaseModel c = true -> issubclass_BaseModel derived = true.
Proof.
  intros Hd H. apply Partial_getitem_Ok_inv in Hd as (fields & _ & ->).
  unfold issubclass_BaseModel in *. cbn [ancestors flat_map existsb is_BaseModel].
  rewrite existsb_app, H. reflexivity.
Qed.

(** A field declared as a model class changes at the second
    optionalization: the type goes from the derived class to the derived
    class of the derived class, the default from [{}] to [None]. *)
Lemma make_field_optional_twice_model (field : FieldInfo) (c : pyclass)
    (once : ty * FieldInfo) :
  annotation field = TClass c ->
  issubclass_BaseModel c = true ->
  _make_field_optional Partial_getitem field = Ok once ->
  exists derived,
    Partial_getitem c = Ok derived
    /\ annotation (snd once) = TGeneric Union [TClass derived; NoneType]
    /\ default (snd once) = Default (PDict [])
    /\ forall twice,
         _make_field_optional Partial_getitem (snd once) = Ok twice ->
         exists derived_twice,
           Partial_getitem derived = Ok derived_twice
           /\ annotation (snd twice) = TGeneric Union [TClass derived_twice; NoneType]
           /\ default (snd twice) = Default PNone.
Proof.
  intros Ha Hc. unfold _make_field_optional at 1. rewrite Ha, Hc.
  destruct (Partial_getitem c) as [derived|e] eqn:Hd; cbn [mbind res_bind];
    [|discriminate].
  intros [= <-]. exists derived. split; [reflexivity|].
  rewrite (Optional_derived c derived Hd). cbn [snd annotation default].
  split; [reflexivity|]. split; [reflexivity|].
  intros twice. unfold _make_field_optional.
  cbn [annotation description default_factory mapM modified_arg].
  rewrite (issubclass_BaseModel_derived c derived Hd Hc).
  destruct (Partial_getitem derived) as [derived_twice|e] eqn:Hd2;
    cbn [mbind res_bind]; [|discriminate].
  replace (issubclass_BaseModel (Builtin "NoneType")) with false by reflexivity.
  cbn [mbind res_bind subscript].
  apply Partial_getitem_Ok_inv in Hd2 as Hshape. destruct Hshape as (fields & _ & ->).
  intros [= <-]. eexists. split; [reflexivity|]. split; reflexivity.
Qed.

Lemma Partial_field_names (wrapped_class derived : pyclass) :
  Partial_getitem wrapped_class = Ok derived ->
  map fst (__fields__ derived) = map fst (__fields__ wrapped_class).
Proof.
  intros H. apply Partial_getitem_Ok_inv in H as (fields & Hf & ->).
  cbn [__fields__]. apply mapM_Ok_inv in Hf.
  induction Hf as [|item derived_item r r' Hitem _ IH]; [reflexivity|].
  apply optional_item_Ok_inv in Hitem as (optional & _ & ->).
  cbn [map fst]. rewrite IH. reflexivity.
Qed.

(** When every field settles, the second derivation succeeds and gives
    the fields of the first. *)
Lemma Partial_fields_twice (wrapped_class derived : pyclass) :
  forallb (fun field_name_info =>
             settles_after_once (annotation (snd field_name_info)))
          (__fields__ wrapped_class) = true ->
  Partial_getitem wrapped_class = Ok derived ->
  exists derived_twice,
    Partial_getitem derived = Ok derived_twice
    /\ __fields__ derived_twice = __fields__ derived.
Proof.
  intros Hs H. apply Partial_getitem_Ok_inv in H as (fields & Hf & ->).
  assert (Hsame : mapM (optional_item Partial_getitem) fields = Ok fields).
  { apply mapM_same. apply mapM_Ok_inv in Hf.
    induction Hf as [|item derived_item r r' Hitem _ IH]; intros x Hx; [destruct Hx|].
    cbn [forallb] in Hs. apply andb_prop in Hs as [Hs1 Hs2].
    destruct Hx as [<- | Hx]; [|exact (IH Hs2 x Hx)].
    apply optional_item_Ok_inv in Hitem as (optional & Hopt & ->).
    unfold optional_item. cbn [fst snd].
    rewrite (make_field_optional_twice _ optional Hs1 Hopt). reflexivity. }
  rewrite Partial_getitem_unfold. cbn [__fields__]. rewrite Hsame.
  eexists. split; reflexivity.
Qed.

Lemma pyobj_eqb_refl : forall a : pyobj, pyobj_eqb a a = true.
Proof.
  fix IH 1. intros a.
  destruct a as [| b | n | s | xs | kvs]; simpl.
  - reflexivity.
  - apply Bool.eqb_reflx.
  - apply Z.eqb_refl.
  - apply String.eqb_refl.
  - revert xs. fix go 1. intros [|x r]; [reflexivity|].
    rewrite (IH x). simpl. apply go.
  - revert kvs. fix go 1. intros [|[k v] r]; [reflexivity|].
    rewrite String.eqb_refl, (IH v). simpl. apply go.
Qed.

Lemma default_value_eqb_refl (d : default_value) : default_value_eqb d d = true.
Proof. destruct d; simpl; [reflexivity | apply pyobj_eqb_refl]. Qed.

Lemma option_pyobj_eqb_refl (o : option pyobj) : option_pyobj_eqb o o = true.
Proof. destruct o; simpl; [apply pyobj_eqb_refl | reflexivity]. Qed.

Lemma origin_eqb_refl (o : origin) : origin_eqb o o = true.
Proof. destruct o; simpl; try reflexivity. apply String.eqb_refl. Qed.

Lemma option_string_eqb_refl (o : option string) : option_string_eqb o o = true.
Proof. destruct o; simpl; [apply String.eqb_refl | reflexivity]. Qed.

(** Structural equality is reflexive, on annotations, classes and fields. *)
Lemma ty_eqb_refl (a : ty) : ty_eqb a a = true
with pyclass_eqb_refl (c : pyclass) : pyclass_eqb c c = true
with FieldInfo_eqb_refl (f : FieldInfo) : FieldInfo_eqb f f = true.
Proof.
  - destruct a as [s | c | o args]; simpl.
    + apply String.eqb_refl.
    + apply pyclass_eqb_refl.
    + rewrite origin_eqb_refl. simpl. revert args. fix go 1.
      intros [|x r]; [reflexivity|]. rewrite (ty_eqb_refl x). simpl. apply go.
  - destruct c as [| | | | | n | n bs fs]; simpl; try reflexivity.
    + apply String.eqb_refl.
    + rewrite String.eqb_refl. simpl. apply andb_true_intro. split.
      * revert bs. fix go 1. intros [|x r]; [reflexivity|].
        rewrite (pyclass_eqb_refl x). simpl. apply go.
      * revert fs. fix go 1. intros [|[k f] r]; [reflexivity|].
        rewrite String.eqb_refl, (FieldInfo_eqb_refl f). simpl. apply go.
  - destruct f as [a d factory s]; simpl.
    rewrite (ty_eqb_refl a), default_value_eqb_refl, option_pyobj_eqb_refl,
      option_string_eqb_refl.
    reflexivity.
Qed.

(** C5, as the code has it.  The derived class is a function of the
    structure of the source class, so two derivations from one class are
    structurally equal, and deriving twice keeps the field names and their
    order.  A field whose declared type is not a model class, nor a union
    with a model class among its parameters, is the same after the second
    derivation as after the first; when every field is of that kind the
    second derivation raises nothing and the two derived classes have the
    same fields.  A field declared as a model class is not: the second
    derivation replaces the default [{}] by [None] and the derived class
    in its type by the derived class of the derived class. *)
Theorem partial_twice
    (wrapped_class : pyclass) (field : FieldInfo) (c : pyclass) :
  (forall first second,
      Partial_getitem wrapped_class = Ok first ->
      Partial_getitem wrapped_class = Ok second ->
      pyclass_eqb first second = true)
  /\ (forall derived derived_twice,
         Partial_getitem wrapped_class = Ok derived ->
         Partial_getitem derived = Ok derived_twice ->
         map fst (__fields__ derived_twice) = map fst (__fields__ wrapped_class))
  /\ (settles_after_once (annotation field) = true ->
      forall once,
        _make_field_optional Partial_getitem field = Ok once ->
        _make_field_optional Partial_getitem (snd once) = Ok once)
  /\ (forallb (fun field_name_info =>
                 settles_after_once (annotation (snd field_name_info)))
              (__fields__ wrapped_class) = true ->
      forall derived,
        Partial_getitem wrapped_class = Ok derived ->
        exists derived_twice,
          Partial_getitem derived = Ok derived_twice
          /\ __fields__ derived_twice = __fields__ derived)
  /\ (annotation field = TClass c ->
      issubclass_BaseModel c = true ->
      forall once,
        _make_field_optional Partial_getitem field = Ok once ->
        exists derived,
          Partial_getitem c = Ok derived
          /\ annotation (snd once) = TGeneric Union [TClass derived; NoneType]
          /\ default (snd once) = Default (PDict [])
          /\ forall twice,
               _make_field_optional Partial_getitem (snd once) = Ok twice ->
               exists derived_twice,
                 Partial_getitem derived = Ok derived_twice
                 /\ annotation (snd twice)
                    = TGeneric Union [TClass derived_twice; NoneType]
                 /\ default (snd twice) = Default PNone).
Proof.
  split.
  { intros first second H1 H2. rewrite H1 in H2. injection H2 as <-.
    apply pyclass_eqb_refl. }
  split.
  { intros derived derived_twice H1 H2.
    rewrite (Partial_field_names _ _ H2). apply (Partial_field_names _ _ H1). }
  split; [intros H once; apply make_field_optional_twice; exact H|].
  split; [intros H derived; apply Partial_fields_twice; exact H|].
  intros Ha Hc once. apply make_field_optional_twice_model; assumption.
Qed.

Lemma partial_twice_witness :
  (exists derived derived_twice,
      Partial_getitem Flat = Ok derived
      /\ Partial_getitem derived = Ok derived_twice
      /\ __fields__ derived_twice = __fields__ derived)
  /\ exists once derived,
       _make_field_optional Partial_getitem
         (mkFieldInfo (TClass Inner) PydanticUndefined None None) = Ok once
       /\ Partial_getitem Inner = Ok derived
       /\ default (snd once) = Default (PDict []).
Proof.
  split.
  - destruct (Partial_getitem Flat) as [derived|e] eqn:H; [|discriminate H].
    destruct (partial_twice Flat (mkFieldInfo int_ PydanticUndefined None None) Inner)
      as (_ & _ & _ & Hfields & _).
    destruct (Hfields eq_refl derived H) as (derived_twice & H2 & Hf).
    exists derived, derived_twice. split; [reflexivity|]. split; [exact H2 | exact Hf].
  - destruct (_make_field_optional Partial_getitem
                (mkFieldInfo (TClass Inner) PydanticUndefined None None))
      as [once|e] eqn:H; [|discriminate H].
    destruct (partial_twice Outer
                (mkFieldInfo (TClass Inner) PydanticUndefined None None) Inner)
      as (_ & _ & _ & _ & Hmodel).
    destruct (Hmodel eq_refl eq_refl once H) as (derived & Hd & _ & Hdef & _).
    exists once, derived. split; [reflexivity|]. split; [exact Hd | exact Hdef].
Defined.

(** C5, as the claim states it, fails: deriving twice from [Outer] does
    not give the defaults that deriving once gives. *)
Lemma partial_twice_changes_default :
  exists derived derived_twice,
    Partial_getitem Outer = Ok derived
    /\ Partial_getitem derived = Ok derived_twice
    /\ field_defaults derived = [("inner", Default (PDict []))]
    /\ field_defaults derived_twice = [("inner", Default PNone)]
    /\ field_defaults derived_twice <> field_defaults derived.
Proof.
  eexists. eexists. split; [reflexivity|]. split; [reflexivity|].
  split; [reflexivity|]. split; [reflexivity|]. vm_compute. discriminate.
Qed.

(** ** Classes the optionalizer accepts *)

Lemma pep604_free_field_annotation (f : FieldInfo) :
  pep604_free_field f = pep604_free (annotation f).
Proof. destruct f; reflexivity. Qed.

Lemma pep604_free_flatten_union (params : list ty) :
  forallb pep604_free params = true ->
  forallb pep604_free (flatten_union params) = true.
Proof.
  unfold flatten_union.
  induction params as [|p r IH]; cbn [forallb flat_map]; [reflexivity|].
  intros H. apply andb_prop in H as [Hp Hr].
  rewrite forallb_app, (IH Hr), andb_true_r.
  destruct p as [s | c | [| |o] args]; cbn [forallb]; try (rewrite Hp; reflexivity).
  - cbn [pep604_free is_UnionType negb andb] in Hp. exact Hp.
  - discriminate Hp.
Qed.

Lemma pep604_free_remove_dups_from (params : list ty) :
  forall seen,
    forallb pep604_free params = true ->
    forallb pep604_free (remove_dups_from seen params) = true.
Proof.
  induction params as [|p r IH]; intros seen H; cbn [remove_dups_from]; [reflexivity|].
  cbn [forallb] in H. apply andb_prop in H as [Hp Hr].
  destruct (existsb (ty_eqb p) seen); [apply IH; exact Hr|].
  cbn [forallb]. rewrite Hp, (IH _ Hr). reflexivity.
Qed.

Lemma pep604_free_Union_getitem (params : list ty) :
  forallb pep604_free params = true -> pep604_free (Union_getitem params) = true.
Proof.
  intros H. unfold Union_getitem.
  pose proof (pep604_free_remove_dups_from _ [] (pep604_free_flatten_union _ H)) as Hd.
  destruct (remove_dups_from [] (flatten_union params)) as [|p [|q r]].
  - reflexivity.
  - cbn [forallb] in Hd. rewrite andb_true_r in Hd. exact Hd.
  - cbn [pep604_free is_UnionType negb andb]. exact Hd.
Qed.

Lemma pep604_free_Optional (t : ty) :
  pep604_free t = true -> pep604_free (Optional_ t) = true.
Proof.
  intros H. apply pep604_free_Union_getitem. cbn [forallb]. rewrite H. reflexivity.
Qed.

Lemma pep604_free_In_class (c' : pyclass) (args : list ty) :
  forallb pep604_free args = true -> In (TClass c') args ->
  pep604_free_class c' = true.
Proof.
  intros H Hin. rewrite forallb_forall in H. exact (H _ Hin).
Qed.

(** A field without a union written [X | Y] is transformed without an
    exception, given that the model classes it names are. *)
Lemma make_field_optional_pep604_free (field : FieldInfo) :
  (forall c', top_or_argument (TClass c') (annotation field) ->
              pep604_free_class c' = true ->
              exists derived, Partial_getitem c' = Ok derived
                              /\ pep604_free_class derived = true) ->
  pep604_free (annotation field) = true ->
  exists optional,
    _make_field_optional Partial_getitem field = Ok optional
    /\ pep604_free (annotation (snd optional)) = true.
Proof.
  intros IH Hfree. unfold _make_field_optional.
  destruct (annotation field) as [s | c | generic_base generic_args] eqn:Ha.
  - eexists. split; [reflexivity|]. reflexivity.
  - destruct (issubclass_BaseModel c).
    + destruct (IH c (or_introl eq_refl) Hfree) as (derived & Hd & Hdf).
      rewrite Hd. cbn [mbind res_bind]. eexists. split; [reflexivity|].
      cbn [snd annotation]. apply pep604_free_Optional. exact Hdf.
    + eexists. split; [reflexivity|].
      cbn [snd annotation]. apply pep604_free_Optional. exact Hfree.
  - cbn [pep604_free] in Hfree. apply andb_prop in Hfree as [Ho Hargs].
    assert (Hm : exists modified_args,
               mapM (modified_arg Partial_getitem) generic_args = Ok modified_args
               /\ forallb pep604_free modified_args = true).
    { assert (Hreach : forall c', In (TClass c') generic_args ->
                exists derived, Partial_getitem c' = Ok derived
                                /\ pep604_free_class derived = true).
      { intros c' Hin. apply IH.
        - right. exists generic_base, generic_args. split; [reflexivity | exact Hin].
        - exact (pep604_free_In_class c' generic_args Hargs Hin). }
      clear IH Ha. induction generic_args as [|arg args IHargs].
      - exists []. split; reflexivity.
      - cbn [forallb] in Hargs. apply andb_prop in Hargs as [Harg Hrest].
        destruct (IHargs Hrest) as (modified_args & Hmap & Hfree').
        { intros c' Hin. apply Hreach. right. exact Hin. }
        cbn [mapM]. rewrite Hmap.
        destruct arg as [s | c | o xs]; cbn [modified_arg mbind res_bind].
        + eexists. split; [reflexivity|]. cbn [forallb]. rewrite Hfree'. reflexivity.
        + destruct (issubclass_BaseModel c).
          * destruct (Hreach c (or_introl eq_refl)) as (derived & Hd & Hdf).
            rewrite Hd. cbn [mbind res_bind]. eexists. split; [reflexivity|].
            cbn [forallb pep604_free]. rewrite Hdf, Hfree'. reflexivity.
          * eexists. split; [reflexivity|]. cbn [forallb].
            rewrite Harg, Hfree'. reflexivity.
        + eexists. split; [reflexivity|]. cbn [forallb].
          rewrite Harg, Hfree'. reflexivity. }
    destruct Hm as (modified_args & Hmap & Hfree'). rewrite Hmap.
    cbn [mbind res_bind].
    destruct generic_base as [| |name]; cbn [subscript mbind res_bind].
    + eexists. split; [reflexivity|]. cbn [snd annotation].
      apply pep604_free_Optional, pep604_free_Union_getitem. exact Hfree'.
    + discriminate Ho.
    + eexists. split; [reflexivity|]. cbn [snd annotation].
      apply pep604_free_Optional. cbn [pep604_free is_UnionType negb andb].
      exact Hfree'.
Qed.

(** [Partial[...]] of a class without unions written [X | Y] raises
    nothing, and the derived class is again without them. *)
Lemma Partial_getitem_pep604_free (wrapped_class : pyclass) :
  pep604_free_class wrapped_class = true ->
  exists derived, Partial_getitem wrapped_class = Ok derived
                  /\ pep604_free_class derived = true.
Proof.
  induction wrapped_class as [c IH] using pyclass_fields_ind. intros Hfree.
  rewrite Partial_getitem_unfold.
  assert (Hf : exists fields,
             mapM (optional_item Partial_getitem) (__fields__ c) = Ok fields
             /\ forallb (fun field_name_info => pep604_free_field (snd field_name_info))
                        fields = true).
  { assert (Hfields : forallb (fun field_name_info =>
                                 pep604_free_field (snd field_name_info))
                              (__fields__ c) = true)
      by (destruct c; try reflexivity; exact Hfree).
    clear Hfree. induction (__fields__ c) as [|[field_name field] r IHr].
    - exists []. split; reflexivity.
    - cbn [forallb snd] in Hfields. apply andb_prop in Hfields as [Hfield Hrest].
      destruct IHr as (fields & Hmap & Hfree').
      { intros k f c' Hin. apply (IH k f c'). right. exact Hin. }
      { exact Hrest. }
      rewrite pep604_free_field_annotation in Hfield.
      destruct (make_field_optional_pep604_free field) as (optional & Hopt & Hof).
      { intros c' Hreach. apply (IH field_name field c'); [left; reflexivity | exact Hreach]. }
      { exact Hfield. }
      rewrite mapM_cons, Hmap. unfold optional_item. cbn [fst snd].
      rewrite Hopt. cbn [mbind res_bind].
      eexists. split; [reflexivity|]. cbn [forallb snd].
      rewrite pep604_free_field_annotation, Hof, Hfree'. reflexivity. }
  destruct Hf as (fields & Hmap & Hfree'). rewrite Hmap. cbn [mbind res_bind].
  eexists. split; [reflexivity|]. exact Hfree'.
Qed.

(** ** The marker class *)

(** A class that came out of a class statement has no [Partial] above it. *)
Lemma type_new_no_Partial (module_ name : string) (bases : list pyclass)
    (fields : list (string * FieldInfo)) (c : pyclass) :
  type_new module_ name bases fields = Ok c -> resolves_to_Partial c = false.
Proof.
  unfold type_new. destruct (existsb resolves_to_Partial bases) eqn:H; [discriminate|].
  intros [= <-]. unfold resolves_to_Partial. cbn [ancestors existsb is_Partial orb].
  induction bases as [|b r IH]; [reflexivity|].
  cbn [existsb] in H. apply orb_false_elim in H as [Hb Hr].
  cbn [flat_map]. rewrite existsb_app, (IH Hr), orb_false_r. exact Hb.
Qed.

Lemma resolves_to_Partial_derived (wrapped_class derived : pyclass) :
  Partial_getitem wrapped_class = Ok derived ->
  resolves_to_Partial derived = resolves_to_Partial wrapped_class.
Proof.
  intros H. apply Partial_getitem_Ok_inv in H as (fields & _ & ->).
  unfold resolves_to_Partial.
  cbn [ancestors flat_map existsb is_Partial orb]. rewrite !existsb_app.
  cbn [existsb is_Partial orb]. rewrite !orb_false_r. reflexivity.
Qed.

(** For a model class without [Partial] above it, the creation of the
    derived class is accepted: [Partial[...]] is the derivation. *)
Lemma Partial_class_getitem_model (module_ : string) (wrapped_class : pyclass) :
  issubclass_BaseModel wrapped_class = true ->
  resolves_to_Partial wrapped_class = false ->
  Partial_class_getitem module_ wrapped_class = Partial_getitem wrapped_class.
Proof.
  intros Hm Hp. unfold Partial_class_getitem. rewrite Hm.
  destruct (Partial_getitem wrapped_class) as [derived|e] eqn:H;
    cbn [mbind res_bind]; [|reflexivity].
  apply Partial_getitem_Ok_inv in H as (fields & _ & ->).
  unfold type_new. cbn [existsb]. rewrite Hp.
  cbn [resolves_to_Partial ancestors existsb is_Partial orb]. reflexivity.
Qed.

Lemma make_field_optional_has_default (field : FieldInfo) (optional : ty * FieldInfo) :
  _make_field_optional Partial_getitem field = Ok optional ->
  exists v, field_get_default (snd optional) = Some v.
Proof.
  unfold _make_field_optional, field_get_default.
  destruct (annotation field) as [s | c | o args].
  - intros [= <-]. cbn [snd default default_factory].
    destruct (default_factory field) as [made|]; eexists; reflexivity.
  - destruct (issubclass_BaseModel c).
    + destruct (Partial_getitem c); cbn [mbind res_bind]; [|discriminate].
      intros [= <-]. cbn [snd default default_factory].
      destruct (default_factory field) as [made|]; eexists; reflexivity.
    + intros [= <-]. cbn [snd default default_factory].
      destruct (default_factory field) as [made|]; eexists; reflexivity.
  - destruct (mapM _ args); cbn [mbind res_bind]; [|discriminate].
    destruct (subscript o a); cbn [mbind res_bind]; [|discriminate].
    intros [= <-]. cbn [snd default default_factory].
    destruct (default_factory field) as [made|]; eexists; reflexivity.
Qed.

(** Every field of a derived class has a value to take when no data is
    given, so the class can be called without arguments. *)
Lemma defaults_dict_derived (wrapped_class derived : pyclass) :
  Partial_getitem wrapped_class = Ok derived ->
  exists d, defaults_dict (__fields__ derived) = Ok d.
Proof.
  intros H. apply Partial_getitem_Ok_inv in H as (fields & Hf & ->).
  cbn [__fields__]. apply mapM_Ok_inv in Hf.
  induction Hf as [|item derived_item r r' Hitem _ IH].
  - eexists. reflexivity.
  - destruct IH as [d Hd].
    apply optional_item_Ok_inv in Hitem as (optional & Hopt & ->).
    destruct (make_field_optional_has_default _ _ Hopt) as [v Hv].
    cbn [defaults_dict]. rewrite Hd. cbn [mbind res_bind]. rewrite Hv.
    eexists. reflexivity.
Qed.

Lemma UnionType_error_not_instantiate :
  TypeError UnionType_not_subscriptable
  <> TypeError "Cannot instantiate abstract Partial class.".
Proof. discriminate. Qed.

Lemma UnionType_error_not_subclass (module_ : string) :
  TypeError UnionType_not_subscriptable
  <> TypeError ("Cannot subclass " +:+ module_ +:+ ".Partial").
Proof.
  change ("Cannot subclass " +:+ module_ +:+ ".Partial")
    with (String "C" ("annot subclass " +:+ module_ +:+ ".Partial")).
  discriminate.
Qed.

(** C7. Calling [Partial] raises [TypeError], and a class statement with
    [Partial] among the bases raises [TypeError].  [Partial[SomeModel]],
    for a model class that was itself successfully defined, raises
    neither of the two: the one exception it can raise is the [TypeError]
    of a field declared as a union written [X | Y], and without such a
    field it returns a class.  The class it returns has no [Partial] above
    it and can be called: the call returns an instance in which every
    field has the value it takes when no data is given. *)
Theorem marker_type_misuse
    (module_ name : string) (bases : list pyclass)
    (fields : list (string * FieldInfo)) (wrapped_class : pyclass) :
  type_call Partial_cls = Raise (TypeError "Cannot instantiate abstract Partial class.")
  /\ (In Partial_cls bases ->
      type_new module_ name bases fields
      = Raise (TypeError ("Cannot subclass " +:+ module_ +:+ ".Partial")))
  /\ (issubclass_BaseModel wrapped_class = true ->
      resolves_to_Partial wrapped_class = false ->
      (forall e,
          Partial_class_getitem module_ wrapped_class = Raise e ->
          e = TypeError UnionType_not_subscriptable
          /\ e <> TypeError "Cannot instantiate abstract Partial class."
          /\ e <> TypeError ("Cannot subclass " +:+ module_ +:+ ".Partial"))
      /\ (pep604_free_class wrapped_class = true ->
          exists derived, Partial_class_getitem module_ wrapped_class = Ok derived)
      /\ forall derived,
           Partial_class_getitem module_ wrapped_class = Ok derived ->
           __bases__ derived = [wrapped_class; PartialBase_cls]
           /\ resolves_to_Partial derived = false
           /\ type_call derived
              <> Raise (TypeError "Cannot instantiate abstract Partial class.")
           /\ exists d, type_call derived = Ok {| obj_dict := d |}
                        /\ defaults_dict (__fields__ derived) = Ok d).
Proof.
  split; [reflexivity|]. split.
  - intros Hin. unfold type_new.
    assert (H : existsb resolves_to_Partial bases = true).
    { apply existsb_exists. exists Partial_cls. split; [exact Hin | reflexivity]. }
    rewrite H. reflexivity.
  - intros Hm Hp. rewrite (Partial_class_getitem_model module_ wrapped_class Hm Hp).
    split; [|split].
    + intros e He. rewrite (Partial_getitem_Raise wrapped_class e He).
      split; [reflexivity|].
      split; [apply UnionType_error_not_instantiate | apply UnionType_error_not_subclass].
    + intros Hfree.
      destruct (Partial_getitem_pep604_free wrapped_class Hfree) as (derived & H & _).
      exists derived. exact H.
    + intros derived H.
      assert (Hr : resolves_to_Partial derived = false)
        by (rewrite (resolves_to_Partial_derived _ _ H); exact Hp).
      destruct (defaults_dict_derived _ _ H) as [d Hd].
      assert (Hcall : type_call derived = Ok {| obj_dict := d |})
        by (unfold type_call; rewrite Hr, Hd; reflexivity).
      split.
      { apply Partial_getitem_Ok_inv in H as (fs & _ & ->). reflexivity. }
      split; [exact Hr|]. split; [rewrite Hcall; discriminate|].
      exists d. split; [exact Hcall | exact Hd].
Qed.

Lemma marker_type_misuse_witness :
  type_new "app" "Mine" [BaseModel_cls; Partial_cls] []
  = Raise (TypeError "Cannot subclass app.Partial")
  /\ exists derived d,
       Partial_class_getitem "app" Outer = Ok derived
       /\ type_call derived = Ok {| obj_dict := d |}
       /\ d = {["inner" := PDict []]}.
Proof.
  destruct (marker_type_misuse "app" "Mine" [BaseModel_cls; Partial_cls] [] Outer)
    as (_ & Hsub & Hget).
  split; [apply Hsub; right; left; reflexivity|].
  destruct (Hget eq_refl eq_refl) as (_ & Hok & Hcall).
  destruct (Hok eq_refl) as (derived & Hd).
  destruct (Hcall derived Hd) as (_ & _ & _ & d & Hc & Hdict).
  exists derived, d. split; [exact Hd|]. split; [exact Hc|].
  assert (Hdd : Partial_class_getitem "app" Outer
                = Ok (Class "PartialOuter" [Outer; PartialBase_cls]
                        [("inner",
                          mkFieldInfo
                            (TGeneric Union
                               [TClass (Class "PartialInner" [Inner; PartialBase_cls]
                                          [("x",
                                            mkFieldInfo (TGeneric Union [int_; NoneType])
                                              (Default PNone) None None)]);
                                NoneType])
                            (Default (PDict [])) None None)]))
    by reflexivity.
  rewrite Hdd in Hd. injection Hd as <-.
  cbn [defaults_dict __fields__ field_get_default default default_factory
       mbind res_bind] in Hdict.
  injection Hdict as <-. reflexivity.
Defined.
(** ** The extracted stream in closed form *)

Lemma extract_json_try_selected (chunk : Chunk) (mode : Mode) :
  streaming_supported mode = true ->
  except_AttributeError_pass (extract_json_try chunk mode) = Ok (selected mode chunk).
Proof.
  intros Hm.
  destruct chunk as [[| |[|[[| |[fc ct tc]]] others]]];
    try (destruct mode; try discriminate Hm; reflexivity).
  destruct mode; try discriminate Hm;
    unfold extract_json_try, selected, getattr;
    cbn [choices delta function_call content tool_calls mbind res_bind
         Mode_eqb existsb orb selected_of_delta selected_arguments].
  - destruct fc as [| |[[| |s]]]; try reflexivity.
    cbn. destruct (str_truthy s); reflexivity.
  - destruct tc as [| |[|[[| |[[| |s]]]] tcs]]; reflexivity.
  - destruct ct as [| |s]; try reflexivity. cbn. destruct (str_truthy s); reflexivity.
  - destruct ct as [| |s]; try reflexivity. cbn. destruct (str_truthy s); reflexivity.
  - destruct ct as [| |s]; try reflexivity. cbn. destruct (str_truthy s); reflexivity.
  - destruct ct as [| |s]; try reflexivity. cbn. destruct (str_truthy s); reflexivity.
Qed.

Lemma extract_json_loop_selected (mode : Mode) (src_end : option exn)
    (completion : list Chunk) :
  streaming_supported mode = true ->
  extract_json_loop mode src_end completion = (omap (selected mode) completion, src_end).
Proof.
  intros Hm. induction completion as [|chunk rest IH]; [reflexivity|].
  cbn [extract_json_loop]. rewrite (extract_json_try_selected _ _ Hm), IH.
  cbn [omap list_omap]. destruct (selected mode chunk); reflexivity.
Qed.

(** X1. For a supported mode [extract_json] and [extract_json_async] never
    raise by themselves: what they yield is, fragment by fragment and in
    order, the text the mode selects in the first choice, a fragment of
    any other shape contributing nothing, and the stream ends the way the
    source ends. *)
Theorem extract_json_closed_form
    (completion : list Chunk) (src_end : option exn) (mode : Mode) :
  streaming_supported mode = true ->
  extract_json (completion, src_end) mode = (omap (selected mode) completion, src_end)
  /\ extract_json_async (completion, src_end) mode
     = (omap (selected mode) completion, src_end).
Proof.
  intros Hm.
  split; exact (extract_json_loop_selected mode src_end completion Hm).
Qed.

Lemma extract_json_closed_form_witness :
  extract_json ([content_chunk "{"; {| choices := Has [] |}; content_chunk "";
                 content_chunk "}"], None) JSON_SCHEMA
  = ([Some "{"; Some "}"], None).
Proof.
  apply (extract_json_closed_form
           [content_chunk "{"; {| choices := Has [] |}; content_chunk "";
            content_chunk "}"] None JSON_SCHEMA).
  reflexivity.
Defined.

Lemma extract_json_loop_app (mode : Mode) (src_end : option exn)
    (a b : list Chunk) :
  extract_json_loop mode src_end (a ++ b)
  = match outcome (extract_json_loop mode None a) with
    | None =>
        (yields (extract_json_loop mode None a)
         ++ yields (extract_json_loop mode src_end b),
         outcome (extract_json_loop mode src_end b))
    | Some err => extract_json_loop mode None a
    end.
Proof.
  induction a as [|chunk rest IH]; cbn [app extract_json_loop].
  - destruct (extract_json_loop mode src_end b). reflexivity.
  - destruct (except_AttributeError_pass (extract_json_try chunk mode)) as [y|err];
      [|reflexivity].
    rewrite IH.
    destruct (extract_json_loop mode None rest) as [ys [err|]];
      destruct y; reflexivity.
Qed.

(** X2. Extraction of a stream in two parts: when the first part does not
    raise, the extracted stream is what the first part yields followed by
    what the second part yields, ending as the second part ends; when the
    first part raises, the second part is never looked at. *)
Theorem extract_json_app
    (a b : list Chunk) (src_end : option exn) (mode : Mode) :
  extract_json (a ++ b, src_end) mode
  = match outcome (extract_json (a, None) mode) with
    | None =>
        (yields (extract_json (a, None) mode) ++ yields (extract_json (b, src_end) mode),
         outcome (extract_json (b, src_end) mode))
    | Some err => extract_json (a, None) mode
    end.
Proof. apply extract_json_loop_app. Qed.

Lemma selected_text_mode_nonempty (mode : Mode) (chunk : Chunk) (y : pystr) :
  text_mode mode = true -> selected mode chunk = Some y -> is_nonempty_str y = true.
Proof.
  intros Hm. unfold selected.
  destruct (choices chunk) as [| |[|choices_0 others]]; try discriminate.
  destruct (delta choices_0) as [| |d]; try discriminate.
  assert (Hn : forall t, nonempty t = Some y -> is_nonempty_str y = true).
  { intros [s|]; cbn; [|discriminate].
    destruct (str_truthy s) eqn:E; [|discriminate]. intros [= <-]. exact E. }
  destruct mode; try discriminate Hm; cbn [selected_of_delta]; apply Hn.
Qed.

(** X3. In the modes that read function-call arguments or message
    content, every extracted item is a non-empty string: such a stream
    never carries [None] or the empty string. *)
Theorem extract_json_text_modes_nonempty
    (completion : list Chunk) (src_end : option exn) (mode : Mode) :
  text_mode mode = true ->
  forallb is_nonempty_str (yields (extract_json (completion, src_end) mode)) = true
  /\ forallb is_nonempty_str (yields (extract_json_async (completion, src_end) mode))
     = true.
Proof.
  intros Hm.
  assert (Hs : streaming_supported mode = true)
    by (destruct mode; try discriminate Hm; reflexivity).
  rewrite (extract_json_async_eq (completion, src_end) mode).
  unfold extract_json, outcome, yields. cbn [fst snd].
  rewrite (extract_json_loop_selected mode src_end completion Hs). cbn [fst].
  assert (H : forallb is_nonempty_str (omap (selected mode) completion) = true).
  { induction completion as [|chunk rest IH]; [reflexivity|].
    cbn [omap list_omap]. destruct (selected mode chunk) as [y|] eqn:E; [|exact IH].
    cbn [forallb]. rewrite (selected_text_mode_nonempty mode chunk y Hm E). exact IH. }
  split; exact H.
Qed.

Lemma extract_json_text_modes_nonempty_witness :
  forallb is_nonempty_str
    (yields (extract_json ([content_chunk ""; content_chunk "{}"], None) MD_JSON))
  = true.
Proof.
  apply (extract_json_text_modes_nonempty [content_chunk ""; content_chunk "{}"]
           None MD_JSON).
  reflexivity.
Defined.

(** ** White space and the accumulated text *)

Lemma lstrip_blank (s : string) : is_blank s = true -> lstrip s = "".
Proof.
  unfold is_blank. induction s as [|c r IH]; cbn [list_ascii_of_string forallb lstrip];
    [reflexivity|].
  intros H. apply andb_prop in H as [Hc Hr]. rewrite Hc. exact (IH Hr).
Qed.

Lemma lstrip_not_blank (s : string) :
  is_blank s = false -> exists c r, lstrip s = String c r /\ is_space c = false.
Proof.
  unfold is_blank. induction s as [|c r IH]; cbn [list_ascii_of_string forallb lstrip];
    [discriminate|].
  destruct (is_space c) eqn:Hc; cbn [andb].
  - exact IH.
  - intros _. exists c, r. split; [reflexivity | exact Hc].
Qed.

Lemma rstrip_head_not_space (c : ascii) (r : string) :
  is_space c = false -> rstrip (String c r) <> "".
Proof.
  intros Hc. cbn [rstrip]. destruct (rstrip r); [rewrite Hc|]; discriminate.
Qed.

(** [str.strip] leaves nothing exactly of a blank text. *)
Lemma strip_truthy_not_blank (s : string) : str_truthy (strip s) = negb (is_blank s).
Proof.
  unfold strip, str_truthy. destruct (is_blank s) eqn:Hb.
  - rewrite (lstrip_blank s Hb). reflexivity.
  - destruct (lstrip_not_blank s Hb) as (c & r & -> & Hc).
    pose proof (rstrip_head_not_space c r Hc) as Hne.
    destruct (rstrip (String c r)); [contradiction | reflexivity].
Qed.

Lemma is_blank_app (a b : string) : is_blank (a +:+ b) = is_blank a && is_blank b.
Proof.
  unfold is_blank. induction a as [|c r IH]; [reflexivity|].
  change (String c r +:+ b) with (String c (r +:+ b)).
  cbn [list_ascii_of_string forallb]. rewrite IH, andb_assoc. reflexivity.
Qed.

Section RunFacts.

Variable parser_parse : string -> res pyobj.
Variable cls : ModelClass.

(** An iteration on a buffer that stays blank: no parser call, nothing
    emitted, nothing raised. *)
Lemma model_from_chunks_body_blank (st : locals) (c : string) :
  is_blank (potential_object st +:+ c) = true ->
  model_from_chunks_body parser_parse cls st (Some c)
  = Ok {| after := {| prev_obj := prev_obj st;
                      potential_object := potential_object st +:+ c |};
          parse_arg := None; emitted := None |}.
Proof.
  intros Hb. unfold model_from_chunks_body. cbn [str_iadd mbind res_bind].
  rewrite strip_truthy_not_blank, Hb. reflexivity.
Qed.

Lemma model_from_chunks_body_parse_arg (st : locals) (chunk : pystr) (it : iteration) :
  model_from_chunks_body parser_parse cls st chunk = Ok it -> parse_arg_by_buffer it.
Proof.
  unfold model_from_chunks_body, parse_arg_by_buffer.
  destruct chunk as [c|]; cbn [str_iadd mbind res_bind]; [|discriminate].
  rewrite strip_truthy_not_blank.
  destruct (is_blank (potential_object st +:+ c)) eqn:Hb; cbn [negb mbind res_bind].
  - intros [= <-]. cbn [after potential_object parse_arg]. rewrite Hb. reflexivity.
  - destruct (parser_parse _) as [v|e]; cbn [mbind res_bind]; [|discriminate].
    destruct (truthy v).
    + destruct (model_validate cls v) as [obj|e]; cbn [mbind res_bind]; [|discriminate].
      destruct (obj_ne _ _ _); intros [= <-];
        cbn [after potential_object parse_arg]; rewrite Hb; reflexivity.
    + intros [= <-]. cbn [after potential_object parse_arg]. rewrite Hb. reflexivity.
Qed.

Lemma model_from_chunks_steps_parse_arg (json_chunks : list pystr) :
  forall (st : locals) (src_end : option exn),
    Forall parse_arg_by_buffer
      (yields (model_from_chunks_steps parser_parse cls st src_end json_chunks)).
Proof.
  induction json_chunks as [|chunk rest IH]; intros st src_end;
    cbn [model_from_chunks_steps]; [constructor|].
  destruct (model_from_chunks_body parser_parse cls st chunk) as [it|e] eqn:Hb;
    [|constructor].
  cbn. constructor; [exact (model_from_chunks_body_parse_arg _ _ _ Hb) | apply IH].
Qed.

(** From a buffer that is not blank every completed iteration calls the
    parser. *)
Lemma model_from_chunks_steps_all_parse (json_chunks : list pystr) :
  forall (st : locals) (src_end : option exn),
    is_blank (potential_object st) = false ->
    forallb parser_called
      (yields (model_from_chunks_steps parser_parse cls st src_end json_chunks)) = true.
Proof.
  induction json_chunks as [|chunk rest IH]; intros st src_end Hst;
    cbn [model_from_chunks_steps]; [reflexivity|].
  destruct (model_from_chunks_body parser_parse cls st chunk) as [it|e] eqn:Hb;
    [|reflexivity].
  destruct (model_from_chunks_body_buffer _ _ _ _ _ Hb) as (c & -> & Hbuf & _).
  pose proof (model_from_chunks_body_parse_arg _ _ _ Hb) as Hp.
  assert (Hnb : is_blank (potential_object (after it)) = false)
    by (rewrite Hbuf, is_blank_app, Hst; reflexivity).
  unfold parse_arg_by_buffer in Hp. rewrite Hnb in Hp.
  cbn. unfold parser_called at 1. rewrite Hp. cbn [andb]. apply IH. exact Hnb.
Qed.

Lemma model_from_chunks_steps_parses_from_first_call (json_chunks : list pystr) :
  forall (st : locals) (src_end : option exn),
    parses_from_first_call
      (yields (model_from_chunks_steps parser_parse cls st src_end json_chunks)) = true.
Proof.
  induction json_chunks as [|chunk rest IH]; intros st src_end;
    cbn [model_from_chunks_steps]; [reflexivity|].
  destruct (model_from_chunks_body parser_parse cls st chunk) as [it|e] eqn:Hb;
    [|reflexivity].
  pose proof (model_from_chunks_body_parse_arg _ _ _ Hb) as Hp.
  unfold parse_arg_by_buffer in Hp.
  cbn. unfold parser_called at 1. rewrite Hp.
  destruct (is_blank (potential_object (after it))) eqn:Hnb.
  - apply IH.
  - apply model_from_chunks_steps_all_parse. exact Hnb.
Qed.

End RunFacts.


(** X4. In every run of [model_from_chunks] the parser is called in an
    iteration exactly when the accumulated text holds a character that is
    not white space, and then on that text; so once it has been called, it
    is called in every later iteration. *)
Theorem parser_called_when_not_blank
    (parser_parse : string -> res pyobj) (cls : ModelClass)
    (json_chunks : list pystr) (src_end : option exn) :
  let its :=
    yields (model_from_chunks_steps parser_parse cls locals_init src_end json_chunks) in
  Forall parse_arg_by_buffer its
  /\ parses_from_first_call its = true.
Proof.
  split.
  - apply model_from_chunks_steps_parse_arg.
  - apply model_from_chunks_steps_parses_from_first_call.
Qed.

Lemma model_from_chunks_blank_run
    (parser_parse : string -> res pyobj) (cls : ModelClass)
    (json_chunks : list pystr) :
  forall (st : locals) (src_end : option exn),
    is_blank (potential_object st) = true ->
    forallb blank_chunk json_chunks = true ->
    model_from_chunks_loop parser_parse cls st src_end json_chunks = ([], src_end)
    /\ map parse_arg
         (yields (model_from_chunks_steps parser_parse cls st src_end json_chunks))
       = map (fun _ => None) json_chunks.
Proof.
  induction json_chunks as [|chunk rest IH]; intros st src_end Hst Hb.
  - split; reflexivity.
  - cbn [forallb] in Hb. apply andb_prop in Hb as [Hc Hr].
    destruct chunk as [c|]; [|discriminate Hc]. cbn [blank_chunk] in Hc.
    assert (Hbuf : is_blank (potential_object st +:+ c) = true)
      by (rewrite is_blank_app, Hst, Hc; reflexivity).
    cbn [model_from_chunks_loop model_from_chunks_steps].
    rewrite (model_from_chunks_body_blank parser_parse cls st c Hbuf).
    cbn [after emitted gen_cons].
    destruct (IH {| prev_obj := prev_obj st;
                    potential_object := potential_object st +:+ c |} src_end Hbuf Hr)
      as [Hl Hs].
    split; [exact Hl|].
    cbn [yields fst map parse_arg]. f_equal. exact Hs.
Qed.

(** X5. A stream whose chunks are all blank text emits nothing, never
    calls the parser, and ends as its source ends, whatever the parser and
    the validator would do. *)
Theorem blank_stream_emits_nothing
    (parser_parse : string -> res pyobj) (cls : ModelClass)
    (json_chunks : list pystr) (src_end : option exn) :
  forallb blank_chunk json_chunks = true ->
  model_from_chunks parser_parse cls (json_chunks, src_end) = ([], src_end)
  /\ model_from_chunks_async parser_parse cls (json_chunks, src_end) = ([], src_end)
  /\ map parse_arg
       (yields (model_from_chunks_steps parser_parse cls locals_init src_end json_chunks))
     = map (fun _ => None) json_chunks.
Proof.
  intros Hb.
  destruct (model_from_chunks_blank_run parser_parse cls json_chunks locals_init src_end
              eq_refl Hb) as [Hl Hs].
  split; [exact Hl|]. split; [|exact Hs].
  rewrite model_from_chunks_async_eq. exact Hl.
Qed.

Lemma blank_stream_emits_nothing_witness :
  model_from_chunks (fun _ => Raise (OtherError "JSONDecodeError"))
    (flat_optional_cls ["a"]) ([Some " "; Some ""; Some "  "], None)
  = ([], None).
Proof.
  apply (blank_stream_emits_nothing (fun _ => Raise (OtherError "JSONDecodeError"))
           (flat_optional_cls ["a"]) [Some " "; Some ""; Some "  "] None).
  reflexivity.
Defined.

Section RunComposition.

Variable parser_parse : string -> res pyobj.
Variable cls : ModelClass.

Lemma model_from_chunks_loop_app_gen (a b : list pystr) :
  forall (st : locals) (src_end : option exn),
    model_from_chunks_loop parser_parse cls st src_end (a ++ b)
    = match model_from_chunks_locals parser_parse cls st a with
      | Ok st' =>
          (yields (model_from_chunks_loop parser_parse cls st None a)
           ++ yields (model_from_chunks_loop parser_parse cls st' src_end b),
           outcome (model_from_chunks_loop parser_parse cls st' src_end b))
      | Raise err =>
          (yields (model_from_chunks_loop parser_parse cls st None a), Some err)
      end.
Proof.
  induction a as [|chunk rest IH]; intros st src_end;
    cbn [app model_from_chunks_loop model_from_chunks_locals].
  - destruct (model_from_chunks_loop parser_parse cls st src_end b). reflexivity.
  - destruct (model_from_chunks_body parser_parse cls st chunk) as [it|err];
      cbn [mbind res_bind]; [|reflexivity].
    rewrite IH.
    destruct (model_from_chunks_locals parser_parse cls (after it) rest) as [st'|err];
      destruct (emitted it); reflexivity.
Qed.

(** The ways an iteration can fail. *)
Lemma model_from_chunks_body_raises (st : locals) (chunk : pystr) (err : exn) :
  model_from_chunks_body parser_parse cls st chunk = Raise err <->
  (chunk = None
   /\ err = TypeError concatenate_None_message)
  \/ (exists c,
        chunk = Some c
        /\ is_blank (potential_object st +:+ c) = false
        /\ (parser_parse (potential_object st +:+ c) = Raise err
            \/ exists v, parser_parse (potential_object st +:+ c) = Ok v
                         /\ truthy v = true
                         /\ model_validate cls v = Raise err)).
Proof.
  unfold model_from_chunks_body.
  destruct chunk as [c|]; cbn [str_iadd mbind res_bind].
  - rewrite strip_truthy_not_blank.
    destruct (is_blank (potential_object st +:+ c)) eqn:Hb; cbn [negb mbind res_bind].
    + split; [discriminate|].
      intros [[H _] | (c' & [= <-] & H & _)];
        [discriminate H | rewrite Hb in H; discriminate H].
    + split.
      * intros H. right. exists c. split; [reflexivity|]. split; [exact Hb|].
        destruct (parser_parse (potential_object st +:+ c)) as [v|e];
          cbn [mbind res_bind] in H; [|left; injection H as ->; reflexivity].
        right. exists v. split; [reflexivity|].
        destruct (truthy v); [|discriminate H]. split; [reflexivity|].
        destruct (model_validate cls v) as [obj|e]; cbn [mbind res_bind] in H;
          [|injection H as ->; reflexivity].
        destruct (obj_ne _ _ _); discriminate H.
      * intros [[H _] | (c' & [= <-] & _ & [H | (v & Hp & Ht & Hv)])];
          [discriminate H | rewrite H; reflexivity |].
        rewrite Hp. cbn [mbind res_bind]. rewrite Ht, Hv. reflexivity.
  - split.
    + intros [= <-]. left. split; reflexivity.
    + intros [[_ ->] | (c & H & _)]; [reflexivity | discriminate H].
Qed.

End RunComposition.

(** X6. A run over a stream in two parts is the run over the first part
    followed by the run over the second part started from the locals the
    first part leaves ([prev_obj] and the accumulated text): the emitted
    instances are those of the first part followed by those of the second,
    and when the first part raises, its exception ends the run. *)
Theorem model_from_chunks_app
    (parser_parse : string -> res pyobj) (cls : ModelClass)
    (a b : list pystr) (src_end : option exn) :
  model_from_chunks parser_parse cls (a ++ b, src_end)
  = match model_from_chunks_locals parser_parse cls locals_init a with
    | Ok st' =>
        (yields (model_from_chunks parser_parse cls (a, None))
         ++ yields (model_from_chunks_loop parser_parse cls st' src_end b),
         outcome (model_from_chunks_loop parser_parse cls st' src_end b))
    | Raise err => (yields (model_from_chunks parser_parse cls (a, None)), Some err)
    end.
Proof. apply model_from_chunks_loop_app_gen. Qed.

(** X7. An iteration of the loop raises in exactly three ways: the chunk
    is [None] ([TypeError] from the concatenation); the parser raises on a
    buffer that is not blank; or the parser returns a truthy value that
    the validator rejects.  On a blank buffer, and on a falsy parse, it
    never raises. *)
Theorem iteration_failure_cases
    (parser_parse : string -> res pyobj) (cls : ModelClass)
    (st : locals) (chunk : pystr) (err : exn) :
  model_from_chunks_body parser_parse cls st chunk = Raise err <->
  (chunk = None
   /\ err = TypeError concatenate_None_message)
  \/ (exists c,
        chunk = Some c
        /\ is_blank (potential_object st +:+ c) = false
        /\ (parser_parse (potential_object st +:+ c) = Raise err
            \/ exists v, parser_parse (potential_object st +:+ c) = Ok v
                         /\ truthy v = true
                         /\ model_validate cls v = Raise err)).
Proof. apply model_from_chunks_body_raises. Qed.

Lemma iteration_failure_cases_witness :
  model_from_chunks_body empty_object_decoder (flat_optional_cls ["a"]) locals_init
    (Some "{")
  = Raise (OtherError "JSONDecodeError").
Proof.
  apply (iteration_failure_cases empty_object_decoder (flat_optional_cls ["a"])
           locals_init (Some "{") (OtherError "JSONDecodeError")).
  right. exists "{". split; [reflexivity|]. split; [reflexivity|]. left. reflexivity.
Defined.

(** X8. An exception in an iteration ends the stream there: the instances
    emitted before it are still yielded, the exception is the outcome, and
    neither the rest of the chunks nor the end of the source matters.  A
    candidate that fails validation therefore aborts the stream. *)
Theorem model_from_chunks_abort
    (parser_parse : string -> res pyobj) (cls : ModelClass)
    (pre rest : list pystr) (chunk : pystr) (src_end : option exn)
    (st : locals) (err : exn) :
  model_from_chunks_locals parser_parse cls locals_init pre = Ok st ->
  model_from_chunks_body parser_parse cls st chunk = Raise err ->
  model_from_chunks parser_parse cls (pre ++ chunk :: rest, src_end)
  = (yields (model_from_chunks parser_parse cls (pre, None)), Some err)
  /\ model_from_chunks_async parser_parse cls (pre ++ chunk :: rest, src_end)
     = (yields (model_from_chunks parser_parse cls (pre, None)), Some err).
Proof.
  intros Hpre Hbody.
  assert (H : model_from_chunks parser_parse cls (pre ++ chunk :: rest, src_end)
              = (yields (model_from_chunks parser_parse cls (pre, None)), Some err)).
  { unfold model_from_chunks, outcome, yields. cbn [fst snd].
    rewrite model_from_chunks_loop_app_gen, Hpre.
    cbn [model_from_chunks_loop]. rewrite Hbody. cbn [yields outcome fst snd].
    rewrite app_nil_r. reflexivity. }
  split; [exact H|]. rewrite model_from_chunks_async_eq. exact H.
Qed.

Lemma model_from_chunks_abort_witness :
  model_from_chunks array_decoder (flat_optional_cls ["a"])
    ([Some " "; Some "[1]"; Some "x"], None)
  = ([], Some (OtherError "ValidationError")).
Proof.
  apply (model_from_chunks_abort array_decoder (flat_optional_cls ["a"])
           [Some " "] [Some "x"] (Some "[1]") None
           {| prev_obj := None; potential_object := " " |}
           (OtherError "ValidationError")); reflexivity.
Defined.

(** ** What is emitted *)

Section EmissionFacts.

Variable parser_parse : string -> res pyobj.
Variable cls : ModelClass.

Lemma model_from_chunks_body_emitted (st : locals) (c : string) (it : iteration)
    (e : instance) :
  model_from_chunks_body parser_parse cls st (Some c) = Ok it ->
  emitted it = Some e ->
  emission_justified parser_parse cls (potential_object st) c e.
Proof.
  unfold model_from_chunks_body, emission_justified. cbn [str_iadd mbind res_bind].
  destruct (str_truthy (strip (potential_object st +:+ c))); cbn [mbind res_bind].
  - destruct (parser_parse (potential_object st +:+ c)) as [v|err];
      cbn [mbind res_bind]; [|discriminate].
    destruct (truthy v) eqn:Ht.
    + destruct (model_validate cls v) as [obj|err] eqn:Hv; cbn [mbind res_bind];
        [|discriminate].
      destruct (obj_ne _ _ _); intros [= <-]; cbn [emitted]; [|discriminate].
      intros [= <-]. exists v, obj. repeat split; assumption || reflexivity.
    + intros [= <-]. discriminate.
  - intros [= <-]. discriminate.
Qed.

Lemma model_from_chunks_steps_justified (json_chunks : list pystr) :
  forall (st : locals) (src_end : option exn),
    emissions_justified parser_parse cls (potential_object st) json_chunks
      (yields (model_from_chunks_steps parser_parse cls st src_end json_chunks)).
Proof.
  induction json_chunks as [|chunk rest IH]; intros st src_end;
    cbn [model_from_chunks_steps]; [exact I|].
  destruct (model_from_chunks_body parser_parse cls st chunk) as [it|err] eqn:Hb;
    [|exact I].
  destruct (model_from_chunks_body_buffer _ _ _ _ _ Hb) as (c & -> & Hbuf & _).
  cbn [gen_cons fst yields emissions_justified]. split.
  - destruct (emitted it) as [e|] eqn:He; [|exact I].
    exact (model_from_chunks_body_emitted st c it e Hb He).
  - rewrite <- Hbuf. apply IH.
Qed.

Lemma emissions_justified_chunk (its : list iteration) :
  forall (buffer : string) (json_chunks : list pystr),
    emissions_justified parser_parse cls buffer json_chunks its ->
    Forall (fun e => exists c, In (Some c) json_chunks
                               /\ obj_dict e !! "chunk" = Some (PStr c))
           (omap emitted its).
Proof.
  induction its as [|it r IH]; intros buffer json_chunks H; [constructor|].
  destruct json_chunks as [|[c|] chunks]; cbn [emissions_justified] in H;
    try contradiction.
  destruct H as [He Hr].
  assert (Hrest : Forall (fun e => exists c0, In (Some c0) (Some c :: chunks)
                                 /\ obj_dict e !! "chunk" = Some (PStr c0))
                         (omap emitted r)).
  { eapply Forall_impl; [|exact (IH _ _ Hr)].
    intros e (c0 & Hin & Hc). exists c0. split; [right; exact Hin | exact Hc]. }
  cbn [omap list_omap]. destruct (emitted it) as [e|]; [|exact Hrest].
  constructor; [|exact Hrest].
  destruct He as (v & obj & _ & _ & _ & ->). exists c. split; [left; reflexivity|].
  unfold dict_setitem. cbn [obj_dict]. apply lookup_insert_eq.
Qed.

End EmissionFacts.

(** X9. Every instance [model_from_chunks] emits is justified: at its
    iteration the parser decoded the whole accumulated text to a truthy
    value, the validator accepted that value, and the emitted instance is
    the validated one with the raw chunk of the iteration stored under
    ["chunk"].  In particular the ["chunk"] entry of every emitted instance
    is one of the chunks of the stream. *)
Theorem emissions_are_validated_parses
    (parser_parse : string -> res pyobj) (cls : ModelClass)
    (json_chunks : list pystr) (src_end : option exn) :
  let run := model_from_chunks_steps parser_parse cls locals_init src_end json_chunks in
  emissions_justified parser_parse cls "" json_chunks (yields run)
  /\ yields (model_from_chunks parser_parse cls (json_chunks, src_end))
     = omap emitted (yields run)
  /\ Forall (fun e => exists c, In (Some c) json_chunks
                                /\ obj_dict e !! "chunk" = Some (PStr c))
            (yields (model_from_chunks parser_parse cls (json_chunks, src_end))).
Proof.
  intros run.
  pose proof (model_from_chunks_steps_justified parser_parse cls json_chunks
                locals_init src_end) as Hj.
  assert (Hy : yields (model_from_chunks parser_parse cls (json_chunks, src_end))
               = omap emitted (yields run)).
  { unfold model_from_chunks, outcome. cbn [snd].
    unfold yields at 2. cbn [fst].
    rewrite (model_from_chunks_steps_loop parser_parse cls json_chunks locals_init src_end).
    reflexivity. }
  split; [exact Hj|]. split; [exact Hy|].
  rewrite Hy. exact (emissions_justified_chunk parser_parse cls _ _ _ Hj).
Qed.

(** ** One emission per content *)


Section SameContent.

Variable parser_parse : string -> res pyobj.
Variable cls : ModelClass.
Variable first : string.
Variable v : pyobj.
Variable obj : instance.

Hypothesis no_chunk_field : ~ In "chunk" (model_fields cls).
Hypothesis first_not_blank : is_blank first = false.
Hypothesis same_decode : forall suffix, parser_parse (first +:+ suffix) = Ok v.
Hypothesis decode_truthy : truthy v = true.
Hypothesis validated : model_validate cls v = Ok obj.
Hypothesis self_equal : model_eq (model_fields cls) obj obj = true.



End SameContent.



(** ** Failures the pipeline adds, and those it does not *)

Lemma model_from_chunks_loop_total
    (parser_parse : string -> res pyobj) (cls : ModelClass)
    (json_chunks : list pystr) :
  (forall s, exists v, parser_parse s = Ok v) ->
  (forall v, exists obj, model_validate cls v = Ok obj) ->
  forallb is_nonempty_str json_chunks = true ->
  forall (st : locals) (src_end : option exn),
    outcome (model_from_chunks_loop parser_parse cls st src_end json_chunks) = src_end.
Proof.
  intros Hp Hv.
  induction json_chunks as [|chunk rest IH]; intros Hs st src_end; [reflexivity|].
  cbn [forallb] in Hs. apply andb_prop in Hs as [Hc Hr].
  destruct chunk as [c|]; [|discriminate Hc].
  cbn [model_from_chunks_loop].
  destruct (model_from_chunks_body parser_parse cls st (Some c)) as [it|err] eqn:Hb.
  - destruct (emitted it); cbn [gen_cons outcome snd]; apply (IH Hr).
  - exfalso. apply model_from_chunks_body_raises in Hb.
    destruct Hb as [[H _] | (c' & _ & _ & [H | (v & _ & _ & H)])].
    + discriminate H.
    + destruct (Hp (potential_object st +:+ c')) as [v Hv']. congruence.
    + destruct (Hv v) as [obj Hobj]. congruence.
Qed.

(** X11. In the modes that read function-call arguments or message
    content (the Markdown mode, which goes through the unwrapping helper,
    left aside), the pipeline adds no failure of its own: when the parser
    and the validator never raise, [from_streaming_response] and
    [from_streaming_response_async] end exactly as the fragment source
    ends. *)
Theorem text_pipeline_adds_no_failure
    (parser_parse : string -> res pyobj) (cls : ModelClass)
    (extract_json_from_stream extract_json_from_stream_async : gen pystr -> gen pystr)
    (completion : list Chunk) (src_end : option exn) (mode : Mode) :
  text_mode mode = true ->
  Mode_eqb mode MD_JSON = false ->
  (forall s, exists v, parser_parse s = Ok v) ->
  (forall v, exists obj, model_validate cls v = Ok obj) ->
  outcome (from_streaming_response parser_parse cls extract_json_from_stream
             (completion, src_end) mode) = src_end
  /\ outcome (from_streaming_response_async parser_parse cls
                extract_json_from_stream_async (completion, src_end) mode) = src_end.
Proof.
  intros Hm Hmd Hp Hv.
  assert (Hs : streaming_supported mode = true)
    by (destruct mode; try discriminate Hm; reflexivity).
  assert (Hne : forallb is_nonempty_str (omap (selected mode) completion) = true).
  { induction completion as [|chunk rest IH]; [reflexivity|].
    cbn [omap list_omap]. destruct (selected mode chunk) as [y|] eqn:E; [|exact IH].
    cbn [forallb]. rewrite (selected_text_mode_nonempty mode chunk y Hm E). exact IH. }
  assert (H : outcome (from_streaming_response parser_parse cls extract_json_from_stream
                         (completion, src_end) mode) = src_end).
  { unfold from_streaming_response. rewrite Hmd.
    unfold extract_json. cbn [outcome yields fst snd].
    rewrite (extract_json_loop_selected mode src_end completion Hs).
    unfold model_from_chunks. cbn [fst snd].
    apply (model_from_chunks_loop_total parser_parse cls _ Hp Hv Hne). }
  split; [exact H|].
  unfold from_streaming_response_async. rewrite Hmd.
  rewrite model_from_chunks_async_eq.
  unfold from_streaming_response in H. rewrite Hmd in H. exact H.
Qed.

Lemma text_pipeline_adds_no_failure_witness :
  outcome (from_streaming_response (fun _ => Ok (PDict [("a", PInt 1)]))
             {| model_fields := ["a"];
                model_validate := fun v => Ok {| obj_dict := {["a" := v]} |} |}
             (fun g => g)
             ([content_chunk "{"; {| choices := IsNone |}; content_chunk "}"],
              Some (OtherError "ConnectionError")) JSON)
  = Some (OtherError "ConnectionError").
Proof.
  apply (text_pipeline_adds_no_failure (fun _ => Ok (PDict [("a", PInt 1)]))
           {| model_fields := ["a"];
              model_validate := fun v => Ok {| obj_dict := {["a" := v]} |} |}
           (fun g => g) (fun g => g)
           [content_chunk "{"; {| choices := IsNone |}; content_chunk "}"]
           (Some (OtherError "ConnectionError")) JSON).
  - reflexivity.
  - reflexivity.
  - intros s. eexists. reflexivity.
  - intros v. eexists. reflexivity.
Defined.

Lemma selected_without_choices (mode : Mode) (chunk : Chunk) :
  without_choices chunk -> selected mode chunk = None.
Proof. intros [H | [H | H]]; unfold selected; rewrite H; reflexivity. Qed.

Lemma omap_selected_without_choices (mode : Mode) (pre : list Chunk) :
  Forall without_choices pre -> omap (selected mode) pre = [].
Proof.
  induction 1 as [|chunk pre Hc _ IH]; [reflexivity|].
  cbn [omap list_omap]. rewrite (selected_without_choices mode chunk Hc). exact IH.
Qed.

Lemma model_from_chunks_locals_outcome
    (parser_parse : string -> res pyobj) (cls : ModelClass) (json_chunks : list pystr) :
  forall st : locals,
    outcome (model_from_chunks_loop parser_parse cls st None json_chunks)
    = match model_from_chunks_locals parser_parse cls st json_chunks with
      | Ok _ => None
      | Raise err => Some err
      end.
Proof.
  induction json_chunks as [|chunk rest IH]; intros st;
    cbn [model_from_chunks_loop model_from_chunks_locals]; [reflexivity|].
  destruct (model_from_chunks_body parser_parse cls st chunk) as [it|err];
    cbn [mbind res_bind]; [|reflexivity].
  rewrite <- IH. destruct (emitted it); reflexivity.
Qed.

(** X12. The [TOOLS] branch yields the arguments of the first tool call
    without testing them.  When they are [None], [extract_json] yields
    [None], and [from_streaming_response] and
    [from_streaming_response_async] end at that fragment with the
    [TypeError] of the string concatenation: when the fragments before it
    are processed without an exception, the stream yields the instances
    they give and then raises, whatever follows; when they are not, their
    exception has ended the stream already.  When no fragment before it
    has choices, nothing is emitted. *)
Theorem tools_none_arguments_raise
    (parser_parse : string -> res pyobj) (cls : ModelClass)
    (extract_json_from_stream extract_json_from_stream_async : gen pystr -> gen pystr)
    (pre rest : list Chunk) (chunk : Chunk) (src_end : option exn)
    (choices_0 : Choice) (others : list Choice) (d : Delta)
    (tool_call_0 : ToolCall) (tcs : list ToolCall) (f : FunctionCall) :
  choices chunk = Has (choices_0 :: others) ->
  delta choices_0 = Has d ->
  tool_calls d = Has (tool_call_0 :: tcs) ->
  function tool_call_0 = Has f ->
  arguments f = IsNone ->
  let error := TypeError concatenate_None_message in
  let before :=
    from_streaming_response parser_parse cls extract_json_from_stream (pre, None) TOOLS in
  let run :=
    from_streaming_response parser_parse cls extract_json_from_stream
      (pre ++ chunk :: rest, src_end) TOOLS in
  let run_async :=
    from_streaming_response_async parser_parse cls extract_json_from_stream_async
      (pre ++ chunk :: rest, src_end) TOOLS in
  extract_json ([chunk], None) TOOLS = ([None], None)
  /\ run_async = run
  /\ (outcome before = None -> run = (yields before, Some error))
  /\ (forall err, outcome before = Some err -> run = (yields before, Some err))
  /\ (Forall without_choices pre -> run = ([], Some error)).
Proof.
  intros Hc Hd Ht Hf Ha error before run run_async.
  assert (Hsel : selected TOOLS chunk = Some None).
  { unfold selected. rewrite Hc, Hd. cbn [selected_of_delta]. rewrite Ht, Hf, Ha.
    reflexivity. }
  assert (Hx : extract_json (pre ++ chunk :: rest, src_end) TOOLS
               = (omap (selected TOOLS) pre ++ None :: omap (selected TOOLS) rest,
                  src_end)).
  { rewrite (extract_json_loop_selected TOOLS src_end (pre ++ chunk :: rest) eq_refl
             : extract_json (pre ++ chunk :: rest, src_end) TOOLS = _).
    rewrite omap_app. cbn [omap list_omap]. rewrite Hsel. reflexivity. }
  assert (Hb : before
               = model_from_chunks_loop parser_parse cls locals_init None
                   (omap (selected TOOLS) pre)).
  { unfold before, from_streaming_response. cbn [Mode_eqb].
    rewrite (extract_json_loop_selected TOOLS None pre eq_refl
             : extract_json (pre, None) TOOLS = _).
    reflexivity. }
  assert (Hrun : run
                 = match model_from_chunks_locals parser_parse cls locals_init
                           (omap (selected TOOLS) pre) with
                   | Ok _ => (yields before, Some error)
                   | Raise err => (yields before, Some err)
                   end).
  { unfold run, from_streaming_response. cbn [Mode_eqb]. rewrite Hx.
    unfold model_from_chunks. cbn [yields outcome fst snd].
    rewrite model_from_chunks_loop_app_gen, Hb.
    destruct (model_from_chunks_locals parser_parse cls locals_init
                (omap (selected TOOLS) pre)) as [st|err]; [|reflexivity].
    cbn [model_from_chunks_loop model_from_chunks_body str_iadd mbind res_bind
         yields outcome fst snd].
    rewrite app_nil_r. reflexivity. }
  assert (Hout : outcome before
                 = match model_from_chunks_locals parser_parse cls locals_init
                           (omap (selected TOOLS) pre) with
                   | Ok _ => None
                   | Raise err => Some err
                   end).
  { rewrite Hb. apply model_from_chunks_locals_outcome. }
  split.
  { rewrite (extract_json_loop_selected TOOLS None [chunk] eq_refl
             : extract_json ([chunk], None) TOOLS = _).
    cbn [omap list_omap]. rewrite Hsel. reflexivity. }
  split.
  { unfold run_async, from_streaming_response_async. cbn [Mode_eqb].
    rewrite model_from_chunks_async_eq. reflexivity. }
  split; [|split].
  - intros Hnone. rewrite Hrun. rewrite Hnone in Hout.
    destruct (model_from_chunks_locals _ _ _ _); [reflexivity | discriminate Hout].
  - intros err Herr. rewrite Hrun. rewrite Herr in Hout.
    destruct (model_from_chunks_locals _ _ _ _) as [st|err'];
      [discriminate Hout | injection Hout as ->; reflexivity].
  - intros Hpre. rewrite Hrun, Hb.
    rewrite (omap_selected_without_choices TOOLS pre Hpre). reflexivity.
Qed.

Lemma tools_none_arguments_raise_witness :
  from_streaming_response (fun _ => Ok (PDict [("a", PInt 1)]))
    {| model_fields := ["a"];
       model_validate := fun v => Ok {| obj_dict := {["a" := v]} |} |}
    (fun g => g)
    ([ {| choices := Has [ {| delta := Has {| function_call := IsNone;
                                              content := IsNone;
                                              tool_calls :=
                                                Has [ {| function :=
                                                           Has {| arguments := Has "{" |}
                                                      |} ] |} |} ] |};
       {| choices := Has [ {| delta := Has {| function_call := IsNone;
                                              content := IsNone;
                                              tool_calls :=
                                                Has [ {| function :=
                                                           Has {| arguments := IsNone |}
                                                      |} ] |} |} ] |} ], None) TOOLS
  = ([ {| obj_dict := {["a" := PDict [("a", PInt 1)]; "chunk" := PStr "{"]} |} ],
     Some (TypeError concatenate_None_message)).
Proof.
  destruct (tools_none_arguments_raise (fun _ => Ok (PDict [("a", PInt 1)]))
           {| model_fields := ["a"];
              model_validate := fun v => Ok {| obj_dict := {["a" := v]} |} |}
           (fun g => g) (fun g => g)
           [ {| choices := Has [ {| delta := Has {| function_call := IsNone;
                                                  content := IsNone;
                                                  tool_calls :=
                                                    Has [ {| function :=
                                                               Has {| arguments := Has "{" |}
                                                          |} ] |} |} ] |} ] []
           {| choices := Has [ {| delta := Has {| function_call := IsNone;
                                                  content := IsNone;
                                                  tool_calls :=
                                                    Has [ {| function :=
                                                               Has {| arguments := IsNone |}
                                                          |} ] |} |} ] |}
           None
           {| delta := Has {| function_call := IsNone; content := IsNone;
                              tool_calls :=
                                Has [ {| function := Has {| arguments := IsNone |} |} ] |} |}
           []
           {| function_call := IsNone; content := IsNone;
              tool_calls := Has [ {| function := Has {| arguments := IsNone |} |} ] |}
           {| function := Has {| arguments := IsNone |} |} []
           {| arguments := IsNone |}
           eq_refl eq_refl eq_refl eq_refl eq_refl) as (_ & _ & Hrun & _).
  refine (eq_trans (Hrun eq_refl) _). vm_compute. reflexivity.
Defined.
(** ** Structural equality decides equality *)

Lemma pyobj_eqb_eq : forall a b : pyobj, pyobj_eqb a b = true -> a = b.
Proof.
  fix IH 1. intros a b.
  destruct a as [| x | m | s | xs | kvs], b as [| y | n | t | ys | kws];
    cbn [pyobj_eqb]; try discriminate.
  - reflexivity.
  - intros H. apply Bool.eqb_prop in H. congruence.
  - intros H. apply Z.eqb_eq in H. congruence.
  - intros H. apply String.eqb_eq in H. congruence.
  - intros H. f_equal. revert xs ys H. fix go 1.
    intros [|x xs'] [|y ys']; try discriminate; [reflexivity|].
    intros H. apply andb_prop in H as [Hx Hr].
    rewrite (IH x y Hx), (go xs' ys' Hr). reflexivity.
  - intros H. f_equal. revert kvs kws H. fix go 1.
    intros [|[k v] r] [|[k' w] r']; try discriminate; [reflexivity|].
    intros H. apply andb_prop in H as [H Hr]. apply andb_prop in H as [Hk Hv].
    apply String.eqb_eq in Hk.
    rewrite Hk, (IH v w Hv), (go r r' Hr). reflexivity.
Qed.

Lemma default_value_eqb_eq (a b : default_value) :
  default_value_eqb a b = true -> a = b.
Proof.
  destruct a as [|v], b as [|w]; cbn; try discriminate; [reflexivity|].
  intros H. rewrite (pyobj_eqb_eq v w H). reflexivity.
Qed.

Lemma option_pyobj_eqb_eq (a b : option pyobj) :
  option_pyobj_eqb a b = true -> a = b.
Proof.
  destruct a as [v|], b as [w|]; cbn; try discriminate; [|reflexivity].
  intros H. rewrite (pyobj_eqb_eq v w H). reflexivity.
Qed.

Lemma origin_eqb_eq (a b : origin) : origin_eqb a b = true -> a = b.
Proof.
  destruct a as [| |x], b as [| |y]; cbn; try discriminate; try reflexivity.
  intros H. apply String.eqb_eq in H. congruence.
Qed.

Lemma option_string_eqb_eq (a b : option string) :
  option_string_eqb a b = true -> a = b.
Proof.
  destruct a as [x|], b as [y|]; cbn; try discriminate; [|reflexivity].
  intros H. apply String.eqb_eq in H. congruence.
Qed.

Lemma ty_eqb_eq (a b : ty) : ty_eqb a b = true -> a = b
with pyclass_eqb_eq (c d : pyclass) : pyclass_eqb c d = true -> c = d
with FieldInfo_eqb_eq (f g : FieldInfo) : FieldInfo_eqb f g = true -> f = g.
Proof.
  - destruct a as [s | c | o xs], b as [t | d | p ys]; cbn [ty_eqb]; try discriminate.
    + intros H. apply String.eqb_eq in H. congruence.
    + intros H. rewrite (pyclass_eqb_eq c d H). reflexivity.
    + intros H. apply andb_prop in H as [Ho Hl].
      rewrite (origin_eqb_eq o p Ho). f_equal.
      revert xs ys Hl. fix go 1.
      intros [|x xs'] [|y ys']; try discriminate; [reflexivity|].
      intros H. apply andb_prop in H as [Hx Hr].
      rewrite (ty_eqb_eq x y Hx), (go xs' ys' Hr). reflexivity.
  - destruct c as [| | | | | n | n bs fs], d as [| | | | | n' | n' bs' fs'];
      cbn [pyclass_eqb]; try discriminate; try reflexivity.
    + intros H. apply String.eqb_eq in H. congruence.
    + intros H. apply andb_prop in H as [H Hf]. apply andb_prop in H as [Hn Hb].
      apply String.eqb_eq in Hn. rewrite Hn. f_equal.
      * revert bs bs' Hb. fix go 1.
        intros [|x r] [|y r']; try discriminate; [reflexivity|].
        intros H. apply andb_prop in H as [Hx Hr].
        rewrite (pyclass_eqb_eq x y Hx), (go r r' Hr). reflexivity.
      * revert fs fs' Hf. fix go 1.
        intros [|[k f] r] [|[k' f'] r']; try discriminate; [reflexivity|].
        intros H. apply andb_prop in H as [H Hr]. apply andb_prop in H as [Hk Hx].
        apply String.eqb_eq in Hk.
        rewrite Hk, (FieldInfo_eqb_eq f f' Hx), (go r r' Hr). reflexivity.
  - destruct f as [a d factory s], g as [a' d' factory' s']; cbn [FieldInfo_eqb].
    intros H. apply andb_prop in H as [H Hs]. apply andb_prop in H as [H Hfa].
    apply andb_prop in H as [Ha Hd].
    rewrite (ty_eqb_eq a a' Ha), (default_value_eqb_eq d d' Hd),
      (option_pyobj_eqb_eq factory factory' Hfa), (option_string_eqb_eq s s' Hs).
    reflexivity.
Qed.

(** ** Every derived field is optional *)

Lemma existsb_remove_dups_from (x : ty) (params : list ty) :
  forall seen,
    existsb (ty_eqb x) params = true ->
    existsb (ty_eqb x) seen = true
    \/ existsb (ty_eqb x) (remove_dups_from seen params) = true.
Proof.
  induction params as [|p r IH]; intros seen H; [discriminate H|].
  cbn [existsb] in H. cbn [remove_dups_from].
  destruct (existsb (ty_eqb p) seen) eqn:Hp.
  - destruct (ty_eqb x p) eqn:Hx.
    + left. rewrite (ty_eqb_eq x p Hx). exact Hp.
    + apply IH. exact H.
  - cbn [existsb]. destruct (ty_eqb x p) eqn:Hx; [right; reflexivity|].
    destruct (IH (seen ++ [p]) H) as [Hs | Hr]; [|right; exact Hr].
    left. rewrite existsb_app in Hs. cbn [existsb] in Hs.
    rewrite Hx, !orb_false_r in Hs. exact Hs.
Qed.

(** [Optional[t]] admits [None], whatever [t] is. *)
Lemma accepts_None_Optional (t : ty) : accepts_None (Optional_ t) = true.
Proof.
  unfold Optional_, Union_getitem.
  assert (H : existsb (ty_eqb NoneType) (flatten_union [t; NoneType]) = true).
  { unfold flatten_union. cbn [flat_map].
    rewrite !existsb_app. apply orb_true_iff. right. reflexivity. }
  destruct (existsb_remove_dups_from NoneType _ [] H) as [Hs | Hd];
    [discriminate Hs|].
  destruct (remove_dups_from [] (flatten_union [t; NoneType])) as [|p [|q r]].
  - discriminate Hd.
  - cbn [existsb] in Hd. rewrite orb_false_r in Hd.
    rewrite <- (ty_eqb_eq NoneType p Hd). reflexivity.
  - exact Hd.
Qed.

Lemma make_field_optional_is_optional (field : FieldInfo) (optional : ty * FieldInfo) :
  _make_field_optional Partial_getitem field = Ok optional ->
  is_optional_field (snd optional) = true.
Proof.
  unfold is_optional_field, _make_field_optional.
  destruct (annotation field) as [s | c | generic_base generic_args].
  - intros [= <-]. cbn [snd annotation default].
    rewrite accepts_None_Optional. reflexivity.
  - destruct (issubclass_BaseModel c).
    + destruct (Partial_getitem c); cbn [mbind res_bind]; [|discriminate].
      intros [= <-]. cbn [snd annotation default].
      rewrite accepts_None_Optional. reflexivity.
    + intros [= <-]. cbn [snd annotation default].
      rewrite accepts_None_Optional. reflexivity.
  - destruct (mapM _ generic_args); cbn [mbind res_bind]; [|discriminate].
    destruct (subscript generic_base a); cbn [mbind res_bind]; [|discriminate].
    intros [= <-]. cbn [snd annotation default].
    rewrite accepts_None_Optional. reflexivity.
Qed.

Lemma Partial_fields_optional (wrapped_class derived : pyclass) :
  Partial_getitem wrapped_class = Ok derived ->
  forallb (fun field_name_info => is_optional_field (snd field_name_info))
          (__fields__ derived) = true.
Proof.
  intros H. apply Partial_getitem_Ok_inv in H as (fields & Hf & ->).
  cbn [__fields__]. apply mapM_Ok_inv in Hf.
  induction Hf as [|item derived_item r r' Hitem _ IH]; [reflexivity|].
  apply optional_item_Ok_inv in Hitem as (optional & Hopt & ->).
  cbn [forallb snd]. rewrite (make_field_optional_is_optional _ _ Hopt). exact IH.
Qed.

Lemma Partial_class_getitem_Ok_inv (module_ : string) (wrapped_class derived : pyclass) :
  Partial_class_getitem module_ wrapped_class = Ok derived ->
  issubclass_BaseModel wrapped_class = true
  /\ resolves_to_Partial wrapped_class = false
  /\ Partial_getitem wrapped_class = Ok derived.
Proof.
  unfold Partial_class_getitem.
  destruct (issubclass_BaseModel wrapped_class); [|discriminate].
  destruct (Partial_getitem wrapped_class) as [derived'|e] eqn:Hd;
    cbn [mbind res_bind]; [|discriminate].
  apply Partial_getitem_Ok_inv in Hd as (fields & _ & ->).
  unfold type_new. cbn [existsb].
  destruct (resolves_to_Partial wrapped_class); [discriminate|].
  cbn [resolves_to_Partial ancestors existsb is_Partial orb].
  intros [= <-]. split; [reflexivity|]. split; reflexivity.
Qed.

(** X13. Every field of a class that [Partial[wrapped_class]] returns is
    optional: its annotation admits [None] (it is [NoneType] or a union
    with [NoneType] among its parameters) and its [default] attribute is
    [None] or [{}], and the class can be instantiated from no data.  The
    field names and their order are those of the source class.
    [Partial[wrapped_class]] returns a class for every model class whose
    fields lead to no union written [X | Y]. *)
Theorem partial_fields_all_optional (module_ : string) (wrapped_class : pyclass) :
  (issubclass_BaseModel wrapped_class = true ->
   resolves_to_Partial wrapped_class = false ->
   pep604_free_class wrapped_class = true ->
   exists derived, Partial_class_getitem module_ wrapped_class = Ok derived)
  /\ forall derived,
       Partial_class_getitem module_ wrapped_class = Ok derived ->
       forallb (fun field_name_info => is_optional_field (snd field_name_info))
               (__fields__ derived) = true
       /\ map fst (__fields__ derived) = map fst (__fields__ wrapped_class)
       /\ exists d, defaults_dict (__fields__ derived) = Ok d
                    /\ type_call derived = Ok {| obj_dict := d |}.
Proof.
  split.
  - intros Hm Hp Hfree.
    rewrite (Partial_class_getitem_model module_ wrapped_class Hm Hp).
    destruct (Partial_getitem_pep604_free wrapped_class Hfree) as (d & Hok & _).
    exists d. exact Hok.
  - intros derived H.
    apply Partial_class_getitem_Ok_inv in H as (_ & Hp & Hd).
    split; [exact (Partial_fields_optional _ _ Hd)|].
    split; [exact (Partial_field_names _ _ Hd)|].
    destruct (defaults_dict_derived _ _ Hd) as [d Hdict].
    exists d. split; [exact Hdict|].
    unfold type_call. rewrite (resolves_to_Partial_derived _ _ Hd), Hp, Hdict.
    reflexivity.
Qed.

Lemma partial_fields_all_optional_witness :
  exists derived,
    Partial_class_getitem "app" Flat = Ok derived
    /\ map fst (__fields__ derived) = ["a"; "tags"; "note"; "items"]
    /\ forallb (fun field_name_info => is_optional_field (snd field_name_info))
               (__fields__ derived) = true.
Proof.
  destruct (partial_fields_all_optional "app" Flat) as (Hok & Hfields).
  destruct (Hok eq_refl eq_refl eq_refl) as (derived & H).
  destruct (Hfields derived H) as (Hopt & Hnames & _).
  exists derived. split; [exact H|]. split; [exact Hnames | exact Hopt].
Defined.

(** ** Deriving from a derived class *)

Lemma In_ancestors_self (c : pyclass) : In c (ancestors c).
Proof. destruct c; left; reflexivity. Qed.

Lemma In_ancestors_derived (c derived x : pyclass) :
  Partial_getitem c = Ok derived ->
  In x (ancestors c) -> In x (ancestors derived).
Proof.
  intros Hd H. apply Partial_getitem_Ok_inv in Hd as (fields & _ & ->).
  cbn [ancestors flat_map]. right. apply in_or_app. left. exact H.
Qed.

Lemma In_PartialBase_derived (c derived : pyclass) :
  Partial_getitem c = Ok derived -> In PartialBase_cls (ancestors derived).
Proof.
  intros Hd. apply Partial_getitem_Ok_inv in Hd as (fields & _ & ->).
  cbn [ancestors flat_map]. right. apply in_or_app. right. left. reflexivity.
Qed.

Lemma Partial_getitem_name (c derived : pyclass) :
  Partial_getitem c = Ok derived -> __name__ derived = "Partial" +:+ __name__ c.
Proof.
  intros Hd. apply Partial_getitem_Ok_inv in Hd as (fields & _ & ->). reflexivity.
Qed.

(** What holds of the class derived [n] times, and of the run that
    derives it. *)
Lemma Partial_iterated_invariant (module_ : string) (c : pyclass) :
  issubclass_BaseModel c = true ->
  resolves_to_Partial c = false ->
  forall n,
    (pep604_free_class c = true ->
     exists derived, Partial_iterated module_ n c = Ok derived
                     /\ pep604_free_class derived = true)
    /\ (forall e, Partial_iterated module_ n c = Raise e ->
                  e = TypeError UnionType_not_subscriptable)
    /\ forall derived,
         Partial_iterated module_ n c = Ok derived ->
         issubclass_BaseModel derived = true
         /\ resolves_to_Partial derived = false
         /\ In c (ancestors derived)
         /\ map fst (__fields__ derived) = map fst (__fields__ c)
         /\ __name__ derived = Nat.iter n (String.append "Partial") (__name__ c)
         /\ (0 < n ->
             In PartialBase_cls (ancestors derived)
             /\ forallb (fun field_name_info => is_optional_field (snd field_name_info))
                        (__fields__ derived) = true).
Proof.
  intros Hm Hp. induction n as [|n (IHfree & IHraise & IHok)].
  - cbn [Partial_iterated]. split; [|split].
    + intros Hfree. exists c. split; [reflexivity | exact Hfree].
    + discriminate.
    + intros derived [= <-].
      split; [exact Hm|]. split; [exact Hp|]. split; [apply In_ancestors_self|].
      split; [reflexivity|]. split; [reflexivity|]. intros H. inversion H.
  - cbn [Partial_iterated].
    destruct (Partial_iterated module_ n c) as [before|e] eqn:Hn; cbn [mbind res_bind].
    + destruct (IHok before eq_refl) as (Hbm & Hbp & Hba & Hbf & Hbn & _).
      rewrite (Partial_class_getitem_model module_ before Hbm Hbp).
      split; [|split].
      * intros Hfree. destruct (IHfree Hfree) as (before' & [= <-] & Hbfree).
        apply Partial_getitem_pep604_free. exact Hbfree.
      * apply Partial_getitem_Raise.
      * intros derived Hd.
        split; [exact (issubclass_BaseModel_derived _ _ Hd Hbm)|].
        split; [rewrite (resolves_to_Partial_derived _ _ Hd); exact Hbp|].
        split; [exact (In_ancestors_derived _ _ _ Hd Hba)|].
        split; [rewrite (Partial_field_names _ _ Hd); exact Hbf|].
        split.
        { rewrite (Partial_getitem_name _ _ Hd), Hbn. reflexivity. }
        intros _. split; [exact (In_PartialBase_derived _ _ Hd)|].
        exact (Partial_fields_optional _ _ Hd).
    + split; [|split].
      * intros Hfree. destruct (IHfree Hfree) as (before' & Hcontra & _).
        discriminate Hcontra.
      * intros e' [= <-]. apply IHraise. reflexivity.
      * discriminate.
Qed.

(** X14. [Partial] can be applied to its own result any number of times.
    From a model class that has no [Partial] above it and whose fields
    lead to no union written [X | Y], every one of the [n] derivations
    returns a class; from any model class with no [Partial] above it, the
    one exception the derivations can raise is the [TypeError] of such a
    union.  The class derived [n] times is a model class below the source
    class, it has no [Partial] above it, it keeps the field names and
    their order, and its name is the source name behind [n] prefixes
    [Partial]; once [n] is positive it is below [PartialBase] and all its
    fields are optional. *)
Theorem partial_iterated (module_ : string) (n : nat) (c : pyclass) :
  issubclass_BaseModel c = true ->
  resolves_to_Partial c = false ->
  (pep604_free_class c = true ->
   exists derived, Partial_iterated module_ n c = Ok derived)
  /\ (forall e, Partial_iterated module_ n c = Raise e ->
                e = TypeError UnionType_not_subscriptable)
  /\ forall derived,
       Partial_iterated module_ n c = Ok derived ->
       issubclass_BaseModel derived = true
       /\ resolves_to_Partial derived = false
       /\ In c (ancestors derived)
       /\ map fst (__fields__ derived) = map fst (__fields__ c)
       /\ __name__ derived = Nat.iter n (String.append "Partial") (__name__ c)
       /\ (0 < n ->
           In PartialBase_cls (ancestors derived)
           /\ forallb (fun field_name_info => is_optional_field (snd field_name_info))
                      (__fields__ derived) = true).
Proof.
  intros Hm Hp.
  destruct (Partial_iterated_invariant module_ c Hm Hp n) as (Hfree & Hraise & Hok).
  split; [|split; [exact Hraise | exact Hok]].
  intros H. destruct (Hfree H) as (derived & Hd & _). exists derived. exact Hd.
Qed.

Lemma partial_iterated_witness :
  exists derived,
    Partial_iterated "app" 3 Outer = Ok derived
    /\ __name__ derived = "PartialPartialPartialOuter"
    /\ map fst (__fields__ derived) = ["inner"].
Proof.
  destruct (partial_iterated "app" 3 Outer eq_refl eq_refl) as (Hfree & _ & Hok).
  destruct (Hfree eq_refl) as (derived & Hd).
  destruct (Hok derived Hd) as (_ & _ & _ & Hfields & Hname & _).
  exists derived. split; [exact Hd|]. split; [exact Hname | exact Hfields].
Defined.

(** ** The derived field, shape by shape *)

Lemma modified_arg_Ok_inv (arg modified : ty) :
  modified_arg Partial_getitem arg = Ok modified -> is_modified_arg arg modified.
Proof.
  destruct arg as [s | c | o args]; cbn [modified_arg is_modified_arg].
  - intros [= <-]. reflexivity.
  - destruct (issubclass_BaseModel c).
    + destruct (Partial_getitem c) as [derived|e]; cbn [mbind res_bind]; [|discriminate].
      intros [= <-]. exists derived. split; reflexivity.
    + intros [= <-]. reflexivity.
  - intros [= <-]. reflexivity.
Qed.

Lemma mapM_modified_arg_Ok_inv (args modified_args : list ty) :
  mapM (modified_arg Partial_getitem) args = Ok modified_args ->
  Forall2 is_modified_arg args modified_args.
Proof.
  intros H. apply mapM_Ok_inv in H.
  induction H as [|arg modified r r' Harg _ IH]; constructor; [|exact IH].
  apply modified_arg_Ok_inv. exact Harg.
Qed.

(** X17. What [_make_field_optional] returns, shape by shape.  The derived
    field has the returned annotation, which admits [None], and keeps the
    [default_factory] and the description of the source field.  A special
    form, and a class that is not a model, becomes its union with
    [NoneType] ([NoneType] stays itself), with default [None]; a model
    class becomes the union of its derived class with [NoneType], with
    default [{}]; a generic becomes the union with [NoneType] of the same
    generic over the arguments, each model class among them replaced by
    its derived class, with default [None]; a [Union] becomes [Optional]
    of the union of the arguments so replaced, with default [None].  For a
    union written [X | Y] it does not return. *)
Theorem make_field_optional_result (field : FieldInfo) (optional : ty * FieldInfo) :
  _make_field_optional Partial_getitem field = Ok optional ->
  annotation (snd optional) = fst optional
  /\ default_factory (snd optional) = default_factory field
  /\ description (snd optional) = description field
  /\ accepts_None (fst optional) = true
  /\ match annotation field with
     | TSpecial name =>
         fst optional = TGeneric Union [TSpecial name; NoneType]
         /\ default (snd optional) = Default PNone
     | TClass c =>
         if issubclass_BaseModel c then
           exists derived,
             Partial_getitem c = Ok derived
             /\ fst optional = TGeneric Union [TClass derived; NoneType]
             /\ default (snd optional) = Default (PDict [])
         else
           fst optional
           = (if ty_eqb NoneType (TClass c) then NoneType
              else TGeneric Union [TClass c; NoneType])
           /\ default (snd optional) = Default PNone
     | TGeneric generic_base generic_args =>
         exists modified_args,
           Forall2 is_modified_arg generic_args modified_args
           /\ default (snd optional) = Default PNone
           /\ match generic_base with
              | Origin name =>
                  fst optional
                  = TGeneric Union [TGeneric (Origin name) modified_args; NoneType]
              | Union => fst optional = Optional_ (Union_getitem modified_args)
              | UnionType => False
              end
     end.
Proof.
  intros H.
  assert (Hn : accepts_None (fst optional) = true).
  { pose proof (make_field_optional_is_optional _ _ H) as Hopt.
    unfold is_optional_field in Hopt. apply andb_prop in Hopt as [Ha _].
    revert H Ha. unfold _make_field_optional.
    destruct (annotation field) as [s | c | o args].
    - intros [= <-]. exact id.
    - destruct (issubclass_BaseModel c).
      + destruct (Partial_getitem c); cbn [mbind res_bind]; [|discriminate].
        intros [= <-]. exact id.
      + intros [= <-]. exact id.
    - destruct (mapM _ args); cbn [mbind res_bind]; [|discriminate].
      destruct (subscript o a); cbn [mbind res_bind]; [|discriminate].
      intros [= <-]. exact id. }
  revert H Hn. unfold _make_field_optional.
  destruct (annotation field) as [s | c | generic_base generic_args].
  - intros [= <-] Hn. cbn [fst snd annotation default default_factory description].
    split; [reflexivity|]. split; [reflexivity|]. split; [reflexivity|].
    split; [exact Hn|]. split; reflexivity.
  - destruct (issubclass_BaseModel c) eqn:Hm.
    + destruct (Partial_getitem c) as [derived|e] eqn:Hd; cbn [mbind res_bind];
        [|discriminate].
      rewrite (Optional_derived c derived Hd).
      intros [= <-] Hn. cbn [fst snd annotation default default_factory description].
      split; [reflexivity|]. split; [reflexivity|]. split; [reflexivity|].
      split; [exact Hn|]. exists derived. split; [reflexivity|]. split; reflexivity.
    + rewrite Optional_TClass.
      destruct (ty_eqb NoneType (TClass c)) eqn:E; intros [= <-] Hn;
        cbn [fst snd annotation default default_factory description].
      * split; [reflexivity|]. split; [reflexivity|]. split; [reflexivity|].
        split; [exact Hn|]. split; [|reflexivity].
        symmetry. apply ty_eqb_eq. exact E.
      * split; [reflexivity|]. split; [reflexivity|]. split; [reflexivity|].
        split; [exact Hn|]. split; reflexivity.
  - destruct (mapM (modified_arg Partial_getitem) generic_args) as [modified_args|e]
      eqn:Hargs; cbn [mbind res_bind]; [|discriminate].
    apply mapM_modified_arg_Ok_inv in Hargs.
    destruct generic_base as [| |name]; cbn [subscript mbind res_bind];
      [| discriminate |].
    + set (t := Optional_ (Union_getitem modified_args)).
      intros [= <-] Hn. cbn [fst snd annotation default default_factory description].
      split; [reflexivity|]. split; [reflexivity|]. split; [reflexivity|].
      split; [exact Hn|]. exists modified_args.
      split; [exact Hargs|]. split; reflexivity.
    + rewrite Optional_TGeneric_Origin.
      intros [= <-] Hn. cbn [fst snd annotation default default_factory description].
      split; [reflexivity|]. split; [reflexivity|]. split; [reflexivity|].
      split; [exact Hn|]. exists modified_args.
      split; [exact Hargs|]. split; reflexivity.
Qed.

Lemma make_field_optional_result_witness :
  exists optional derived,
    _make_field_optional Partial_getitem
      (mkFieldInfo (list_ (TClass Inner)) PydanticUndefined (Some (PList [])) None)
    = Ok optional
    /\ Partial_getitem Inner = Ok derived
    /\ fst optional = TGeneric Union [list_ (TClass derived); NoneType]
    /\ default_factory (snd optional) = Some (PList []).
Proof.
  destruct (_make_field_optional Partial_getitem
              (mkFieldInfo (list_ (TClass Inner)) PydanticUndefined (Some (PList [])) None))
    as [optional|e] eqn:H; [|discriminate H].
  destruct (make_field_optional_result _ optional H)
    as (_ & Hfactory & _ & _ & modified_args & Hargs & _ & Hshape).
  cbn [annotation list_] in Hargs.
  inversion Hargs as [|arg modified r r' Harg Hrest]; subst.
  inversion Hrest; subst.
  destruct Harg as (derived & Hd & ->).
  exists optional, derived. split; [reflexivity|]. split; [exact Hd|].
  split; [exact Hshape | exact Hfactory].
Defined.

(** X18. The derivation reassigns the [default] of a field and leaves its
    [default_factory].  The value the derived field takes when no data is
    given is therefore what the factory of the source field returns, if
    it has one, and else [{}] for a model class and [None] for any other
    type. *)
Theorem derived_field_value_without_data
    (field : FieldInfo) (optional : ty * FieldInfo) :
  _make_field_optional Partial_getitem field = Ok optional ->
  field_get_default (snd optional)
  = Some (match default_factory field with
          | Some made => made
          | None =>
              if is_BaseModel_subclass (annotation field) then PDict [] else PNone
          end).
Proof.
  unfold _make_field_optional, field_get_default.
  destruct (annotation field) as [s | c | o args]; cbn [is_BaseModel_subclass].
  - intros [= <-]. cbn [snd default default_factory].
    destruct (default_factory field); reflexivity.
  - destruct (issubclass_BaseModel c).
    + destruct (Partial_getitem c); cbn [mbind res_bind]; [|discriminate].
      intros [= <-]. cbn [snd default default_factory].
      destruct (default_factory field); reflexivity.
    + intros [= <-]. cbn [snd default default_factory].
      destruct (default_factory field); reflexivity.
  - destruct (mapM _ args); cbn [mbind res_bind]; [|discriminate].
    destruct (subscript o a); cbn [mbind res_bind]; [|discriminate].
    intros [= <-]. cbn [snd default default_factory].
    destruct (default_factory field); reflexivity.
Qed.

Lemma derived_field_value_without_data_witness :
  exists optional derived,
    _make_field_optional Partial_getitem
      (mkFieldInfo (list_ str_) PydanticUndefined (Some (PList [])) None) = Ok optional
    /\ default (snd optional) = Default PNone
    /\ field_get_default (snd optional) = Some (PList [])
    /\ Partial_class_getitem "app" Tagged = Ok derived
    /\ type_call derived = Ok {| obj_dict := {["tags" := PList []]} |}.
Proof.
  destruct (_make_field_optional Partial_getitem
              (mkFieldInfo (list_ str_) PydanticUndefined (Some (PList [])) None))
    as [optional|e] eqn:H; [|discriminate H].
  pose proof (derived_field_value_without_data _ optional H) as Hv.
  injection H as <-.
  eexists. eexists. split; [reflexivity|]. split; [reflexivity|].
  split; [exact Hv|]. split; reflexivity.
Defined.

(** ** The members of [Mode] *)

(** X15. [Mode.__new__] stores the given value in [_value_] and issues the
    deprecation warning exactly for the value of [FUNCTIONS]; executing
    the class body therefore issues that warning once, whichever mode is
    used later.  The nine values are pairwise distinct: looking a member
    up by its value gives that member back, and a value that is found
    belongs to the member found. *)
Theorem Mode_values_and_warning (m : Mode) (value : string) :
  _value_ (fst (Mode___new__ value)) = value
  /\ snd (Mode___new__ (Mode_value m))
     = (if Mode_eqb m FUNCTIONS then [FUNCTIONS_deprecated] else [])
  /\ Mode_class_warnings = [FUNCTIONS_deprecated]
  /\ Mode_by_value (Mode_value m) = Some m
  /\ match Mode_by_value value with
     | Some m' => Mode_value m' = value
     | None => Forall (fun m' => Mode_value m' <> value) Mode_members
     end.
Proof.
  split.
  { unfold Mode___new__. destruct (String.eqb value "function_call"); reflexivity. }
  split; [destruct m; reflexivity|].
  split; [reflexivity|].
  split; [destruct m; reflexivity|].
  unfold Mode_by_value.
  destruct (find _ Mode_members) as [m'|] eqn:Hf.
  - apply find_some in Hf as [_ Hv]. apply String.eqb_eq in Hv.
    rewrite <- Hv. unfold Mode___new__.
    destruct (String.eqb (Mode_value m') "function_call"); reflexivity.
  - apply Forall_forall. intros m' Hin Heq.
    pose proof (find_none _ _ Hf m' Hin) as Hn. cbn beta in Hn.
    assert (Hv : _value_ (fst (Mode___new__ (Mode_value m'))) = Mode_value m').
    { unfold Mode___new__.
      destruct (String.eqb (Mode_value m') "function_call"); reflexivity. }
    rewrite Hv, Heq, String.eqb_refl in Hn. discriminate Hn.
Qed.

(** ** No instance twice in a row *)

(** X16. When the schema declares no field named [chunk], no instance
    that [model_from_chunks] or [model_from_chunks_async] emits is equal,
    under the equality of the schema, to the instance emitted just before
    it: the raw chunk stored on the kept instance does not disturb the
    comparison. *)
Theorem no_repeat_without_chunk_field
    (parser_parse : string -> res pyobj) (cls : ModelClass)
    (json_chunks : list pystr) (src_end : option exn) :
  ~ In "chunk" (model_fields cls) ->
  adjacent_ne (model_fields cls) None
    (yields (model_from_chunks parser_parse cls (json_chunks, src_end))) = true
  /\ adjacent_ne (model_fields cls) None
       (yields (model_from_chunks_async parser_parse cls (json_chunks, src_end)))
     = true.
Proof.
  intros Hk.
  assert (H : adjacent_ne (model_fields cls) None
                (yields (model_from_chunks parser_parse cls (json_chunks, src_end)))
              = true)
    by apply (model_from_chunks_loop_adjacent_ne parser_parse cls json_chunks Hk
                locals_init src_end).
  split; [exact H|]. rewrite model_from_chunks_async_eq. exact H.
Qed.

Lemma no_repeat_without_chunk_field_witness :
  adjacent_ne ["a"; "b"] None
    (yields (model_from_chunks a_then_b_decoder (flat_optional_cls ["a"; "b"])
               a_then_b_fragments)) = true.
Proof.
  apply (no_repeat_without_chunk_field a_then_b_decoder (flat_optional_cls ["a"; "b"])
           (fst a_then_b_fragments) None).
  intros [H | [H | []]]; discriminate H.
Defined.
